(** * PurpleAir channel records and historical retrieval

    A shallow embedding of [purpleair/channel.py]: the construction of a
    [Channel] from the raw attribute mapping of the PurpleAir API
    ([Channel.setup]), the ThingSpeak query-URL builder
    ([Channel.get_thingspeak_url]), the weekly chunked fetch
    ([Channel.get_historical]), the dual-feed merge and the dictionary
    exports ([as_dict], [as_flat_dict]).

    Python values are modelled by [pyval]; Python floats are IEEE binary64
    numbers, written with the Standard Library's [spec_float]; a [dict] is
    an association list in insertion order; exceptions are explicit
    ([result]); objects that the code mutates live in a store ([gmap]) so
    that aliasing between the caller's mapping and the builder's copy is
    visible. *)

From Stdlib Require Import ZArith String Ascii List Bool Lia.
From Stdlib Require Import Floats.SpecFloat.
From stdpp Require Import base option list gmap strings.

Local Open Scope string_scope.
Local Open Scope list_scope.
Local Open Scope Z_scope.

(** ** Exceptions and results *)

(** The exception classes that the modelled code can raise.  [JSONDecodeError]
    is a subclass of [ValueError] in Python; the two are kept apart here and
    [is_ValueError] restores the subclass relation where an [except] clause
    needs it.  [TransportError] stands for whatever the HTTP/CSV reader
    raises (network failure, non-2xx answer, malformed CSV). *)
Inductive exn : Type :=
| TypeError (msg : string)
| ValueError (msg : string)
| JSONDecodeError (msg : string)
| KeyError (key : string)
| AttributeError (msg : string)
| OverflowError (msg : string)
| TransportError (msg : string)
| NonTermination.

Inductive result (A : Type) : Type :=
| Ok (a : A)
| Raise (e : exn).
Arguments Ok {A} a.
Arguments Raise {A} e.

Definition is_TypeError (e : exn) : bool :=
  match e with TypeError _ => true | _ => false end.

Definition is_ValueError (e : exn) : bool :=
  match e with ValueError _ | JSONDecodeError _ => true | _ => false end.

Definition is_KeyError (e : exn) : bool :=
  match e with KeyError _ => true | _ => false end.

Definition is_TransportError (e : exn) : bool :=
  match e with TransportError _ => true | _ => false end.

Definition rbind {A B : Type} (r : result A) (k : A -> result B) : result B :=
  match r with
  | Ok a => k a
  | Raise e => Raise e
  end.

Declare Scope result_scope.
Delimit Scope result_scope with res.
Notation "'try!' x <- r ; k" := (rbind r (fun x => k))
  (at level 10, x name, r at level 100, k at level 200) : result_scope.

(** ** Python values *)

Definition b64 : Type := spec_float.

(** A naive [datetime]: microseconds since 1970-01-01T00:00:00. *)
Record datetime : Type := Datetime { dt_micros : Z }.

#[warnings="-register-all"]
Inductive pyval : Type :=
| PyNone
| PyBool (b : bool)
| PyInt (z : Z)
| PyFloat (f : b64)
| PyStr (s : string)
| PyList (l : list pyval)
| PyDict (d : list (string * pyval))
| PyDatetime (d : datetime).

(** A Python [dict] with string keys, in insertion order. *)
Definition dict : Type := list (string * pyval).

Fixpoint dict_lookup (d : dict) (k : string) : option pyval :=
  match d with
  | [] => None
  | (k', v) :: d' => if String.eqb k' k then Some v else dict_lookup d' k
  end.

(** [key in d] *)
Definition dict_mem (d : dict) (k : string) : bool :=
  match dict_lookup d k with Some _ => true | None => false end.

(** [d.get(key)]: [None] when the key is missing. *)
Definition dict_get (d : dict) (k : string) : pyval :=
  match dict_lookup d k with Some v => v | None => PyNone end.

(** [d[key]]: raises [KeyError] when the key is missing. *)
Definition dict_item (d : dict) (k : string) : result pyval :=
  match dict_lookup d k with Some v => Ok v | None => Raise (KeyError k) end.

(** [d[key] = v]: an existing key keeps its position, a new key goes last. *)
Fixpoint dict_set (d : dict) (k : string) (v : pyval) : dict :=
  match d with
  | [] => [(k, v)]
  | (k', v') :: d' =>
      if String.eqb k' k then (k', v) :: d' else (k', v') :: dict_set d' k v
  end.

Definition dict_keys (d : dict) : list string := map fst d.

(** ** Characters *)

Definition code (c : ascii) : N := N_of_ascii c.

Definition is_digit (c : ascii) : bool := (48 <=? code c)%N && (code c <=? 57)%N.

Definition digit_val (c : ascii) : Z := Z.of_N (code c) - 48.

(** ASCII white space as [str.strip] and the numeric constructors see it. *)
Definition is_py_space (c : ascii) : bool :=
  ((9 <=? code c)%N && (code c <=? 13)%N)
  || ((28 <=? code c)%N && (code c <=? 32)%N).

Definition lower (c : ascii) : ascii :=
  if (65 <=? code c)%N && (code c <=? 90)%N
  then ascii_of_N (code c + 32) else c.

Fixpoint drop_spaces (l : list ascii) : list ascii :=
  match l with
  | c :: l' => if is_py_space c then drop_spaces l' else l
  | [] => []
  end.

Definition strip (l : list ascii) : list ascii :=
  rev (drop_spaces (rev (drop_spaces l))).

(** Splits a leading sign off: [(negative, rest)]. *)
Definition take_sign (l : list ascii) : bool * list ascii :=
  match l with
  | "-"%char :: l' => (true, l')
  | "+"%char :: l' => (false, l')
  | _ => (false, l)
  end.

(** Reads a [digitpart]: digits, single underscores allowed between two
    digits.  Returns the digits read and what follows; no digit read
    gives [None]. *)
Fixpoint digitpart_tail (l : list ascii) (acc : list ascii)
  : list ascii * list ascii :=
  match l with
  | c :: l' =>
      if is_digit c then digitpart_tail l' (c :: acc)
      else match c, l' with
           | "_"%char, c' :: l'' =>
               if is_digit c' then digitpart_tail l'' (c' :: acc)
               else (rev acc, l)
           | _, _ => (rev acc, l)
           end
  | [] => (rev acc, [])
  end.

Definition digitpart (l : list ascii) : option (list ascii * list ascii) :=
  match l with
  | c :: l' => if is_digit c then Some (digitpart_tail l' [c]) else None
  | [] => None
  end.

Definition digits_val (ds : list ascii) : Z :=
  fold_left (fun acc c => 10 * acc + digit_val c) ds 0.

(** ** Binary64 numbers *)

Module Float.

Definition prec : Z := 53.
Definition emax : Z := 1024.

Definition of_Z (z : Z) : b64 := binary_normalize prec emax z 0 false.

Definition add : b64 -> b64 -> b64 := SFadd prec emax.
Definition sub : b64 -> b64 -> b64 := SFsub prec emax.
Definition mul : b64 -> b64 -> b64 := SFmul prec emax.
Definition div : b64 -> b64 -> b64 := SFdiv prec emax.
Definition eqb : b64 -> b64 -> bool := SFeqb.

Definition is_finite (f : b64) : bool :=
  match f with
  | S754_zero _ | S754_finite _ _ _ => true
  | _ => false
  end.

(** The correctly rounded quotient [n / d] of two integers, [0 < d]:
    the numerator is scaled until the integer quotient has more than
    [prec] bits, and the remainder decides the rounding. *)
Definition of_ratio (n d : Z) : b64 :=
  match n with
  | Z0 => S754_zero false
  | _ =>
      let a := Z.abs n in
      let k := Z.max 0 (Z.log2 d - Z.log2 a + prec + 2) in
      let q := (a * 2 ^ k) / d in
      let r := (a * 2 ^ k) mod d in
      let l := if r =? 0 then loc_Exact else loc_Inexact (2 * r ?= d) in
      binary_round_aux prec emax (n <? 0) q (- k) l
  end.

(** The binary64 number nearest to [m * 10 ^ e] ([m >= 0]), ties to
    even, as [strtod] computes it; [neg] is the sign. *)
Definition of_decimal (neg : bool) (m e : Z) : b64 :=
  if m =? 0 then S754_zero neg
  else if 0 <=? e
       then binary_normalize prec emax ((if neg then - m else m) * 10 ^ e) 0 neg
       else of_ratio (if neg then - m else m) (10 ^ (- e)).

(** The integer part, toward zero, of a finite number. *)
Definition trunc (f : b64) : Z :=
  match f with
  | S754_finite s m e =>
      let a := if 0 <=? e then Z.pos m * 2 ^ e else Z.pos m / 2 ^ (- e) in
      if s then - a else a
  | _ => 0
  end.

(** The nearest integer, ties to even, of a finite number. *)
Definition round_half_even (f : b64) : Z :=
  match f with
  | S754_finite s m e =>
      let a :=
        if 0 <=? e then Z.pos m * 2 ^ e
        else
          let q := Z.pos m / 2 ^ (- e) in
          let r := Z.pos m mod 2 ^ (- e) in
          match 2 * r ?= 2 ^ (- e) with
          | Lt => q
          | Gt => q + 1
          | Eq => if Z.even q then q else q + 1
          end in
      if s then - a else a
  | _ => 0
  end.

(** [f == z] for a Python float and a Python int: exact, no rounding of
    the integer. *)
Definition eqb_Z (f : b64) (z : Z) : bool :=
  match f with
  | S754_zero _ => z =? 0
  | S754_finite s m e =>
      if 0 <=? e then (if s then - (Z.pos m * 2 ^ e) else Z.pos m * 2 ^ e) =? z
      else (Z.pos m mod 2 ^ (- e) =? 0)
           && ((if s then - (Z.pos m / 2 ^ (- e)) else Z.pos m / 2 ^ (- e)) =? z)
  | _ => false
  end.

Definition is_zero (f : b64) : bool :=
  match f with S754_zero _ => true | _ => false end.

End Float.

(** ** Built-in conversions *)

Definition chars (s : string) : list ascii := list_ascii_of_string s.
Definition text (l : list ascii) : string := string_of_list_ascii l.

(** The literal accepted by [float(str)] after stripping and the sign:
    [inf], [infinity], [nan] in any case, or
    [[digitpart] "." digitpart | digitpart ["."]] with an optional
    exponent.  Returns the value for the sign [neg]. *)
Definition float_of_unsigned (neg : bool) (l : list ascii) : option b64 :=
  let low := text (map lower l) in
  if String.eqb low "inf" || String.eqb low "infinity" then Some (S754_infinity neg)
  else if String.eqb low "nan" then Some S754_nan
  else
    let '(ip, l1) := match digitpart l with Some r => r | None => ([], l) end in
    let '(fp, l2) :=
      match l1 with
      | "."%char :: l1' =>
          match digitpart l1' with
          | Some r => r
          | None => ([], l1')
          end
      | _ => ([], l1)
      end in
    match ip, fp with
    | [], [] => None
    | _, _ =>
        let m := digits_val (ip ++ fp) in
        let nf := Z.of_nat (length fp) in
        match l2 with
        | [] => Some (Float.of_decimal neg m (- nf))
        | c :: l3 =>
            if Ascii.eqb (lower c) "e" then
              let '(eneg, l4) := take_sign l3 in
              match digitpart l4 with
              | Some (ep, []) =>
                  let e := if eneg then - digits_val ep else digits_val ep in
                  Some (Float.of_decimal neg m (e - nf))
              | _ => None
              end
            else None
        end
    end.

Definition float_of_string (s : string) : option b64 :=
  let '(neg, l) := take_sign (strip (chars s)) in
  float_of_unsigned neg l.

(** The literal accepted by [int(str)], base 10. *)
Definition int_of_string (s : string) : option Z :=
  let '(neg, l) := take_sign (strip (chars s)) in
  match digitpart l with
  | Some (ds, []) => Some (if neg then - digits_val ds else digits_val ds)
  | _ => None
  end.

(** [float(v)] *)
Definition py_float (v : pyval) : result b64 :=
  match v with
  | PyFloat f => Ok f
  | PyInt z =>
      let f := Float.of_Z z in
      if Float.is_finite f then Ok f
      else Raise (OverflowError "int too large to convert to float")
  | PyBool b => Ok (Float.of_Z (if b then 1 else 0))
  | PyStr s =>
      match float_of_string s with
      | Some f => Ok f
      | None => Raise (ValueError "could not convert string to float")
      end
  | _ => Raise (TypeError "float() argument must be a string or a real number")
  end.

(** [int(v)] *)
Definition py_int (v : pyval) : result Z :=
  match v with
  | PyInt z => Ok z
  | PyBool b => Ok (if b then 1 else 0)
  | PyFloat S754_nan => Raise (ValueError "cannot convert float NaN to integer")
  | PyFloat (S754_infinity _) =>
      Raise (OverflowError "cannot convert float infinity to integer")
  | PyFloat f => Ok (Float.trunc f)
  | PyStr s =>
      match int_of_string s with
      | Some z => Ok z
      | None => Raise (ValueError "invalid literal for int() with base 10")
      end
  | _ => Raise (TypeError "int() argument must be a string or a real number")
  end.

(** [bool(v)]: the truth value of an object. *)
Definition py_bool (v : pyval) : bool :=
  match v with
  | PyNone => false
  | PyBool b => b
  | PyInt z => negb (z =? 0)
  | PyFloat f => negb (Float.is_zero f)
  | PyStr s => negb (String.eqb s "")
  | PyList l => match l with [] => false | _ => true end
  | PyDict d => match d with [] => false | _ => true end
  | PyDatetime _ => true
  end.

(** [v is None] *)
Definition is_none (v : pyval) : bool :=
  match v with PyNone => true | _ => false end.

(** [v == s] for a string literal [s]. *)
Definition py_eq_str (v : pyval) (s : string) : bool :=
  match v with
  | PyStr s' => String.eqb s' s
  | _ => false
  end.

(** [v == z] for an integer literal [z]: numbers compare by value, so
    [True == 1] and [1.0 == 1] hold. *)
Definition py_eq_int (v : pyval) (z : Z) : bool :=
  match v with
  | PyInt z' => z' =? z
  | PyBool b => (if b then 1 else 0) =? z
  | PyFloat f => Float.eqb_Z f z
  | _ => false
  end.

(** [z / d] for two ints, [d > 0]: true division. *)
Definition int_true_div (z d : Z) : result b64 :=
  let f := Float.of_ratio z d in
  if Float.is_finite f then Ok f
  else Raise (OverflowError "integer division result too large for a float").

(** ** [json.loads] *)

Module Json.

Definition quote : ascii := ascii_of_N 34.
Definition backslash : ascii := ascii_of_N 92.

Inductive outcome : Type :=
| Parsed (v : pyval) (rest : list ascii)
| Malformed (msg : string)
| Exhausted.

Definition is_ws (c : ascii) : bool :=
  (code c =? 32)%N || (code c =? 9)%N || (code c =? 10)%N || (code c =? 13)%N.

Fixpoint skip_ws (l : list ascii) : list ascii :=
  match l with
  | c :: l' => if is_ws c then skip_ws l' else l
  | [] => []
  end.

Definition hex_val (c : ascii) : option Z :=
  let n := Z.of_N (code c) in
  if (48 <=? n) && (n <=? 57) then Some (n - 48)
  else if (65 <=? n) && (n <=? 70) then Some (n - 55)
  else if (97 <=? n) && (n <=? 102) then Some (n - 87)
  else None.

Definition hex4 (a b c d : ascii) : option Z :=
  match hex_val a, hex_val b, hex_val c, hex_val d with
  | Some x, Some y, Some z, Some w => Some (((x * 16 + y) * 16 + z) * 16 + w)
  | _, _, _, _ => None
  end.

Definition byte (z : Z) : ascii := ascii_of_N (Z.to_N z).

(** UTF-8 bytes of a code point (a lone surrogate is encoded like any
    other three-byte code point). *)
Definition utf8 (cp : Z) : list ascii :=
  if cp <? 128 then [byte cp]
  else if cp <? 2048 then [byte (192 + cp / 64); byte (128 + cp mod 64)]
  else if cp <? 65536 then
    [byte (224 + cp / 4096); byte (128 + (cp / 64) mod 64); byte (128 + cp mod 64)]
  else
    [byte (240 + cp / 262144); byte (128 + (cp / 4096) mod 64);
     byte (128 + (cp / 64) mod 64); byte (128 + cp mod 64)].

Definition flush (pending : option Z) (acc : list ascii) : list ascii :=
  match pending with
  | Some hi => rev (utf8 hi) ++ acc
  | None => acc
  end.

(** The body of a string after its opening quote, in strict mode.
    [acc] is the text read so far, reversed; [pending] is a high
    surrogate read from an escape and waiting for its low half. *)
Fixpoint scan_string (l : list ascii) (pending : option Z) (acc : list ascii)
  : option (string * list ascii) :=
  match l with
  | [] => None
  | c :: l' =>
      if Ascii.eqb c quote then Some (text (rev (flush pending acc)), l')
      else if Ascii.eqb c backslash then
        match l' with
        | "u"%char :: h1 :: h2 :: h3 :: h4 :: l'' =>
            match hex4 h1 h2 h3 h4 with
            | None => None
            | Some cp =>
                match pending with
                | Some hi =>
                    if (56320 <=? cp) && (cp <=? 57343)
                    then scan_string l'' None
                           (rev (utf8 (65536 + (hi - 55296) * 1024 + (cp - 56320))) ++ acc)
                    else if (55296 <=? cp) && (cp <=? 56319)
                    then scan_string l'' (Some cp) (flush pending acc)
                    else scan_string l'' None (rev (utf8 cp) ++ flush pending acc)
                | None =>
                    if (55296 <=? cp) && (cp <=? 56319)
                    then scan_string l'' (Some cp) acc
                    else scan_string l'' None (rev (utf8 cp) ++ acc)
                end
            end
        | e :: l'' =>
            let plain (b : Z) := scan_string l'' None (byte b :: flush pending acc) in
            if Ascii.eqb e quote then plain 34
            else if Ascii.eqb e backslash then plain 92
            else match e with
                 | "/"%char => plain 47
                 | "b"%char => plain 8
                 | "f"%char => plain 12
                 | "n"%char => plain 10
                 | "r"%char => plain 13
                 | "t"%char => plain 9
                 | _ => None
                 end
        | [] => None
        end
      else if (code c <? 32)%N then None
      else scan_string l' None (c :: flush pending acc)
  end.

Fixpoint take_digits (l : list ascii) (acc : list ascii) : list ascii * list ascii :=
  match l with
  | c :: l' => if is_digit c then take_digits l' (c :: acc) else (rev acc, l)
  | [] => (rev acc, [])
  end.

(** A number: an optional minus sign, then [0] or a non-zero digit
    and more digits, then an optional fraction (a dot and digits) and an
    optional exponent ([e] or [E], a sign, digits).  An integer literal
    gives an [int], one with a fraction or an exponent a [float]. *)
Definition scan_number (l : list ascii) : option (pyval * list ascii) :=
  let '(neg, l0) := match l with "-"%char :: r => (true, r) | _ => (false, l) end in
  let ipart :=
    match l0 with
    | "0"%char :: r => Some (["0"%char], r)
    | c :: r => if is_digit c then Some (take_digits r [c]) else None
    | [] => None
    end in
  match ipart with
  | None => None
  | Some (ip, l1) =>
      let '(fp, l2) :=
        match l1 with
        | "."%char :: c :: r =>
            if is_digit c then take_digits r [c] else ([], l1)
        | _ => ([], l1)
        end in
      let '(ex, l3) :=
        match l2 with
        | c :: r =>
            if Ascii.eqb (lower c) "e" then
              let '(eneg, r') :=
                match r with
                | "-"%char :: r' => (true, r')
                | "+"%char :: r' => (false, r')
                | _ => (false, r)
                end in
              match take_digits r' [] with
              | ([], _) => (None, l2)
              | (ds, r'') =>
                  (Some (if eneg then - digits_val ds else digits_val ds), r'')
              end
            else (None, l2)
        | [] => (None, l2)
        end in
      match fp, ex with
      | [], None =>
          Some (PyInt (if neg then - digits_val ip else digits_val ip), l3)
      | _, _ =>
          let e := match ex with Some e => e | None => 0 end in
          Some (PyFloat (Float.of_decimal neg (digits_val (ip ++ fp))
                           (e - Z.of_nat (length fp))), l3)
      end
  end.

(** [drop_prefix p l]: what follows the prefix [p] of [l], if [l] starts
    with [p]. *)
Fixpoint drop_prefix (p l : list ascii) : option (list ascii) :=
  match p, l with
  | [], _ => Some l
  | a :: p', b :: l' => if Ascii.eqb a b then drop_prefix p' l' else None
  | _ :: _, [] => None
  end.

Definition scan_literal (l : list ascii) : option (pyval * list ascii) :=
  let try_word (w : string) (v : pyval) (k : option (pyval * list ascii)) :=
    match drop_prefix (chars w) l with
    | Some r => Some (v, r)
    | None => k
    end in
  try_word "null" PyNone
    (try_word "true" (PyBool true)
       (try_word "false" (PyBool false)
          (try_word "NaN" (PyFloat S754_nan)
             (try_word "Infinity" (PyFloat (S754_infinity false))
                (try_word "-Infinity" (PyFloat (S754_infinity true))
                   (scan_number l)))))).

Definition expecting_value : outcome := Malformed "Expecting value".

(** What follows the character [ch] at the head of [l], if [l] starts
    with it. *)
Definition expect (ch : ascii) (l : list ascii) : option (list ascii) :=
  match l with
  | c :: r => if Ascii.eqb c ch then Some r else None
  | [] => None
  end.

(** One JSON value at the head of [l].  Every recursive call is made on
    a strictly shorter input with one unit of fuel less. *)
Fixpoint value (fuel : nat) (l : list ascii) : outcome :=
  match fuel with
  | O => Exhausted
  | S n =>
      match l with
      | [] => expecting_value
      | c :: r =>
          if Ascii.eqb c quote then
            match scan_string r None [] with
            | Some (s, r') => Parsed (PyStr s) r'
            | None => Malformed "Invalid string"
            end
          else if Ascii.eqb c "[" then
            match expect "]" (skip_ws r) with
            | Some r' => Parsed (PyList []) r'
            | None =>
                match value n (skip_ws r) with
                | Parsed v r'' => elements n r'' [v]
                | o => o
                end
            end
          else if Ascii.eqb c "{" then
            match expect "}" (skip_ws r) with
            | Some r' => Parsed (PyDict []) r'
            | None => members n (skip_ws r) []
            end
          else
            match scan_literal l with
            | Some (v, r') => Parsed v r'
            | None => expecting_value
            end
      end
  end

(** After an array element: a closing bracket, or a comma and one more
    element. *)
with elements (fuel : nat) (l : list ascii) (acc : list pyval) : outcome :=
  match fuel with
  | O => Exhausted
  | S n =>
      match expect "]" (skip_ws l) with
      | Some r => Parsed (PyList (rev acc)) r
      | None =>
          match expect "," (skip_ws l) with
          | Some r =>
              match value n (skip_ws r) with
              | Parsed v r' => elements n r' (v :: acc)
              | o => o
              end
          | None => Malformed "Expecting ',' delimiter"
          end
      end
  end

(** At a property name of an object: [acc] holds the pairs read. *)
with members (fuel : nat) (l : list ascii) (acc : dict) : outcome :=
  match fuel with
  | O => Exhausted
  | S n =>
      match expect quote l with
      | Some r =>
          match scan_string r None [] with
          | None => Malformed "Invalid string"
          | Some (k, r1) =>
              match expect ":" (skip_ws r1) with
              | Some r2 =>
                  match value n (skip_ws r2) with
                  | Parsed v r3 =>
                      match expect "}" (skip_ws r3) with
                      | Some r4 => Parsed (PyDict (dict_set acc k v)) r4
                      | None =>
                          match expect "," (skip_ws r3) with
                          | Some r4 => members n (skip_ws r4) (dict_set acc k v)
                          | None => Malformed "Expecting ',' delimiter"
                          end
                      end
                  | o => o
                  end
              | None => Malformed "Expecting ':' delimiter"
              end
          end
      | None => Malformed "Expecting property name enclosed in double quotes"
      end
  end.

(** A whole document: one value between optional white space. *)
Definition document (s : string) : outcome :=
  let l := chars s in
  match value (S (length l)) (skip_ws l) with
  | Parsed v r =>
      match skip_ws r with
      | [] => Parsed v []
      | _ => Malformed "Extra data"
      end
  | o => o
  end.

End Json.

(** [json.loads(v)] *)
Definition json_loads (v : pyval) : result pyval :=
  match v with
  | PyStr s =>
      match Json.document s with
      | Json.Parsed v _ => Ok v
      | Json.Malformed msg => Raise (JSONDecodeError msg)
      | Json.Exhausted => Raise NonTermination
      end
  | _ => Raise (TypeError "the JSON object must be str, bytes or bytearray")
  end.

(** Replaces each single quote by a double quote: a way to write text
    that holds double quotes. *)
Definition with_double_quotes (s : string) : string :=
  text (map (fun c => if Ascii.eqb c "'" then Json.quote else c) (chars s)).

(** ** [datetime] *)

Module Date.

Definition micros_per_second : Z := 1000000.
Definition micros_per_day : Z := 86400 * micros_per_second.
Definition micros_per_week : Z := 7 * micros_per_day.

(** 0001-01-01T00:00:00 and 9999-12-31T23:59:59.999999 *)
Definition min_micros : Z := -62135596800 * micros_per_second.
Definition max_micros : Z := 253402300799 * micros_per_second + 999999.

Definition in_range (m : Z) : bool := (min_micros <=? m) && (m <=? max_micros).

(** [datetime.utcfromtimestamp(v)].  A float is split into its integer
    and fractional parts and the fraction is rounded, ties to even, to
    microseconds.  A time outside the years 1 to 9999 raises; CPython
    reports it as [ValueError], or as [OverflowError] or [OSError] when
    the platform's [time_t] or [gmtime] fails first: the model raises
    [ValueError] for all of them. *)
Definition utcfromtimestamp (v : pyval) : result datetime :=
  let of_micros (m : Z) :=
    if in_range m then Ok (Datetime m)
    else Raise (ValueError "year is out of range") in
  match v with
  | PyInt z => of_micros (z * micros_per_second)
  | PyBool b => of_micros ((if b then 1 else 0) * micros_per_second)
  | PyFloat S754_nan => Raise (ValueError "Invalid value NaN (not a number)")
  | PyFloat (S754_infinity _) =>
      Raise (OverflowError "timestamp out of range for platform time_t")
  | PyFloat f =>
      let ip := Float.trunc f in
      let frac := Float.sub f (Float.of_Z ip) in
      of_micros (ip * micros_per_second
                 + Float.round_half_even (Float.mul frac (Float.of_Z micros_per_second)))
  | _ => Raise (TypeError "an integer is required")
  end.

(** [d - timedelta(weeks=n)] *)
Definition sub_weeks (d : datetime) (n : Z) : result datetime :=
  let m := dt_micros d - n * micros_per_week in
  if in_range m then Ok (Datetime m)
  else Raise (OverflowError "date value out of range").

(** The civil date (year, month, day) of a day count from 1970-01-01, in
    the proleptic Gregorian calendar. *)
Definition civil_of_days (days : Z) : Z * Z * Z :=
  let z := days + 719468 in
  let era := z / 146097 in
  let doe := z - era * 146097 in
  let yoe := (doe - doe / 1460 + doe / 36524 - doe / 146096) / 365 in
  let doy := doe - (365 * yoe + yoe / 4 - yoe / 100) in
  let mp := (5 * doy + 2) / 153 in
  let d := doy - (153 * mp + 2) / 5 + 1 in
  let m := if mp <? 10 then mp + 3 else mp - 9 in
  let y := yoe + era * 400 + (if m <=? 2 then 1 else 0) in
  (y, m, d).

Definition digit_char (z : Z) : ascii := ascii_of_N (Z.to_N (48 + z mod 10)).

Definition pad2 (z : Z) : string :=
  String (digit_char (z / 10)) (String (digit_char z) "").

Definition pad4 (z : Z) : string :=
  String (digit_char (z / 1000)) (String (digit_char (z / 100)) (pad2 z)).

(** [d.strftime(fmt)] for the directives [%Y %m %d %H %M %S %%]; the year
    is written with four digits.  Any other character, directive or not,
    is copied. *)
Fixpoint format (fmt : list ascii) (d : datetime) : string :=
  let days := dt_micros d / micros_per_day in
  let secs := (dt_micros d mod micros_per_day) / micros_per_second in
  let '(y, m, dd) := civil_of_days days in
  match fmt with
  | "%"%char :: c :: fmt' =>
      match c with
      | "Y"%char => pad4 y ++ format fmt' d
      | "m"%char => pad2 m ++ format fmt' d
      | "d"%char => pad2 dd ++ format fmt' d
      | "H"%char => pad2 (secs / 3600) ++ format fmt' d
      | "M"%char => pad2 ((secs / 60) mod 60) ++ format fmt' d
      | "S"%char => pad2 (secs mod 60) ++ format fmt' d
      | "%"%char => String "%" (format fmt' d)
      | _ => String "%" (String c (format fmt' d))
      end
  | c :: fmt' => String c (format fmt' d)
  | [] => ""
  end%string.

Definition strftime (d : datetime) (fmt : string) : string := format (chars fmt) d.

End Date.

(** ** The channel record *)

(** [try: r except K: handler] for the exception classes selected by
    [caught]. *)
Definition rcatch {A : Type} (r : result A) (caught : exn -> bool)
  (handler : result A) : result A :=
  match r with
  | Ok a => Ok a
  | Raise e => if caught e then handler else Raise e
  end.

(** [v.get(key)]: only a [dict] has the method. *)
Definition py_get (v : pyval) (key : string) : result pyval :=
  match v with
  | PyDict d => Ok (dict_get d key)
  | _ => Raise (AttributeError "object has no attribute 'get'")
  end.

(** A [thingspeak.Channel] handle: the constructor stores the identifier
    and the key and does nothing else. *)
Record ts_handle : Type := TsHandle { ts_id : pyval; ts_api_key : pyval }.

Record Channel : Type := MkChannel {
  channel_data : dict;
  (* Meta *)
  lat : pyval;
  lon : pyval;
  identifier : pyval;
  parent : pyval;
  type : string;
  name : pyval;
  location_type : pyval;
  (* Data *)
  current_pm2_5 : pyval;
  current_temp_f : pyval;
  current_temp_c : pyval;
  current_humidity : pyval;
  current_pressure : pyval;
  current_p_0_3_um : pyval;
  current_p_0_5_um : pyval;
  current_p_1_0_um : pyval;
  current_p_2_5_um : pyval;
  current_p_5_0_um : pyval;
  current_p_10_0_um : pyval;
  current_pm1_0_cf_1 : pyval;
  current_pm2_5_cf_1 : pyval;
  current_pm10_0_cf_1 : pyval;
  current_pm1_0_atm : pyval;
  current_pm2_5_atm : pyval;
  current_pm10_0_atm : pyval;
  (* Statistics *)
  pm2_5stats : pyval;
  m10avg : pyval;
  m30avg : pyval;
  h1ravg : pyval;
  h6ravg : pyval;
  d1avg : pyval;
  w1avg : pyval;
  last_modified_stats : pyval;
  last2_modified : pyval;
  (* ThingSpeak IDs *)
  tp_primary_channel : pyval;
  tp_primary_key : pyval;
  tp_secondary_channel : pyval;
  tp_secondary_key : pyval;
  thingspeak_primary : option ts_handle;
  thingspeak_secondary : option ts_handle;
  (* Diagnostic *)
  last_seen : pyval;
  model : pyval;
  adc : pyval;
  rssi : pyval;
  hidden : bool;
  flagged : bool;
  downgraded : bool;
  age : pyval;
  brightness : pyval;
  hardware : pyval;
  version : pyval;
  last_update_check : pyval;
  created : pyval;
  uptime : pyval;
  is_owner : bool
}.

Section Setup.

Variable data : dict.

Local Open Scope result_scope.

(** [Channel.safe_float]: only [TypeError] and [ValueError] are caught. *)
Definition safe_float (key : string) : result pyval :=
  let result := dict_get data key in
  if negb (is_none result) then
    rcatch (try! f <- py_float result; Ok (PyFloat f))
      (fun e => is_TypeError e || is_ValueError e) (Ok PyNone)
  else Ok result.

(** [(temp_f - 32) * (5 / 9)] *)
Definition celsius (temp_f : pyval) : result pyval :=
  match temp_f with
  | PyFloat f =>
      Ok (PyFloat (Float.mul (Float.sub f (Float.of_Z 32)) (Float.of_ratio 5 9)))
  | _ => Raise (TypeError "unsupported operand type(s) for -")
  end.

(** [stats.get(key) if stats else None] *)
Definition stat_if_truthy (stats : pyval) (key : string) : result pyval :=
  if py_bool stats then py_get stats key else Ok PyNone.

(** [stats.get(key) if stats is not None else None] *)
Definition stat_if_not_none (stats : pyval) (key : string) : result pyval :=
  if negb (is_none stats) then py_get stats key else Ok PyNone.

(** [datetime.utcfromtimestamp(int(last_mod) / 1000)] *)
Definition millis_to_datetime (last_mod : pyval) : result pyval :=
  try! z <- py_int last_mod;
  try! f <- int_true_div z 1000;
  try! d <- Date.utcfromtimestamp (PyFloat f);
  Ok (PyDatetime d).

(** [datetime.utcfromtimestamp(int(last_seen))] *)
Definition seconds_to_datetime (last_seen : pyval) : result pyval :=
  try! z <- py_int last_seen;
  try! d <- Date.utcfromtimestamp (PyInt z);
  Ok (PyDatetime d).

(** The [try] block that reads the four ThingSpeak keys. *)
Definition thingspeak_ids : result (pyval * pyval * pyval * pyval) :=
  try! pc <- dict_item data "THINGSPEAK_PRIMARY_ID";
  try! pk <- dict_item data "THINGSPEAK_PRIMARY_ID_READ_KEY";
  try! sc <- dict_item data "THINGSPEAK_SECONDARY_ID";
  try! sk <- dict_item data "THINGSPEAK_SECONDARY_ID_READ_KEY";
  Ok (pc, pk, sc, sk).

(** [Channel.setup], run by [Channel.__init__]: the assignments in the
    order of the source, so that the first failing one decides the
    exception. *)
Definition setup : result Channel :=
  (* Meta *)
  try! lat <- safe_float "Lat";
  try! lon <- safe_float "Lon";
  let identifier := dict_get data "ID" in
  let parent := dict_get data "ParentID" in
  let type := if is_none parent then "parent" else "child" in
  let name := dict_get data "Label" in
  let location_type := dict_get data "DEVICE_LOCATIONTYPE" in
  (* Data *)
  try! current_pm2_5 <- safe_float "PM2_5Value";
  try! current_temp_f <- safe_float "temp_f";
  try! current_temp_c <-
    (if negb (is_none current_temp_f) then celsius current_temp_f else Ok PyNone);
  try! current_humidity <- safe_float "humidity";
  try! current_pressure <- safe_float "pressure";
  try! current_p_0_3_um <- safe_float "p_0_3_um";
  try! current_p_0_5_um <- safe_float "p_0_5_um";
  try! current_p_1_0_um <- safe_float "p_1_0_um";
  try! current_p_2_5_um <- safe_float "p_2_5_um";
  try! current_p_5_0_um <- safe_float "p_5_0_um";
  try! current_p_10_0_um <- safe_float "p_10_0_um";
  try! current_pm1_0_cf_1 <- safe_float "pm1_0_cf_1";
  try! current_pm2_5_cf_1 <- safe_float "pm2_5_cf_1";
  try! current_pm10_0_cf_1 <- safe_float "pm10_0_cf_1";
  try! current_pm1_0_atm <- safe_float "pm1_0_atm";
  try! current_pm2_5_atm <- safe_float "pm2_5_atm";
  try! current_pm10_0_atm <- safe_float "pm10_0_atm";
  (* Statistics *)
  try! pm2_5stats <-
    (if dict_mem data "Stats"
     then try! s <- dict_item data "Stats"; json_loads s
     else Ok PyNone);
  try! m10avg <- stat_if_truthy pm2_5stats "v1";
  try! m30avg <- stat_if_truthy pm2_5stats "v2";
  try! h1ravg <- stat_if_truthy pm2_5stats "v3";
  try! h6ravg <- stat_if_truthy pm2_5stats "v4";
  try! d1avg <- stat_if_truthy pm2_5stats "v5";
  try! w1avg <- stat_if_truthy pm2_5stats "v6";
  try! last_mod <- stat_if_not_none pm2_5stats "lastModified";
  try! last_modified_stats <-
    (if negb (is_none last_mod) then millis_to_datetime last_mod else Ok PyNone);
  try! last2_modified <- stat_if_not_none pm2_5stats "timeSinceModified";
  (* ThingSpeak IDs, if these are missing do not crash, just set to None *)
  try! ids <-
    rcatch
      (try! ks <- thingspeak_ids;
       let '(pc, pk, sc, sk) := ks in
       Ok (pc, pk, sc, sk, Some (TsHandle pc pk), Some (TsHandle sc sk)))
      is_KeyError
      (Ok (PyNone, PyNone, PyNone, PyNone, None, None));
  let '(tp_primary_channel, tp_primary_key, tp_secondary_channel,
        tp_secondary_key, thingspeak_primary, thingspeak_secondary) := ids in
  (* Diagnostic *)
  let last_seen := dict_get data "LastSeen" in
  try! last_seen <-
    (if negb (is_none last_seen) then seconds_to_datetime last_seen else Ok last_seen);
  let model := dict_get data "Type" in
  let adc := dict_get data "Adc" in
  let rssi := dict_get data "RSSI" in
  let hidden := if py_eq_str (dict_get data "Hidden") "false" then false else true in
  let flagged := if py_eq_int (dict_get data "Flag") 1 then true else false in
  let downgraded := if py_eq_str (dict_get data "A_H") "true" then true else false in
  let age := dict_get data "AGE" in
  let brightness := dict_get data "DEVICE_BRIGHTNESS" in
  let hardware := dict_get data "DEVICE_HARDWAREDISCOVERED" in
  let version := dict_get data "Version" in
  let last_update_check := dict_get data "LastUpdateCheck" in
  let created := dict_get data "Created" in
  let uptime := dict_get data "Uptime" in
  let is_owner := py_bool (dict_get data "isOwner") in
  Ok {| channel_data := data;
        lat := lat; lon := lon; identifier := identifier; parent := parent;
        type := type; name := name; location_type := location_type;
        current_pm2_5 := current_pm2_5; current_temp_f := current_temp_f;
        current_temp_c := current_temp_c; current_humidity := current_humidity;
        current_pressure := current_pressure;
        current_p_0_3_um := current_p_0_3_um; current_p_0_5_um := current_p_0_5_um;
        current_p_1_0_um := current_p_1_0_um; current_p_2_5_um := current_p_2_5_um;
        current_p_5_0_um := current_p_5_0_um; current_p_10_0_um := current_p_10_0_um;
        current_pm1_0_cf_1 := current_pm1_0_cf_1;
        current_pm2_5_cf_1 := current_pm2_5_cf_1;
        current_pm10_0_cf_1 := current_pm10_0_cf_1;
        current_pm1_0_atm := current_pm1_0_atm;
        current_pm2_5_atm := current_pm2_5_atm;
        current_pm10_0_atm := current_pm10_0_atm;
        pm2_5stats := pm2_5stats;
        m10avg := m10avg; m30avg := m30avg; h1ravg := h1ravg; h6ravg := h6ravg;
        d1avg := d1avg; w1avg := w1avg;
        last_modified_stats := last_modified_stats;
        last2_modified := last2_modified;
        tp_primary_channel := tp_primary_channel;
        tp_primary_key := tp_primary_key;
        tp_secondary_channel := tp_secondary_channel;
        tp_secondary_key := tp_secondary_key;
        thingspeak_primary := thingspeak_primary;
        thingspeak_secondary := thingspeak_secondary;
        last_seen := last_seen; model := model; adc := adc; rssi := rssi;
        hidden := hidden; flagged := flagged; downgraded := downgraded;
        age := age; brightness := brightness; hardware := hardware;
        version := version; last_update_check := last_update_check;
        created := created; uptime := uptime; is_owner := is_owner |}.

End Setup.

(** *** What construction promises

    The raw keys that [setup] reads with [safe_float], each with the field
    it fills, and the keys that it copies as they are. *)

Definition float_fields : list (string * (Channel -> pyval)) :=
  [ ("Lat", lat); ("Lon", lon); ("PM2_5Value", current_pm2_5);
    ("temp_f", current_temp_f); ("humidity", current_humidity);
    ("pressure", current_pressure);
    ("p_0_3_um", current_p_0_3_um); ("p_0_5_um", current_p_0_5_um);
    ("p_1_0_um", current_p_1_0_um); ("p_2_5_um", current_p_2_5_um);
    ("p_5_0_um", current_p_5_0_um); ("p_10_0_um", current_p_10_0_um);
    ("pm1_0_cf_1", current_pm1_0_cf_1); ("pm2_5_cf_1", current_pm2_5_cf_1);
    ("pm10_0_cf_1", current_pm10_0_cf_1);
    ("pm1_0_atm", current_pm1_0_atm); ("pm2_5_atm", current_pm2_5_atm);
    ("pm10_0_atm", current_pm10_0_atm) ].

Definition plain_fields : list (string * (Channel -> pyval)) :=
  [ ("ID", identifier); ("ParentID", parent); ("Label", name);
    ("DEVICE_LOCATIONTYPE", location_type); ("Type", model); ("Adc", adc);
    ("RSSI", rssi); ("AGE", age); ("DEVICE_BRIGHTNESS", brightness);
    ("DEVICE_HARDWAREDISCOVERED", hardware); ("Version", version);
    ("LastUpdateCheck", last_update_check); ("Created", created);
    ("Uptime", uptime) ].

(** The statistics block: the parsed [Stats], the six averages and the two
    modification fields. *)
Definition statistics_fields : list (Channel -> pyval) :=
  [ pm2_5stats; m10avg; m30avg; h1ravg; h6ravg; d1avg; w1avg;
    last_modified_stats; last2_modified ].

(** The field that [safe_float] gives for a raw value: [None] for a value
    that is missing ([None]) or that [float()] rejects, the float
    otherwise. *)
Definition float_field_value (v : pyval) : pyval :=
  if is_none v then PyNone
  else match py_float v with
       | Ok f => PyFloat f
       | Raise _ => PyNone
       end.

(** [float(v)] does not overflow (it does for an integer of 2^1024 or
    more). *)
Definition float_convertible (v : pyval) : Prop :=
  forall msg : string, py_float v <> Raise (OverflowError msg).

(** A parsed [Stats] that the statistics block can be read from: [None], or
    an object whose [lastModified], if any, is a valid time in
    milliseconds. *)
Definition stats_shape (v : pyval) : Prop :=
  v = PyNone
  \/ exists d : dict,
       v = PyDict d
       /\ (dict_get d "lastModified" = PyNone
           \/ exists t : pyval, millis_to_datetime (dict_get d "lastModified") = Ok t).

Definition stats_well_formed (data : dict) : Prop :=
  dict_mem data "Stats" = false
  \/ exists v : pyval, json_loads (dict_get data "Stats") = Ok v /\ stats_shape v.

Definition last_seen_well_formed (data : dict) : Prop :=
  dict_get data "LastSeen" = PyNone
  \/ exists t : pyval, seconds_to_datetime (dict_get data "LastSeen") = Ok t.

(** [Channel.as_dict] *)
Definition as_dict (self : Channel) : dict :=
  [ ("meta", PyDict
       [ ("id", identifier self);
         ("parent", parent self);
         ("lat", lat self);
         ("lon", lon self);
         ("name", name self);
         ("location_type", location_type self) ]);
    ("data", PyDict
       [ ("pm_2.5", current_pm2_5 self);
         ("temp_f", current_temp_f self);
         ("temp_c", current_temp_c self);
         ("humidity", current_humidity self);
         ("pressure", current_pressure self);
         ("p_0_3_um", current_p_0_3_um self);
         ("p_0_5_um", current_p_0_5_um self);
         ("p_1_0_um", current_p_1_0_um self);
         ("p_2_5_um", current_p_2_5_um self);
         ("p_5_0_um", current_p_5_0_um self);
         ("p_10_0_um", current_p_10_0_um self);
         ("pm1_0_cf_1", current_pm1_0_cf_1 self);
         ("pm2_5_cf_1", current_pm2_5_cf_1 self);
         ("pm10_0_cf_1", current_pm10_0_cf_1 self);
         ("pm1_0_atm", current_pm1_0_atm self);
         ("pm2_5_atm", current_pm2_5_atm self);
         ("pm10_0_atm", current_pm10_0_atm self) ]);
    ("diagnostic", PyDict
       [ ("last_seen", last_seen self);
         ("model", model self);
         ("adc", adc self);
         ("rssi", rssi self);
         ("hidden", PyBool (hidden self));
         ("flagged", PyBool (flagged self));
         ("downgraded", PyBool (downgraded self));
         ("age", age self);
         ("brightness", brightness self);
         ("hardware", hardware self);
         ("version", version self);
         ("last_update_check", last_update_check self);
         ("created", created self);
         ("uptime", uptime self);
         ("is_owner", PyBool (is_owner self)) ]);
    ("statistics", PyDict
       [ ("10min_avg", m10avg self);
         ("30min_avg", m30avg self);
         ("1hour_avg", h1ravg self);
         ("6hour_avg", h6ravg self);
         ("1day_avg", d1avg self);
         ("1week_avg", w1avg self) ]) ].

(** [Channel.as_flat_dict]: the two nested [for] loops over the keys of
    [as_dict()]. *)
Definition as_flat_dict (self : Channel) : dict :=
  let nested := as_dict self in
  fold_left
    (fun out_d category =>
       match dict_get nested category with
       | PyDict props =>
           fold_left (fun out_d prop => dict_set out_d prop (dict_get props prop))
             (dict_keys props) out_d
       | _ => out_d
       end)
    (dict_keys nested) [].

(** The entries of all the categories of a nested mapping, one category
    after the other. *)
Definition category_entries (nested : dict) : dict :=
  flat_map (fun cv => match snd cv with PyDict props => props | _ => [] end) nested.

(** ** The object store and the transport log *)

Definition loc : Type := positive.

(** [objects] holds the dictionaries that are passed by reference;
    [requests] lists the URLs handed to the CSV reader, oldest first. *)
Record world : Type := World {
  objects : gmap loc dict;
  requests : list string
}.

Definition M (A : Type) : Type := world -> result A * world.

Definition ret {A : Type} (a : A) : M A := fun w => (Ok a, w).

Definition raise {A : Type} (e : exn) : M A := fun w => (Raise e, w).

Definition bind {A B : Type} (m : M A) (k : A -> M B) : M B :=
  fun w =>
    match m w with
    | (Ok a, w') => k a w'
    | (Raise e, w') => (Raise e, w')
    end.

Definition lift {A : Type} (r : result A) : M A := fun w => (r, w).

Declare Scope py_scope.
Delimit Scope py_scope with py.
Notation "'run!' x <- m ; k" := (bind m (fun x => k))
  (at level 10, x name, m at level 100, k at level 200) : py_scope.
Notation "'exec!' m ; k" := (bind m (fun _ => k))
  (at level 10, m at level 100, k at level 200) : py_scope.

(** A new object holding [d]. *)
Definition alloc (d : dict) : M loc :=
  fun w =>
    let l := fresh (dom (objects w)) in
    (Ok l, World (<[l := d]> (objects w)) (requests w)).

(** The dictionary behind a reference.  A reference always denotes an
    object in Python; an unknown one is a [TypeError] here. *)
Definition deref (l : loc) : M dict :=
  fun w =>
    match objects w !! l with
    | Some d => (Ok d, w)
    | None => (Raise (TypeError "dangling reference"), w)
    end.

(** [obj[key] = v] on the object behind [l]. *)
Definition setitem (l : loc) (key : string) (v : pyval) : M unit :=
  fun w =>
    match objects w !! l with
    | Some d => (Ok tt, World (<[l := dict_set d key v]> (objects w)) (requests w))
    | None => (Raise (TypeError "dangling reference"), w)
    end.

Fixpoint for_each {A : Type} (l : list A) (body : A -> M unit) : M unit :=
  match l with
  | [] => ret tt
  | a :: l' => bind (body a) (fun _ => for_each l' body)
  end.

(** ** Tables *)

(** A cell of a table; [CMissing] is pandas' [NaN] or [NaT]. *)
Inductive cell : Type :=
| CMissing
| CInt (z : Z)
| CFloat (f : b64)
| CStr (s : string)
| CTime (t : Z).

#[global] Instance spec_float_eq_dec : EqDecision spec_float.
Proof. solve_decision. Defined.

#[global] Instance cell_eq_dec : EqDecision cell.
Proof. solve_decision. Defined.

(** A [DataFrame]: column labels, row labels and the rows, each row
    holding one cell per column. *)
Record DataFrame : Type := MkFrame {
  df_columns : list string;
  df_index : list cell;
  df_rows : list (list cell)
}.

Module Pandas.

Fixpoint col_index (cols : list string) (c : string) : option nat :=
  match cols with
  | [] => None
  | c' :: cols' =>
      if String.eqb c' c then Some O else option_map S (col_index cols' c)
  end.

Definition cell_at (row : list cell) (i : nat) : cell := nth i row CMissing.

(** [df[c]]: the cells of a column. *)
Definition column (df : DataFrame) (c : string) : result (list cell) :=
  match col_index (df_columns df) c with
  | Some i => Ok (map (fun row => cell_at row i) (df_rows df))
  | None => Raise (KeyError c)
  end.

(** [range(n)] as row labels. *)
Definition range_index (n : nat) : list cell :=
  map (fun i => CInt (Z.of_nat i)) (seq 0 n).

Fixpoint union_columns (acc : list string) (cols : list string) : list string :=
  match cols with
  | [] => acc
  | c :: cols' =>
      if existsb (String.eqb c) acc then union_columns acc cols'
      else union_columns (acc ++ [c]) cols'
  end.

(** The rows of [df] laid out on the columns [cols]; a column that [df]
    lacks is filled with missing values. *)
Definition align (cols : list string) (df : DataFrame) : list (list cell) :=
  map (fun row =>
         map (fun c =>
                match col_index (df_columns df) c with
                | Some i => cell_at row i
                | None => CMissing
                end) cols)
      (df_rows df).

(** [pd.concat(dfs)]: the frames one below the other, in the order given,
    on the union of their columns. *)
Definition concat (dfs : list DataFrame) : result DataFrame :=
  match dfs with
  | [] => Raise (ValueError "No objects to concatenate")
  | _ =>
      let cols := fold_left union_columns (map df_columns dfs) [] in
      Ok (MkFrame cols (flat_map df_index dfs) (flat_map (align cols) dfs))
  end.

(** The label that a mapping gives to a column; a label that the mapping
    lacks stays. *)
Definition new_label (mapping : list (string * string)) (c : string) : string :=
  match find (fun kv => String.eqb (fst kv) c) mapping with
  | Some kv => snd kv
  | None => c
  end.

(** [df.rename(columns=mapping)] *)
Definition rename (mapping : list (string * string)) (df : DataFrame) : DataFrame :=
  MkFrame (map (new_label mapping) (df_columns df)) (df_index df) (df_rows df).

Fixpoint set_nth {A : Type} (i : nat) (x : A) (l : list A) : list A :=
  match i, l with
  | O, _ :: l' => x :: l'
  | S i', y :: l' => y :: set_nth i' x l'
  | _, [] => []
  end.

Fixpoint remove_nth {A : Type} (i : nat) (l : list A) : list A :=
  match i, l with
  | O, _ :: l' => l'
  | S i', y :: l' => y :: remove_nth i' l'
  | _, [] => []
  end.

(** [df[c] = values] for a column that exists. *)
Definition assign (df : DataFrame) (c : string) (values : list cell)
  : result DataFrame :=
  match col_index (df_columns df) c with
  | Some i =>
      Ok (MkFrame (df_columns df) (df_index df)
            (map (fun rv => set_nth i (snd rv) (fst rv))
                 (combine (df_rows df) values)))
  | None => Raise (KeyError c)
  end.

(** [df.pop(c)]: the column, and the frame without it. *)
Definition pop (df : DataFrame) (c : string) : result (list cell * DataFrame) :=
  match col_index (df_columns df) c with
  | Some i =>
      Ok (map (fun row => cell_at row i) (df_rows df),
          MkFrame (remove_nth i (df_columns df)) (df_index df)
            (map (remove_nth i) (df_rows df)))
  | None => Raise (KeyError c)
  end.

Inductive how : Type := inner | left | right | outer.

(** Labels of the merged frame: a label other than the key that both
    sides carry gets the suffix [_x] on the left and [_y] on the right. *)
Definition merged_columns (on : string) (lcols rcols : list string) : list string :=
  let clash c others := negb (String.eqb c on) && existsb (String.eqb c) others in
  map (fun c => if clash c rcols then (c ++ "_x")%string else c) lcols
  ++ map (fun c => if clash c lcols then (c ++ "_y")%string else c)
       (List.filter (fun c => negb (String.eqb c on)) rcols).

(** [pd.merge(l, r, how=h, on=key)], written out for [how='inner'], the
    one mode the channel uses: every pair of a left row and a right row
    with equal keys gives one row, in the order of the left rows; the
    other modes also keep the unmatched rows of one side or both. *)
Definition merge (l r : DataFrame) (h : how) (on : string) : result DataFrame :=
  match col_index (df_columns l) on, col_index (df_columns r) on with
  | Some i, Some j =>
      let matched :=
        flat_map (fun lrow =>
                    map (fun rrow => lrow ++ remove_nth j rrow)
                      (List.filter (fun rrow =>
                                 bool_decide (cell_at lrow i = cell_at rrow j))
                         (df_rows r)))
          (df_rows l) in
      let pad_l := repeat CMissing (length (df_columns l)) in
      let pad_r := repeat CMissing (length (df_columns r) - 1) in
      let unmatched_l :=
        map (fun lrow => lrow ++ pad_r)
          (List.filter (fun lrow =>
                     negb (existsb (fun rrow =>
                                      bool_decide (cell_at lrow i = cell_at rrow j))
                             (df_rows r)))
             (df_rows l)) in
      let unmatched_r :=
        map (fun rrow => set_nth i (cell_at rrow j) pad_l ++ remove_nth j rrow)
          (List.filter (fun rrow =>
                     negb (existsb (fun lrow =>
                                      bool_decide (cell_at lrow i = cell_at rrow j))
                             (df_rows l)))
             (df_rows r)) in
      let rows :=
        match h with
        | inner => matched
        | left => matched ++ unmatched_l
        | right => matched ++ unmatched_r
        | outer => matched ++ unmatched_l ++ unmatched_r
        end in
      Ok (MkFrame (merged_columns on (df_columns l) (df_columns r))
            (range_index (length rows)) rows)
  | _, _ => Raise (KeyError on)
  end.

End Pandas.

(** ** Historical data *)

Section Historical.

(** [urllib.parse.urlencode] *)
Variable urlencode : dict -> string.

(** [THINGSPEAK_API_URL.format(channel=c, dataformat=f)]; the template
    is a constant of [api_data]. *)
Variable THINGSPEAK_API_URL : pyval -> string -> string.

(** The four column tables of [api_data]. *)
Variable PARENT_PRIMARY_COLS : list (string * string).
Variable PARENT_SECONDARY_COLS : list (string * string).
Variable CHILD_PRIMARY_COLS : list (string * string).
Variable CHILD_SECONDARY_COLS : list (string * string).

(** [pd.read_csv(url)]: the transport. *)
Variable read_csv : string -> result DataFrame.

(** [pd.to_datetime(_, format='%Y-%m-%d %H:%M:%S %Z')] on one cell;
    [None] is [NaT]. *)
Variable to_datetime : cell -> result (option Z).

Local Open Scope py_scope.

(** One call of the transport: the URL is logged, then read. *)
Definition fetch (url : string) : M DataFrame :=
  fun w => (read_csv url, World (objects w) (requests w ++ [url])).

Definition default_args (key : pyval) : dict :=
  [ ("api_key", key); ("offset", PyInt 0); ("average", PyStr ""); ("round", PyInt 2) ].

(** [Channel.get_thingspeak_url].  [thingspeak_args] is [None] or a
    reference to the caller's dictionary. *)
Definition get_thingspeak_url (self : Channel) (thingspeak_field : string)
  (start : datetime) (end_ : option datetime) (thingspeak_args : option loc)
  (dataformat : string) : M string :=
  if negb (String.eqb thingspeak_field "primary"
           || String.eqb thingspeak_field "secondary") then
    raise (ValueError
             ("Invalid ThingSpeak key: " +:+ thingspeak_field
              +:+ with_double_quotes ". Must be in {'primary', 'secondary'}"))
  else
    let '(channel, key) :=
      if String.eqb thingspeak_field "primary"
      then (tp_primary_channel self, tp_primary_key self)
      else (tp_secondary_channel self, tp_secondary_key self) in
    (* copy args to a local variable *)
    run! args <-
      match thingspeak_args with
      | Some l =>
          run! d <- deref l;
          if py_bool (PyDict d) then alloc d else alloc []
      | None => alloc []
      end;
    exec! for_each (default_args key)
            (fun kv =>
               run! d <- deref args;
               if negb (dict_mem d (fst kv)) then setitem args (fst kv) (snd kv)
               else ret tt);
    exec! setitem args "start" (PyStr (Date.strftime start "%Y-%m-%d 00:00:00"));
    exec! match end_ with
          | Some e => setitem args "end" (PyStr (Date.strftime e "%Y-%m-%d 00:00:00"))
          | None => ret tt
          end;
    let base_url := THINGSPEAK_API_URL channel dataformat in
    run! d <- deref args;
    ret (base_url +:+ urlencode d).

(** The column table that [clean_data] picks. *)
Definition remap_table (self : Channel) (thingspeak_field : string)
  : list (string * string) :=
  let '(parent_cols, child_cols) :=
    if String.eqb thingspeak_field "primary"
    then (PARENT_PRIMARY_COLS, CHILD_PRIMARY_COLS)
    else (PARENT_SECONDARY_COLS, CHILD_SECONDARY_COLS) in
  if String.eqb (type self) "parent" then parent_cols else child_cols.

Fixpoint convert_all (cells : list cell) : result (list cell) :=
  match cells with
  | [] => Ok []
  | c :: cells' =>
      rbind (to_datetime c) (fun t =>
      rbind (convert_all cells') (fun ts =>
      Ok (match t with Some t => CTime t | None => CMissing end :: ts)))
  end.

(** [Channel.clean_data] *)
Definition clean_data (self : Channel) (thingspeak_field : string)
  (data : DataFrame) : result DataFrame :=
  let columns := remap_table self thingspeak_field in
  let data := Pandas.rename columns data in
  rbind (Pandas.column data "created_at") (fun raw =>
  rbind (convert_all raw) (fun stamps =>
  rbind (Pandas.assign data "created_at" stamps) (fun data =>
  rcatch
    (rbind (Pandas.pop data "entry_id") (fun popped =>
     Ok (MkFrame (df_columns (snd popped)) (fst popped) (df_rows (snd popped)))))
    is_KeyError
    (Ok data)))).

(** [Channel.get_historical_between] *)
Definition get_historical_between (self : Channel) (thingspeak_field : string)
  (first_date last_date : datetime) (thingspeak_args : option loc)
  : M DataFrame :=
  run! url <- get_thingspeak_url self thingspeak_field first_date
                (Some last_date) thingspeak_args "csv";
  run! data <- fetch url;
  lift (clean_data self thingspeak_field data).

(** The variables that the loops of [get_historical] update. *)
Record cursor : Type := Cursor {
  weeks_to_get : Z;
  start_date : datetime;
  to_week : datetime;
  weekly_data : list DataFrame
}.

(** The body of the [for] loop. *)
Definition fetch_week (self : Channel) (thingspeak_field : string)
  (thingspeak_args : option loc) (c : cursor) : M cursor :=
  let start_date := to_week c in
  run! to_week <- lift (Date.sub_weeks (to_week c) 1);
  run! url <- get_thingspeak_url self thingspeak_field to_week
                (Some start_date) thingspeak_args "csv";
  run! data <- fetch url;
  ret (Cursor (weeks_to_get c - 1) start_date to_week (weekly_data c ++ [data])).

(** [for _ in range(k): body] *)
Fixpoint for_range (k : nat) (body : cursor -> M cursor) (c : cursor) : M cursor :=
  match k with
  | O => ret c
  | S k' => run! c' <- body c; for_range k' body c'
  end.

(** [while weeks_to_get > 0: for _ in range(weeks_to_get): body] *)
Fixpoint while_weeks (fuel : nat) (body : cursor -> M cursor) (c : cursor)
  : M cursor :=
  match fuel with
  | O => raise NonTermination
  | S fuel' =>
      if 0 <? weeks_to_get c then
        run! c' <- for_range (Z.to_nat (weeks_to_get c)) body c;
        while_weeks fuel' body c'
      else ret c
  end.

(** [Channel.get_historical] *)
Definition get_historical (fuel : nat) (self : Channel) (weeks : Z)
  (thingspeak_field : string) (start : datetime) (thingspeak_args : option loc)
  : M DataFrame :=
  run! to_week <- lift (Date.sub_weeks start 1);
  run! c <- while_weeks fuel (fetch_week self thingspeak_field thingspeak_args)
              (Cursor weeks start to_week []);
  run! all <- lift (Pandas.concat (weekly_data c));
  lift (clean_data self thingspeak_field all).

(** [Channel.get_all_historical] *)
Definition get_all_historical (fuel : nat) (self : Channel) (weeks : Z)
  (start : datetime) (thingspeak_args : option loc) : M DataFrame :=
  run! primary <- get_historical fuel self weeks "primary" start thingspeak_args;
  run! secondary <- get_historical fuel self weeks "secondary" start thingspeak_args;
  lift (Pandas.merge primary secondary Pandas.inner "created_at").

(** [Channel.get_all_historical_between] *)
Definition get_all_historical_between (self : Channel)
  (first_date last_date : datetime) (thingspeak_args : option loc) : M DataFrame :=
  run! primary <- get_historical_between self "primary" first_date last_date
                    thingspeak_args;
  run! secondary <- get_historical_between self "secondary" first_date last_date
                      thingspeak_args;
  lift (Pandas.merge primary secondary Pandas.inner "created_at").

(** *** What the builder computes

    The loops of [get_thingspeak_url] on the copied dictionary, as a
    function of the caller's entries; [get_thingspeak_url_run] below shows
    that the builder returns exactly this. *)

(** The identifier and the key of a feed. *)
Definition feed_ids (self : Channel) (thingspeak_field : string) : pyval * pyval :=
  if String.eqb thingspeak_field "primary"
  then (tp_primary_channel self, tp_primary_key self)
  else (tp_secondary_channel self, tp_secondary_key self).

Definition fill_defaults (defaults given : dict) : dict :=
  fold_left
    (fun d kv => if negb (dict_mem d (fst kv)) then dict_set d (fst kv) (snd kv) else d)
    defaults given.

Definition query_args (key : pyval) (start : datetime) (end_ : option datetime)
  (given : dict) : dict :=
  let d := dict_set (fill_defaults (default_args key) given) "start"
             (PyStr (Date.strftime start "%Y-%m-%d 00:00:00")) in
  match end_ with
  | Some e => dict_set d "end" (PyStr (Date.strftime e "%Y-%m-%d 00:00:00"))
  | None => d
  end.

Definition query_url (self : Channel) (thingspeak_field : string)
  (start : datetime) (end_ : option datetime) (given : dict) (dataformat : string)
  : string :=
  THINGSPEAK_API_URL (fst (feed_ids self thingspeak_field)) dataformat
  +:+ urlencode (query_args (snd (feed_ids self thingspeak_field)) start end_ given).

(** The URL of the single-range fetch of a window [(start, end)]. *)
Definition window_url (self : Channel) (f : string) (given : dict)
  (win : datetime * datetime) : string :=
  query_url self f (fst win) (Some (snd win)) given "csv".

End Historical.

(** The message of the [ValueError] for a feed selector that is neither
    [primary] nor [secondary]. *)
Definition invalid_feed_message (thingspeak_field : string) : string :=
  "Invalid ThingSpeak key: " +:+ thingspeak_field
  +:+ with_double_quotes ". Must be in {'primary', 'secondary'}".

(** The value that the encoded dictionary holds for an option with a
    default: the caller's, or else the default. *)
Definition supplied_or (given : dict) (k : string) (default : pyval) : pyval :=
  match dict_lookup given k with
  | Some u => u
  | None => default
  end.

(** The four ThingSpeak keys of a raw snapshot. *)
Definition thingspeak_keys : list string :=
  [ "THINGSPEAK_PRIMARY_ID"; "THINGSPEAK_PRIMARY_ID_READ_KEY";
    "THINGSPEAK_SECONDARY_ID"; "THINGSPEAK_SECONDARY_ID_READ_KEY" ].

(** [v == 1] spelled out on the values of a raw snapshot: Python compares
    numbers by value, so the integer [1], [True] and the float [1.0] are
    all equal to [1]; nothing else is. *)
Definition equals_one (v : pyval) : Prop :=
  v = PyInt 1 \/ v = PyBool true
  \/ exists f : b64, v = PyFloat f /\ Float.eqb_Z f 1 = true.

(** The labels of a table once [entry_id], if it is there, has become the
    index. *)
Definition without_entry_id (cols : list string) : list string :=
  match Pandas.col_index cols "entry_id" with
  | Some i => Pandas.remove_nth i cols
  | None => cols
  end.

(** The two feeds of a channel. *)
Definition valid_feed (thingspeak_field : string) : Prop :=
  thingspeak_field = "primary" \/ thingspeak_field = "secondary".

(** The entries of the caller's options: none for [None], the content of
    the dictionary otherwise. *)
Definition given_args (w : world) (thingspeak_args : option loc) : option dict :=
  match thingspeak_args with
  | None => Some []
  | Some l => objects w !! l
  end.

(** [d - timedelta(weeks=k)] as a plain value. *)
Definition weeks_before (d : datetime) (k : Z) : datetime :=
  Datetime (dt_micros d - k * Date.micros_per_week).

(** The one-week windows [(start, end)] that end [k] weeks before [d], for
    [k] from [first] on, [n] of them. *)
Definition week_windows (d : datetime) (first : nat) (n : nat)
  : list (datetime * datetime) :=
  map (fun k => (weeks_before d (Z.of_nat k + 1), weeks_before d (Z.of_nat k)))
    (seq first n).

(** Every row has one cell per column. *)
Definition rectangular (df : DataFrame) : Prop :=
  Forall (fun row => length row = length (df_columns df)) (df_rows df).

(** The time stamps of a table: its [created_at] column. *)
Definition created_at (df : DataFrame) : list cell :=
  match Pandas.column df "created_at" with
  | Ok cells => cells
  | Raise _ => []
  end.

(** ** Sample collaborators

    Concrete stand-ins for the parameters of the section above, used to
    run the model on examples. *)

Module Sample.

Fixpoint digits_of (fuel : nat) (n : Z) (acc : string) : string :=
  match fuel with
  | O => acc
  | S fuel' =>
      let acc' := String (Date.digit_char n) acc in
      if n <? 10 then acc' else digits_of fuel' (n / 10) acc'
  end.

(** [str(z)] *)
Definition str_of_Z (z : Z) : string :=
  let body := digits_of (S (Z.to_nat (Z.log2 (Z.abs z)))) (Z.abs z) "" in
  if z <? 0 then String "-" body else body.

(** [str(v)] for [None], booleans, integers and strings; the other values
    are not needed by the examples and are written [?]. *)
Definition str (v : pyval) : string :=
  match v with
  | PyNone => "None"
  | PyBool b => if b then "True" else "False"
  | PyInt z => str_of_Z z
  | PyStr s => s
  | _ => "?"
  end.

Definition hex_char (z : Z) : ascii :=
  ascii_of_N (Z.to_N (if z <? 10 then 48 + z else 55 + z)).

Definition is_unreserved (c : ascii) : bool :=
  let n := Z.of_N (code c) in
  ((48 <=? n) && (n <=? 57)) || ((65 <=? n) && (n <=? 90))
  || ((97 <=? n) && (n <=? 122))
  || (n =? 95) || (n =? 46) || (n =? 45) || (n =? 126).

(** [urllib.parse.quote_plus] *)
Fixpoint quote_plus (l : list ascii) : string :=
  match l with
  | [] => ""
  | c :: l' =>
      if is_unreserved c then String c (quote_plus l')
      else if Ascii.eqb c " " then String "+" (quote_plus l')
      else
        let n := Z.of_N (code c) in
        String "%" (String (hex_char (n / 16)) (String (hex_char (n mod 16))
                                                 (quote_plus l')))
  end.

Fixpoint join (sep : string) (l : list string) : string :=
  match l with
  | [] => ""
  | [s] => s
  | s :: l' => s +:+ sep +:+ join sep l'
  end.

Definition urlencode (d : dict) : string :=
  join "&" (map (fun kv => quote_plus (chars (fst kv)) +:+ "=" +:+
                           quote_plus (chars (str (snd kv)))) d).

Definition THINGSPEAK_API_URL (channel : pyval) (dataformat : string) : string :=
  "https://thingspeak.com/channels/" +:+ str channel +:+ "/feed." +:+ dataformat +:+ "?".

Definition PARENT_PRIMARY_COLS : list (string * string) :=
  [ ("created_at", "created_at"); ("entry_id", "entry_id");
    ("field5", "ADC"); ("field8", "PM2.5 (ATM) ug/m3") ].

Definition CHILD_PRIMARY_COLS : list (string * string) :=
  [ ("created_at", "created_at"); ("entry_id", "entry_id");
    ("field5", "RSSI_dbm"); ("field8", "PM2.5 (ATM) ug/m3") ].

Definition PARENT_SECONDARY_COLS : list (string * string) :=
  [ ("created_at", "created_at"); ("entry_id", "entry_id");
    ("field1", "0.3um/dl") ].

Definition CHILD_SECONDARY_COLS : list (string * string) :=
  [ ("created_at", "created_at"); ("entry_id", "entry_id");
    ("field1", "0.3um/dl") ].

(** A time stamp is read from an integer cell here. *)
Definition to_datetime (c : cell) : result (option Z) :=
  match c with
  | CMissing => Ok None
  | CInt z => Ok (Some z)
  | CTime t => Ok (Some t)
  | _ => Raise (ValueError "time data does not match format")
  end.

(** The primary feed of channel 559921: readings at the times 100 and
    200. *)
Definition primary_csv : DataFrame :=
  MkFrame ["created_at"; "entry_id"; "field5"]
    [CInt 0; CInt 1]
    [ [CInt 100; CInt 7; CFloat (Float.of_Z 3)];
      [CInt 200; CInt 8; CFloat (Float.of_Z 4)] ].

(** The secondary feed: readings at the times 200 and 300. *)
Definition secondary_csv : DataFrame :=
  MkFrame ["created_at"; "entry_id"; "field1"]
    [CInt 0; CInt 1]
    [ [CInt 200; CInt 5; CFloat (Float.of_Z 1)];
      [CInt 300; CInt 6; CFloat (Float.of_Z 2)] ].

(** A transport that answers a request for channel 559921 with the
    primary feed and any other request with the secondary feed. *)
Definition read_csv (url : string) : result DataFrame :=
  if String.prefix "https://thingspeak.com/channels/559921/" url
  then Ok primary_csv
  else Ok secondary_csv.

(** A raw snapshot of a root sensor. *)
Definition raw : dict :=
  [ ("ID", PyInt 14633);
    ("Label", PyStr "Hazelwood canary");
    ("DEVICE_LOCATIONTYPE", PyStr "outside");
    ("THINGSPEAK_PRIMARY_ID", PyStr "559921");
    ("THINGSPEAK_PRIMARY_ID_READ_KEY", PyStr "CU4BQZZ38WO5UJ4C");
    ("THINGSPEAK_SECONDARY_ID", PyStr "559922");
    ("THINGSPEAK_SECONDARY_ID_READ_KEY", PyStr "D0YNZ1LM59LL49VQ");
    ("Lat", PyFloat (Float.of_decimal false 37275561 (-6)));
    ("Lon", PyFloat (Float.of_decimal true 121964134 (-6)));
    ("PM2_5Value", PyStr "6.93");
    ("LastSeen", PyInt 1561767407);
    ("Type", PyStr "PMS5003+PMS5003+BME280");
    ("Hidden", PyStr "false");
    ("Flag", PyInt 1);
    ("isOwner", PyInt 0);
    ("humidity", PyStr "45");
    ("temp_f", PyStr "32.0");
    ("pressure", PyStr "n/a");
    ("AGE", PyInt 0);
    ("Stats", PyStr (with_double_quotes "{'v':6.93,'v1':6.5,'v2':6.25,'lastModified':1561767407123,'timeSinceModified':119991}")) ].

(** The same sensor seen as a child of sensor 14632. *)
Definition raw_child : dict := ("ParentID", PyInt 14632) :: raw.

(** A snapshot without the ThingSpeak keys. *)
Definition raw_unresolved : dict :=
  [ ("ID", PyInt 14633); ("Label", PyStr "Hazelwood canary") ].

(** The record of a snapshot that [setup] accepts. *)
Definition built (data : dict) : match setup data with Ok _ => Channel | Raise _ => unit end :=
  match setup data as r return match r with Ok _ => Channel | Raise _ => unit end with
  | Ok c => c
  | Raise _ => tt
  end.

Definition root : Channel := Eval vm_compute in built raw.
Definition child : Channel := Eval vm_compute in built raw_child.
Definition unresolved : Channel := Eval vm_compute in built raw_unresolved.

(** 2021-03-01T12:30:00 and 2021-03-08T12:30:00 *)
Definition day : datetime := Datetime 1614601800000000.
Definition next_week : datetime := Datetime 1615206600000000.

Definition empty_world : world := World ∅ [].

(** A world in which the caller holds one options dictionary. *)
Definition options : dict := [ ("round", PyInt 5); ("end", PyStr "X") ].
Definition options_ref : loc := 1%positive.
Definition options_world : world := World {[ options_ref := options ]} [].

(** A snapshot with one of the four ThingSpeak keys only. *)
Definition raw_partial : dict := [ ("THINGSPEAK_PRIMARY_ID", PyStr "559921") ].

(** The [Stats] of the sample, parsed. *)
Definition stats : dict :=
  [ ("v", PyFloat (Float.of_decimal false 693 (-2)));
    ("v1", PyFloat (Float.of_decimal false 65 (-1)));
    ("v2", PyFloat (Float.of_decimal false 625 (-2)));
    ("lastModified", PyInt 1561767407123);
    ("timeSinceModified", PyInt 119991) ].

(** The table of a run, or an empty table if the run failed. *)
Definition table_of (run : result DataFrame * world) : DataFrame :=
  match fst run with
  | Ok t => t
  | Raise _ => MkFrame [] [] []
  end.

(** The two retrievals between [day] and [next_week], one after the
    other. *)
Definition primary_run : result DataFrame * world :=
  Eval vm_compute in
    get_historical_between urlencode THINGSPEAK_API_URL PARENT_PRIMARY_COLS
      PARENT_SECONDARY_COLS CHILD_PRIMARY_COLS CHILD_SECONDARY_COLS read_csv
      to_datetime root "primary" day next_week None empty_world.

Definition secondary_run : result DataFrame * world :=
  Eval vm_compute in
    get_historical_between urlencode THINGSPEAK_API_URL PARENT_PRIMARY_COLS
      PARENT_SECONDARY_COLS CHILD_PRIMARY_COLS CHILD_SECONDARY_COLS read_csv
      to_datetime root "secondary" day next_week None (snd primary_run).

End Sample.


(** What the conversion of time stamps makes of a raw cell [r]: the cell
    [c] holds the time that [to_datetime] read, or is missing for [NaT]. *)
Definition converted (to_datetime : cell -> result (option Z)) (r c : cell) : Prop :=
  exists t : option Z,
    to_datetime r = Ok t
    /\ c = match t with Some t => CTime t | None => CMissing end.

(** ** The rest of the channel *)

(** The raw keys that [setup] copies and [as_dict] exports, each with the
    key of the export. *)
Definition exported_plain : list (string * string) :=
  [ ("ID", "id"); ("ParentID", "parent"); ("Label", "name");
    ("DEVICE_LOCATIONTYPE", "location_type"); ("Type", "model"); ("Adc", "adc");
    ("RSSI", "rssi"); ("AGE", "age"); ("DEVICE_BRIGHTNESS", "brightness");
    ("DEVICE_HARDWAREDISCOVERED", "hardware"); ("Version", "version");
    ("LastUpdateCheck", "last_update_check"); ("Created", "created");
    ("Uptime", "uptime") ].

(** The raw keys that [setup] reads with [safe_float], each with the key
    of the export. *)
Definition exported_float : list (string * string) :=
  [ ("Lat", "lat"); ("Lon", "lon"); ("PM2_5Value", "pm_2.5");
    ("temp_f", "temp_f"); ("humidity", "humidity"); ("pressure", "pressure");
    ("p_0_3_um", "p_0_3_um"); ("p_0_5_um", "p_0_5_um");
    ("p_1_0_um", "p_1_0_um"); ("p_2_5_um", "p_2_5_um");
    ("p_5_0_um", "p_5_0_um"); ("p_10_0_um", "p_10_0_um");
    ("pm1_0_cf_1", "pm1_0_cf_1"); ("pm2_5_cf_1", "pm2_5_cf_1");
    ("pm10_0_cf_1", "pm10_0_cf_1");
    ("pm1_0_atm", "pm1_0_atm"); ("pm2_5_atm", "pm2_5_atm");
    ("pm10_0_atm", "pm10_0_atm") ].

(** [v[key]] for a string key: only a [dict] can be indexed by one. *)
Definition py_subscript (v : pyval) (key : string) : result pyval :=
  match v with
  | PyDict d => dict_item d key
  | PyList _ => Raise (TypeError "list indices must be integers or slices, not str")
  | PyStr _ => Raise (TypeError "string indices must be integers")
  | _ => Raise (TypeError "object is not subscriptable")
  end.

Section Repr.

(** [str(v)], which the f-string applies to a field. *)
Variable str : pyval -> string.

(** [Channel.__repr__] *)
Definition repr (self : Channel) : string :=
  let child_string :=
    if negb (is_none (parent self)) then ", child of " +:+ str (parent self)
    else "" in
  "Sensor " +:+ str (identifier self) +:+ child_string.

End Repr.

Section Creation.

Variable urlencode : dict -> string.
Variable THINGSPEAK_API_URL : pyval -> string -> string.

(** [CachedSession(expire_after=timedelta(hours=1)).get(url).content], as
    text. *)
Variable session_get : string -> result string.

(** [datetime.strptime(v, fmt)] *)
Variable strptime : pyval -> string -> result datetime.

Local Open Scope py_scope.

(** [datetime(1990, 1, 1)]: 7305 days after 1970-01-01. *)
Definition first_day_of_1990 : datetime :=
  Datetime (7305 * Date.micros_per_day).

(** One call of the session: the URL is logged, then asked for. *)
Definition session_fetch (url : string) : M string :=
  fun w => (session_get url, World (objects w) (requests w ++ [url])).

(** The property [Channel.created_date] *)
Definition created_date (self : Channel) : M datetime :=
  run! args <- alloc [ ("results", PyInt 1) ];
  run! url <- get_thingspeak_url urlencode THINGSPEAK_API_URL self "primary"
                first_day_of_1990 None (Some args) "json";
  run! content <- session_fetch url;
  run! data <- lift (json_loads (PyStr content));
  run! channel <- lift (py_subscript data "channel");
  run! stamp <- lift (py_subscript channel "created_at");
  lift (strptime stamp "%Y-%m-%dT%H:%M:%SZ").

End Creation.

(** What [created_date] makes of the answer of the session. *)
Definition creation_stamp (strptime : pyval -> string -> result datetime)
  (content : string) : result datetime :=
  rbind (json_loads (PyStr content)) (fun data =>
  rbind (py_subscript data "channel") (fun channel =>
  rbind (py_subscript channel "created_at") (fun stamp =>
  strptime stamp "%Y-%m-%dT%H:%M:%SZ"))).

(** ** The sensor record *)

Module Sensor.

(** The attributes of the statistics block: [setup] sets them together,
    and only when the raw [Stats] is truthy. *)
Record Statistics : Type := MkStatistics {
  pm2_5stats : pyval;
  m10avg : pyval;
  m30avg : pyval;
  h1ravg : pyval;
  h6ravg : pyval;
  d1avg : pyval;
  w1avg : pyval;
  last_modified_stats : pyval;
  last2_modified : pyval
}.

(** A [Sensor] after [setup].  [location] is there only when the location
    was parsed, [statistics] only when the block was run: reading an
    attribute that is not there raises [AttributeError]. *)
Record Sensor : Type := MkSensor {
  id : pyval;
  data : dict;
  parse_location : bool;
  (* Meta *)
  lat : pyval;
  lon : pyval;
  parent : pyval;
  name : pyval;
  location_type : pyval;
  location : option pyval;
  (* Data *)
  current_pm2_5 : pyval;
  current_temp_f : pyval;
  current_temp_c : pyval;
  current_humidity : pyval;
  current_pressure : pyval;
  (* Statistics *)
  statistics : option Statistics;
  (* Diagnostic *)
  last_seen : datetime;
  model : pyval;
  hidden : bool;
  flagged : bool;
  downgraded : bool;
  age : Z
}.

(** [except TypeError] and [except ValueError] with the same handler. *)
Definition type_or_value (e : exn) : bool := is_TypeError e || is_ValueError e.

(** Reading an attribute of the statistics block. *)
Definition getattr (self : Sensor) (attr : Statistics -> pyval) (attr_name : string)
  : result pyval :=
  match statistics self with
  | Some block => Ok (attr block)
  | None =>
      Raise (AttributeError ("'Sensor' object has no attribute '" +:+ attr_name +:+ "'"))
  end.

Section Setup.

(** [Nominatim(user_agent=...).reverse(f'{lat}, {lon}')]: the geocoder,
    asked with the two coordinates. *)
Variable reverse_geocode : pyval -> pyval -> result pyval.

Local Open Scope result_scope.

(** [Sensor.get_location], on the coordinates of the sensor: the location
    that the geocoder returned is stored and returned. *)
Definition get_location (lat lon : pyval) : result pyval :=
  reverse_geocode lat lon.

(** The block under [if stats:]. *)
Definition read_statistics (data : dict) : result Statistics :=
  try! pm2_5stats <- (try! s <- dict_item data "Stats"; json_loads s);
  try! m10avg <- py_subscript pm2_5stats "v1";
  try! m30avg <- py_subscript pm2_5stats "v2";
  try! h1ravg <- py_subscript pm2_5stats "v3";
  try! h6ravg <- py_subscript pm2_5stats "v4";
  try! d1avg <- py_subscript pm2_5stats "v5";
  try! w1avg <- py_subscript pm2_5stats "v6";
  try! last_modified_stats <-
    rcatch (try! last_mod <- py_subscript pm2_5stats "lastModified";
            millis_to_datetime last_mod)
      (fun e => type_or_value e || is_KeyError e) (Ok PyNone);
  try! last2_modified <-
    rcatch (py_subscript pm2_5stats "timeSinceModified") is_KeyError (Ok PyNone);
  Ok (MkStatistics pm2_5stats m10avg m30avg h1ravg h6ravg d1avg w1avg
        last_modified_stats last2_modified).

(** [Sensor.setup], on an object on which [__init__] has set [id], [data]
    (the snapshot that [get_data] returned) and [parse_location]: the
    assignments in the order of the source. *)
Definition setup (id : pyval) (data : dict) (parse_location : bool) : result Sensor :=
  (* Meta *)
  try! lat <- dict_item data "Lat";
  try! lon <- dict_item data "Lon";
  try! parent <- dict_item data "ParentID";
  try! name <- dict_item data "Label";
  try! location_type <- dict_item data "DEVICE_LOCATIONTYPE";
  (* Parse the location (slow, so must be manually enabled) *)
  try! location <-
    (if parse_location then try! l <- get_location lat lon; Ok (Some l)
     else Ok None);
  (* Data *)
  try! current_pm2_5 <- dict_item data "PM2_5Value";
  try! temp <-
    rcatch (try! v <- dict_item data "temp_f";
            try! f <- py_float v;
            try! c <- celsius (PyFloat f);
            Ok (PyFloat f, c))
      type_or_value (Ok (PyNone, PyNone));
  let '(current_temp_f, current_temp_c) := temp in
  try! current_humidity <-
    rcatch (try! v <- dict_item data "humidity";
            try! z <- py_int v;
            try! h <- int_true_div z 100;
            Ok (PyFloat h))
      type_or_value (Ok PyNone);
  try! current_pressure <-
    rcatch (dict_item data "pressure") type_or_value (Ok PyNone);
  (* Statistics *)
  try! stats <- dict_item data "Stats";
  try! statistics <-
    (if py_bool stats then try! block <- read_statistics data; Ok (Some block)
     else Ok None);
  (* Diagnostic *)
  try! last_seen <-
    (try! v <- dict_item data "LastSeen"; Date.utcfromtimestamp v);
  try! model <- dict_item data "Type";
  try! hidden_raw <- dict_item data "Hidden";
  let hidden := if py_eq_str hidden_raw "false" then false else true in
  try! flag_raw <- dict_item data "Flag";
  let flagged := if py_eq_int flag_raw 1 then true else false in
  try! a_h_raw <- dict_item data "A_H";
  let downgraded := if py_eq_int a_h_raw 1 then true else false in
  try! age <- (try! v <- dict_item data "AGE"; py_int v);
  Ok {| id := id; data := data; parse_location := parse_location;
        lat := lat; lon := lon; parent := parent; name := name;
        location_type := location_type; location := location;
        current_pm2_5 := current_pm2_5;
        current_temp_f := current_temp_f; current_temp_c := current_temp_c;
        current_humidity := current_humidity;
        current_pressure := current_pressure;
        statistics := statistics;
        last_seen := last_seen; model := model;
        hidden := hidden; flagged := flagged; downgraded := downgraded;
        age := age |}.

End Setup.

(** [Sensor.is_useful]; [x == None] holds for [None] alone. *)
Definition is_useful (self : Sensor) : result bool :=
  if hidden self then Ok false
  else if flagged self then Ok false
  else if downgraded self then Ok false
  else if is_none (current_temp_f self) then Ok false
  else if is_none (current_humidity self) then Ok false
  else if is_none (current_pressure self) then Ok false
  else
    rbind (dict_item (data self) "Stats") (fun stats =>
    if negb (py_bool stats) then Ok false
    else
      rbind (getattr self last_modified_stats "last_modified_stats") (fun lm =>
      if is_none lm then Ok false
      else
        rbind (getattr self last2_modified "last2_modified") (fun l2 =>
        if is_none l2 then Ok false else Ok true))).

(** The keys that [setup] reads by subscript. *)
Definition required_keys : list string :=
  [ "Lat"; "Lon"; "ParentID"; "Label"; "DEVICE_LOCATIONTYPE"; "PM2_5Value";
    "temp_f"; "humidity"; "pressure"; "Stats"; "LastSeen"; "Type"; "Hidden";
    "Flag"; "A_H"; "AGE" ].

(** The six averages: the keys of the parsed [Stats] and the attributes. *)
Definition averages : list (string * (Statistics -> pyval)) :=
  [ ("v1", m10avg); ("v2", m30avg); ("v3", h1ravg); ("v4", h6ravg);
    ("v5", d1avg); ("v6", w1avg) ].

End Sensor.

(** ** More sample data *)

Module Fixture.

(** The request for the week that ends on 2021-02-22. *)
Definition first_week_url : string :=
  "https://thingspeak.com/channels/559921/feed.csv?api_key=CU4BQZZ38WO5UJ4C&offset=0&average=&round=2&start=2021-02-15+00%3A00%3A00&end=2021-02-22+00%3A00%3A00".

(** A transport that answers that request and fails on every other one. *)
Definition read_first_week (url : string) : result DataFrame :=
  if String.eqb url first_week_url then Ok Sample.primary_csv
  else Raise (TransportError "503 Service Unavailable").

(** A table without time stamps. *)
Definition no_stamps : DataFrame :=
  MkFrame ["entry_id"; "field5"] [CInt 0] [ [CInt 7; CFloat (Float.of_Z 3)] ].

(** A table whose second time stamp is not a time. *)
Definition bad_stamps : DataFrame :=
  MkFrame ["created_at"; "field5"] [CInt 0; CInt 1; CInt 2]
    [ [CInt 100; CInt 1]; [CStr "yesterday"; CInt 2]; [CInt 300; CInt 3] ].

(** Snapshots with a [Stats] that is a JSON list, and with a [LastSeen]
    that is not a number. *)
Definition stats_as_list : dict := [ ("Stats", PyStr "[1, 2]") ].
Definition last_seen_text : dict := [ ("LastSeen", PyStr "yesterday") ].

(** A snapshot with every key that the sensor reads. *)
Definition snapshot : dict :=
  [ ("ID", PyInt 14633);
    ("ParentID", PyInt 14632);
    ("Label", PyStr "Hazelwood canary B");
    ("DEVICE_LOCATIONTYPE", PyStr "outside");
    ("Lat", PyFloat (Float.of_decimal false 37275561 (-6)));
    ("Lon", PyFloat (Float.of_decimal true 121964134 (-6)));
    ("PM2_5Value", PyStr "6.93");
    ("LastSeen", PyInt 1561767407);
    ("Type", PyStr "PMS5003+PMS5003+BME280");
    ("Hidden", PyStr "false");
    ("Flag", PyInt 0);
    ("A_H", PyStr "true");
    ("humidity", PyStr "45");
    ("temp_f", PyStr "32.0");
    ("pressure", PyStr "1013.25");
    ("AGE", PyInt 1);
    ("Stats", PyStr (with_double_quotes "{'v':6.93,'v1':6.5,'v2':6.25,'v3':6.0,'v4':5.5,'v5':5.0,'v6':4.5,'lastModified':1561767407123,'timeSinceModified':119991}")) ].

(** A geocoder that answers, and one that is out of reach. *)
Definition geocoder (lat lon : pyval) : result pyval :=
  Ok (PyStr "Hazelwood Avenue, San Jose").

Definition geocoder_down (lat lon : pyval) : result pyval :=
  Raise (TransportError "geocoder unavailable").

(** The sensor of a snapshot that [Sensor.setup] accepts. *)
Definition sensor_of (data : dict) (parse_location : bool)
  : match Sensor.setup geocoder (PyInt 14633) data parse_location with
    | Ok _ => Sensor.Sensor
    | Raise _ => unit
    end :=
  match Sensor.setup geocoder (PyInt 14633) data parse_location as r
        return match r with Ok _ => Sensor.Sensor | Raise _ => unit end with
  | Ok s => s
  | Raise _ => tt
  end.

Definition sensor : Sensor.Sensor := Eval vm_compute in sensor_of snapshot true.
Definition channel : Channel := Eval vm_compute in Sample.built snapshot.

End Fixture.

(** * Properties *)

(** ** The built-in conversions on examples *)

Example of_decimal_tenth :
  Float.of_decimal false 1 (-1) = S754_finite false 7205759403792794 (-56).
Proof. vm_compute. reflexivity. Qed.

Example of_decimal_32 :
  Float.of_decimal false 320 (-1) = Float.of_Z 32.
Proof. vm_compute. reflexivity. Qed.

Example of_decimal_overflow :
  Float.of_decimal false 1 400 = S754_infinity false.
Proof. vm_compute. reflexivity. Qed.

Example of_decimal_denormal_min :
  Float.of_decimal false 5 (-324) = S754_finite false 1 (-1074).
Proof. vm_compute. reflexivity. Qed.

Example of_decimal_underflow :
  Float.of_decimal true 2 (-324) = S754_zero true.
Proof. vm_compute. reflexivity. Qed.

Example float_of_string_examples :
  float_of_string " 32.0 " = Some (Float.of_Z 32)
  /\ float_of_string "1_0e-1" = Some (Float.of_Z 1)
  /\ float_of_string "-.5" = Some (Float.of_ratio (-1) 2)
  /\ float_of_string "-Infinity" = Some (S754_infinity true)
  /\ float_of_string "12.3.4" = None
  /\ float_of_string "" = None
  /\ float_of_string "1e" = None
  /\ float_of_string "0x10" = None.
Proof. vm_compute. repeat split. Qed.

Example int_of_string_examples :
  int_of_string " -1_000 " = Some (-1000)
  /\ int_of_string "1.0" = None
  /\ int_of_string "+007" = Some 7
  /\ int_of_string "" = None.
Proof. vm_compute. repeat split. Qed.

Example json_loads_examples :
  json_loads (PyStr (with_double_quotes "{'v1': 1.5, 'lastModified': 1490309930933, 'v1': null}"))
  = Ok (PyDict [("v1", PyNone); ("lastModified", PyInt 1490309930933)])
  /\ json_loads (PyStr " [1, [true, false], {}, 'x'] ")
     = Raise (JSONDecodeError "Expecting value")
  /\ json_loads (PyStr (with_double_quotes " [1, [true, false], {}, 'xA\n'] "))
     = Ok (PyList [PyInt 1; PyList [PyBool true; PyBool false]; PyDict [];
                   PyStr (String "x" (String "A" (String (ascii_of_N 10) "")))])
  /\ json_loads (PyStr "-0") = Ok (PyInt 0)
  /\ json_loads (PyStr "1e2") = Ok (PyFloat (Float.of_Z 100))
  /\ json_loads (PyStr "01") = Raise (JSONDecodeError "Extra data")
  /\ json_loads (PyStr "[1,]") = Raise (JSONDecodeError "Expecting value")
  /\ json_loads (PyStr "{oops") =
       Raise (JSONDecodeError "Expecting property name enclosed in double quotes")
  /\ json_loads (PyStr "") = Raise (JSONDecodeError "Expecting value")
  /\ json_loads (PyInt 5) =
       Raise (TypeError "the JSON object must be str, bytes or bytearray").
Proof. vm_compute. repeat split. Qed.

Example utcfromtimestamp_examples :
  Date.utcfromtimestamp (PyInt 1614556800) = Ok (Datetime 1614556800000000)
  /\ rbind (int_true_div 1490309930933 1000) (fun f => Date.utcfromtimestamp (PyFloat f))
     = Ok (Datetime 1490309930933000)
  /\ Date.utcfromtimestamp (PyInt (10 ^ 12)) = Raise (ValueError "year is out of range")
  /\ Date.utcfromtimestamp (PyStr "1614556800") = Raise (TypeError "an integer is required").
Proof. vm_compute. repeat split. Qed.

Example strftime_examples :
  Date.strftime (Datetime 1614556800000000) "%Y-%m-%d 00:00:00" = "2021-03-01 00:00:00"
  /\ Date.strftime (Datetime 951825599000000) "%Y-%m-%d %H:%M:%S" = "2000-02-29 11:59:59"
  /\ Date.strftime (Datetime Date.min_micros) "%Y-%m-%d" = "0001-01-01"
  /\ Date.strftime (Datetime Date.max_micros) "%Y-%m-%d %H:%M:%S" = "9999-12-31 23:59:59"
  /\ rbind (Date.sub_weeks (Datetime 1614556800000000) 1)
       (fun d => Ok (Date.strftime d "%Y-%m-%d 00:00:00")) = Ok "2021-02-22 00:00:00".
Proof. vm_compute. repeat split. Qed.

Example setup_sample :
  match setup Sample.raw with
  | Ok c =>
      lat c = PyFloat (Float.of_decimal false 37275561 (-6))
      /\ current_pm2_5 c = PyFloat (Float.of_decimal false 693 (-2))
      /\ current_temp_f c = PyFloat (Float.of_Z 32)
      /\ current_temp_c c = PyFloat (S754_zero false)
      /\ current_pressure c = PyNone
      /\ current_p_0_3_um c = PyNone
      /\ m10avg c = PyFloat (Float.of_decimal false 65 (-1))
      /\ w1avg c = PyNone
      /\ last_modified_stats c = PyDatetime (Datetime 1561767407123000)
      /\ last2_modified c = PyInt 119991
      /\ last_seen c = PyDatetime (Datetime 1561767407000000)
      /\ type c = "parent"
      /\ (hidden c, flagged c, downgraded c, is_owner c) = (false, true, false, false)
      /\ thingspeak_primary c = Some (TsHandle (PyStr "559921") (PyStr "CU4BQZZ38WO5UJ4C"))
  | Raise _ => False
  end.
Proof. vm_compute. repeat split. Qed.

(** ** Dictionaries *)

Lemma dict_lookup_set (d : dict) (k k' : string) (v : pyval) :
  dict_lookup (dict_set d k v) k' = if String.eqb k k' then Some v else dict_lookup d k'.
Proof.
  induction d as [|[k0 v0] d IH]; simpl.
  - destruct (String.eqb k k'); reflexivity.
  - destruct (String.eqb k0 k) eqn:E0; simpl.
    + apply String.eqb_eq in E0. subst k0.
      destruct (String.eqb k k'); reflexivity.
    + rewrite IH. destruct (String.eqb k0 k') eqn:E1; [|reflexivity].
      apply String.eqb_eq in E1. rewrite <- E1, String.eqb_sym, E0. reflexivity.
Qed.

Lemma dict_lookup_set_eq (d : dict) (k : string) (v : pyval) :
  dict_lookup (dict_set d k v) k = Some v.
Proof. rewrite dict_lookup_set, String.eqb_refl. reflexivity. Qed.

Lemma dict_lookup_set_ne (d : dict) (k k' : string) (v : pyval) :
  k <> k' -> dict_lookup (dict_set d k v) k' = dict_lookup d k'.
Proof.
  intros Hne. rewrite dict_lookup_set.
  destruct (String.eqb k k') eqn:E; [|reflexivity].
  apply String.eqb_eq in E. contradiction.
Qed.

Lemma dict_mem_lookup (d : dict) (k : string) :
  dict_mem d k = false <-> dict_lookup d k = None.
Proof. unfold dict_mem. destruct (dict_lookup d k); split; congruence. Qed.

Lemma dict_get_missing (d : dict) (k : string) :
  dict_mem d k = false -> dict_get d k = PyNone.
Proof. unfold dict_mem, dict_get. destruct (dict_lookup d k); congruence. Qed.

(** ** The object store *)

Lemma deref_insert (m : gmap loc dict) (rq : list string) (l : loc) (d : dict) :
  deref l (World (<[l := d]> m) rq) = (Ok d, World (<[l := d]> m) rq).
Proof. unfold deref. simpl. rewrite lookup_insert_eq. reflexivity. Qed.

Lemma setitem_insert (m : gmap loc dict) (rq : list string) (l : loc) (d : dict)
  (k : string) (v : pyval) :
  setitem l k v (World (<[l := d]> m) rq)
  = (Ok tt, World (<[l := dict_set d k v]> m) rq).
Proof.
  unfold setitem. simpl. rewrite lookup_insert_eq, insert_insert_eq. reflexivity.
Qed.

Lemma bind_ok {A B : Type} (m : M A) (k : A -> M B) (w w' : world) (a : A) :
  m w = (Ok a, w') -> bind m k w = k a w'.
Proof. intros H. unfold bind. rewrite H. reflexivity. Qed.

Lemma bind_raise {A B : Type} (m : M A) (k : A -> M B) (w w' : world) (e : exn) :
  m w = (Raise e, w') -> bind m k w = (Raise e, w').
Proof. intros H. unfold bind. rewrite H. reflexivity. Qed.

Lemma fresh_not_allocated (m : gmap loc dict) : m !! fresh (dom m) = None.
Proof. apply not_elem_of_dom. apply is_fresh. Qed.

Lemma fill_defaults_run (defaults : dict) (l : loc) (d : dict) (m : gmap loc dict)
  (rq : list string) :
  for_each defaults
    (fun kv =>
       bind (deref l) (fun d =>
       if negb (dict_mem d (fst kv)) then setitem l (fst kv) (snd kv) else ret tt))
    (World (<[l := d]> m) rq)
  = (Ok tt, World (<[l := fill_defaults defaults d]> m) rq).
Proof.
  revert d. induction defaults as [|[k v] defaults IH]; intros d; simpl.
  - reflexivity.
  - erewrite bind_ok.
    + apply IH.
    + erewrite bind_ok by apply deref_insert. simpl.
      destruct (negb (dict_mem d k)).
      * apply setitem_insert.
      * reflexivity.
Qed.

Lemma fill_defaults_lookup (defaults given : dict) (k : string) :
  dict_lookup (fill_defaults defaults given) k
  = match dict_lookup given k with
    | Some u => Some u
    | None => dict_lookup defaults k
    end.
Proof.
  unfold fill_defaults. revert given.
  induction defaults as [|[k0 v0] defaults IH]; intros given; simpl.
  - destruct (dict_lookup given k); reflexivity.
  - rewrite IH. unfold dict_mem.
    destruct (dict_lookup given k0) eqn:E0; simpl.
    + destruct (dict_lookup given k) eqn:E; [reflexivity|].
      destruct (String.eqb k0 k) eqn:Ek; [|reflexivity].
      apply String.eqb_eq in Ek. congruence.
    + rewrite dict_lookup_set.
      destruct (String.eqb k0 k) eqn:Ek.
      * apply String.eqb_eq in Ek. subst k0. rewrite E0. reflexivity.
      * reflexivity.
Qed.

(** The entries of the dictionary that the builder encodes. *)
Lemma query_args_lookup (key : pyval) (start : datetime) (end_ : option datetime)
  (given : dict) (k : string) :
  dict_lookup (query_args key start end_ given) k
  = if String.eqb k "end" && bool_decide (end_ <> None)
    then option_map (fun e => PyStr (Date.strftime e "%Y-%m-%d 00:00:00")) end_
    else if String.eqb k "start"
    then Some (PyStr (Date.strftime start "%Y-%m-%d 00:00:00"))
    else match dict_lookup given k with
         | Some u => Some u
         | None => dict_lookup (default_args key) k
         end.
Proof.
  unfold query_args.
  destruct end_ as [e|].
  - rewrite !dict_lookup_set, fill_defaults_lookup.
    rewrite (String.eqb_sym "end" k), (String.eqb_sym "start" k).
    rewrite bool_decide_true by discriminate.
    destruct (String.eqb k "end"); reflexivity.
  - rewrite dict_lookup_set, fill_defaults_lookup.
    rewrite (String.eqb_sym "start" k).
    rewrite bool_decide_false by (intros H; apply H; reflexivity).
    rewrite andb_false_r. reflexivity.
Qed.

(** ** Construction of the record *)

(** Splits a successful run of a chain of [try!] steps into its steps. *)
Ltac invert_steps H :=
  repeat match type of H with
         | rbind ?r _ = Ok _ =>
             let E := fresh "Estep" in
             destruct r eqn:E; cbn [rbind] in H; [|discriminate H]
         | (let '(_, _) := ?p in _) = Ok _ => destruct p
         end.

Lemma setup_flags (data : dict) (c : Channel) :
  setup data = Ok c ->
  parent c = dict_get data "ParentID"
  /\ type c = (if is_none (dict_get data "ParentID") then "parent" else "child")
  /\ hidden c = negb (py_eq_str (dict_get data "Hidden") "false")
  /\ flagged c = py_eq_int (dict_get data "Flag") 1
  /\ downgraded c = py_eq_str (dict_get data "A_H") "true".
Proof.
  intros H. unfold setup in H. invert_steps H.
  injection H as <-. cbn.
  repeat split;
    match goal with |- (if ?b then _ else _) = _ => destruct b; reflexivity end.
Qed.

Lemma py_eq_str_true (v : pyval) (s : string) :
  py_eq_str v s = true <-> v = PyStr s.
Proof.
  destruct v; simpl; try (split; [discriminate | intros H; discriminate H]).
  split.
  - intros H. apply String.eqb_eq in H. subst. reflexivity.
  - intros H. injection H as ->. apply String.eqb_refl.
Qed.

Lemma dict_get_str (d : dict) (k s : string) :
  dict_get d k = PyStr s <-> dict_lookup d k = Some (PyStr s).
Proof.
  unfold dict_get. destruct (dict_lookup d k); split; intros H;
    try discriminate; congruence.
Qed.

Lemma py_eq_int_one (v : pyval) : py_eq_int v 1 = true <-> equals_one v.
Proof.
  unfold equals_one. split.
  - destruct v; simpl; try discriminate.
    + destruct b; [auto | discriminate].
    + intros H. apply Z.eqb_eq in H. subst. auto.
    + intros H. right. right. eauto.
  - intros [-> | [-> | [f [-> H]]]]; [reflexivity | reflexivity | exact H].
Qed.

(** C4: [hidden] is false exactly when the raw [Hidden] value is the string
    [false] (so an absent value, [0] and [False] all give [hidden = true]);
    [flagged] is true exactly when the raw [Flag] value equals [1] in
    Python's sense; [downgraded] is true exactly when the raw [A_H] value
    is the string [true]. *)
Theorem diagnostic_flags (data : dict) (c : Channel) :
  setup data = Ok c ->
  (hidden c = false <-> dict_lookup data "Hidden" = Some (PyStr "false"))
  /\ (flagged c = true <->
      exists v, dict_lookup data "Flag" = Some v /\ equals_one v)
  /\ (downgraded c = true <-> dict_lookup data "A_H" = Some (PyStr "true")).
Proof.
  intros H. apply setup_flags in H.
  destruct H as (_ & _ & Hh & Hf & Hd).
  rewrite Hh, Hf, Hd. repeat split.
  - intros E. apply negb_false_iff in E. apply py_eq_str_true in E.
    apply dict_get_str. exact E.
  - intros E. apply negb_false_iff. apply py_eq_str_true. apply dict_get_str. exact E.
  - intros E. apply py_eq_int_one in E. unfold dict_get in E.
    destruct (dict_lookup data "Flag") as [v|].
    + exists v. split; [reflexivity | exact E].
    + destruct E as [E | [E | [f [E _]]]]; discriminate E.
  - intros [v [Hv E]]. apply py_eq_int_one. unfold dict_get. rewrite Hv. exact E.
  - intros E. apply py_eq_str_true in E. apply dict_get_str. exact E.
  - intros E. apply py_eq_str_true. apply dict_get_str. exact E.
Qed.

Lemma setup_feed_ids (data : dict) (c : Channel) :
  setup data = Ok c ->
  match thingspeak_ids data with
  | Ok (pc, pk, sc, sk) =>
      tp_primary_channel c = pc /\ tp_primary_key c = pk
      /\ tp_secondary_channel c = sc /\ tp_secondary_key c = sk
      /\ thingspeak_primary c = Some (TsHandle pc pk)
      /\ thingspeak_secondary c = Some (TsHandle sc sk)
  | Raise _ =>
      tp_primary_channel c = PyNone /\ tp_primary_key c = PyNone
      /\ tp_secondary_channel c = PyNone /\ tp_secondary_key c = PyNone
      /\ thingspeak_primary c = None /\ thingspeak_secondary c = None
  end.
Proof.
  intros H. unfold setup in H. invert_steps H.
  injection H as <-. cbn.
  match goal with
  | E : rcatch _ is_KeyError _ = Ok _ |- _ => rename E into Hids
  end.
  destruct (thingspeak_ids data) as [[[[pc pk] sc] sk]|e] eqn:Ek; cbn in Hids.
  - injection Hids as <- <- <- <- <- <-. repeat split.
  - assert (Hk : is_KeyError e = true).
    { unfold thingspeak_ids, dict_item in Ek.
      repeat match type of Ek with
             | rbind (match ?o with Some _ => _ | None => _ end) _ = _ =>
                 destruct o; cbn in Ek
             end; try discriminate Ek; injection Ek as <-; reflexivity. }
    rewrite Hk in Hids. injection Hids as <- <- <- <- <- <-. repeat split.
Qed.

Lemma thingspeak_ids_missing (data : dict) (k : string) :
  In k thingspeak_keys -> dict_mem data k = false ->
  exists e, thingspeak_ids data = Raise e.
Proof.
  intros Hin Hk. apply dict_mem_lookup in Hk.
  unfold thingspeak_ids, dict_item.
  simpl in Hin. destruct Hin as [<- | [<- | [<- | [<- | []]]]];
    repeat match goal with
           | |- context [dict_lookup data ?k'] =>
               lazymatch goal with
               | H : dict_lookup data k' = None |- _ => rewrite H
               | _ => destruct (dict_lookup data k') eqn:?
               end; cbn
           end; eauto.
Qed.

(** ** The dictionary exports *)

Lemma dict_lookup_In (d : dict) (k : string) (v : pyval) :
  dict_lookup d k = Some v -> In (k, v) d.
Proof.
  induction d as [|[k0 v0] d IH]; simpl; [discriminate|].
  destruct (String.eqb k0 k) eqn:E.
  - apply String.eqb_eq in E. intros [= ->]. left. congruence.
  - intros H. right. apply IH. exact H.
Qed.

Lemma In_dict_lookup (d : dict) (k : string) (v : pyval) :
  NoDup (dict_keys d) -> In (k, v) d -> dict_lookup d k = Some v.
Proof.
  unfold dict_keys.
  induction d as [|[k0 v0] d IH]; simpl; [intros _ []|].
  intros Hnd Hin. apply NoDup_cons in Hnd as [Hnot Hnd].
  destruct Hin as [[= -> ->] | Hin].
  - rewrite String.eqb_refl. reflexivity.
  - destruct (String.eqb k0 k) eqn:E.
    + apply String.eqb_eq in E. subst k0. exfalso. apply Hnot.
      apply list_elem_of_In. apply in_map_iff. exists (k, v). split; [reflexivity | exact Hin].
    + apply IH; assumption.
Qed.

Lemma dict_mem_In (d : dict) (k : string) :
  dict_mem d k = true -> In k (dict_keys d).
Proof.
  unfold dict_mem. destruct (dict_lookup d k) as [v|] eqn:E; [|discriminate].
  intros _. apply dict_lookup_In in E. unfold dict_keys.
  apply in_map_iff. exists (k, v). split; [reflexivity | exact E].
Qed.

(** C9: as_flat_dict is as_dict with the category level removed: it lists
    the entries of [meta], [data], [diagnostic] and [statistics] one after
    the other.  No key occurs twice among them, so every entry of every
    category is found in the flat mapping under its key with its value,
    and the key sets of two different categories are disjoint. *)
Theorem flat_dict_flattens_nested (self : Channel) :
  as_flat_dict self = category_entries (as_dict self)
  /\ NoDup (dict_keys (category_entries (as_dict self)))
  /\ (forall (cat : string) (props : dict) (k : string) (v : pyval),
        dict_lookup (as_dict self) cat = Some (PyDict props) ->
        dict_lookup props k = Some v ->
        dict_lookup (as_flat_dict self) k = Some v)
  /\ (forall (k : string) (v : pyval),
        dict_lookup (as_flat_dict self) k = Some v ->
        exists (cat : string) (props : dict),
          dict_lookup (as_dict self) cat = Some (PyDict props)
          /\ dict_lookup props k = Some v)
  /\ (forall (cat1 cat2 : string) (props1 props2 : dict) (k : string),
        cat1 <> cat2 ->
        dict_lookup (as_dict self) cat1 = Some (PyDict props1) ->
        dict_lookup (as_dict self) cat2 = Some (PyDict props2) ->
        dict_mem props1 k = true -> dict_mem props2 k = false).
Proof.
  assert (Hflat : as_flat_dict self = category_entries (as_dict self))
    by reflexivity.
  assert (Hnd : NoDup (dict_keys (category_entries (as_dict self)))).
  { apply (bool_decide_unpack _). vm_compute. exact I. }
  split; [exact Hflat|]. split; [exact Hnd|]. split; [|split].
  - intros cat props k v Hcat Hk. rewrite Hflat.
    apply In_dict_lookup; [exact Hnd|].
    unfold category_entries. apply in_flat_map.
    exists (cat, PyDict props). split.
    + apply dict_lookup_In. exact Hcat.
    + simpl. apply dict_lookup_In. exact Hk.
  - intros k v Hk. rewrite Hflat in Hk. apply dict_lookup_In in Hk.
    unfold category_entries in Hk. apply in_flat_map in Hk.
    destruct Hk as [[cat val] [Hcat Hin]].
    destruct val as [| | | | | |props|]; simpl in Hin; try contradiction.
    exists cat, props.
    simpl in Hcat.
    destruct Hcat as [E | [E | [E | [E | []]]]]; injection E as <- <-;
      (split;
       [ reflexivity
       | apply In_dict_lookup;
         [apply (bool_decide_unpack _); vm_compute; exact I | exact Hin] ]).
  - intros cat1 cat2 props1 props2 k Hne H1 H2 Hm.
    apply dict_lookup_In in H1. apply dict_lookup_In in H2.
    apply dict_mem_In in Hm.
    simpl in H1, H2.
    destruct H1 as [E1 | [E1 | [E1 | [E1 | []]]]]; injection E1 as <- <-;
      destruct H2 as [E2 | [E2 | [E2 | [E2 | []]]]]; injection E2 as <- <-;
      try (exfalso; apply Hne; reflexivity);
      simpl in Hm;
      repeat (destruct Hm as [<- | Hm]; [reflexivity|]);
      destruct Hm.
Qed.

Lemma py_float_raises (v : pyval) (e : exn) :
  py_float v = Raise e ->
  is_TypeError e || is_ValueError e = true \/ exists msg, e = OverflowError msg.
Proof.
  destruct v; simpl; try (intros [= <-]; left; reflexivity); try discriminate.
  - destruct (Float.is_finite _); [discriminate|]. intros [= <-]. right. eauto.
  - destruct (float_of_string s); [discriminate|]. intros [= <-]. left. reflexivity.
Qed.

Lemma safe_float_total (data : dict) (k : string) :
  float_convertible (dict_get data k) ->
  safe_float data k = Ok (float_field_value (dict_get data k)).
Proof.
  intros Hc. unfold safe_float, float_field_value.
  destruct (is_none (dict_get data k)) eqn:En; simpl.
  - destruct (dict_get data k); try discriminate En. reflexivity.
  - destruct (py_float (dict_get data k)) as [f|e] eqn:Ef; simpl; [reflexivity|].
    destruct (py_float_raises _ _ Ef) as [-> | [msg ->]]; [reflexivity|].
    exfalso. exact (Hc msg Ef).
Qed.

Lemma float_field_value_shape (v : pyval) :
  float_field_value v = PyNone \/ exists f, float_field_value v = PyFloat f.
Proof.
  unfold float_field_value. destruct (is_none v); [left; reflexivity|].
  destruct (py_float v); [right; eauto | left; reflexivity].
Qed.

Lemma dict_item_get (d : dict) (k : string) :
  dict_mem d k = true -> dict_item d k = Ok (dict_get d k).
Proof.
  unfold dict_mem, dict_item, dict_get. destruct (dict_lookup d k); [reflexivity|discriminate].
Qed.

Lemma thingspeak_ids_raises (data : dict) (e : exn) :
  thingspeak_ids data = Raise e -> is_KeyError e = true.
Proof.
  unfold thingspeak_ids, dict_item. intros Ek.
  repeat match type of Ek with
         | rbind (match ?o with Some _ => _ | None => _ end) _ = _ =>
             destruct o; cbn in Ek
         end; try discriminate Ek; injection Ek as <-; reflexivity.
Qed.

Lemma setup_total (data : dict) :
  (forall k : string, In k (map fst float_fields) -> float_convertible (dict_get data k)) ->
  stats_well_formed data ->
  last_seen_well_formed data ->
  exists c : Channel, setup data = Ok c.
Proof.
  intros Hfloat Hstats Hseen. unfold setup.
  rewrite !safe_float_total by (apply Hfloat; simpl; tauto).
  cbn [rbind].
  destruct (float_field_value_shape (dict_get data "temp_f")) as [-> | [f ->]];
    cbn [is_none negb celsius rbind].
  all: assert (Hstat : exists v, (if dict_mem data "Stats"
                        then rbind (dict_item data "Stats") (fun s => json_loads s)
                        else Ok PyNone) = Ok v /\ stats_shape v)
    by (destruct Hstats as [Hm | [v [Hv Hshape]]];
        [ rewrite Hm; exists PyNone; split; [reflexivity | left; reflexivity]
        | destruct (dict_mem data "Stats") eqn:Hm;
          [ rewrite (dict_item_get _ _ Hm); exists v; split; assumption
          | exists PyNone; split; [reflexivity | left; reflexivity] ] ]).
  all: destruct Hstat as [v [-> Hshape]]; cbn [rbind].
  all: assert (Hids : exists ids,
        rcatch
          (rbind (thingspeak_ids data) (fun ks =>
             let '(pc, pk, sc, sk) := ks in
             Ok (pc, pk, sc, sk, Some (TsHandle pc pk), Some (TsHandle sc sk))))
          is_KeyError (Ok (PyNone, PyNone, PyNone, PyNone, None, None)) = Ok ids)
    by (destruct (thingspeak_ids data) as [[[[pc pk] sc] sk]|e] eqn:Ek; cbn;
        [ eauto | rewrite (thingspeak_ids_raises _ _ Ek); eauto ]).
  all: destruct Hids as [[[[[[i1 i2] i3] i4] i5] i6] ->].
  all: assert (Hls : exists t,
        (if negb (is_none (dict_get data "LastSeen"))
         then seconds_to_datetime (dict_get data "LastSeen")
         else Ok (dict_get data "LastSeen")) = Ok t)
    by (destruct Hseen as [-> | [t Ht]];
        [ eauto | destruct (negb (is_none (dict_get data "LastSeen"))); eauto ]).
  all: destruct Hls as [t ->].
  all: destruct Hshape as [-> | [d [-> Hlm]]].
  all: try (cbn; eauto; fail).
  all: unfold stat_if_truthy, stat_if_not_none; cbn [py_bool py_get is_none negb].
  all: destruct d as [|kv d]; cbn [rbind].
  all: match goal with
       | |- context [millis_to_datetime ?x] =>
           destruct Hlm as [Hl | [t' Hl]];
           [ rewrite Hl; cbn; eauto
           | destruct (negb (is_none x)); [rewrite Hl|]; cbn; eauto ]
       end.
Qed.

(** What a successful construction stored, step by step. *)
Lemma setup_fields (data : dict) (c : Channel) :
  setup data = Ok c ->
  (forall k proj, In (k, proj) float_fields -> safe_float data k = Ok (proj c))
  /\ (forall k proj, In (k, proj) plain_fields -> proj c = dict_get data k)
  /\ (if negb (is_none (current_temp_f c)) then celsius (current_temp_f c)
      else Ok PyNone) = Ok (current_temp_c c)
  /\ (if dict_mem data "Stats"
      then rbind (dict_item data "Stats") (fun s => json_loads s)
      else Ok PyNone) = Ok (pm2_5stats c)
  /\ stat_if_truthy (pm2_5stats c) "v1" = Ok (m10avg c)
  /\ stat_if_truthy (pm2_5stats c) "v2" = Ok (m30avg c)
  /\ stat_if_truthy (pm2_5stats c) "v3" = Ok (h1ravg c)
  /\ stat_if_truthy (pm2_5stats c) "v4" = Ok (h6ravg c)
  /\ stat_if_truthy (pm2_5stats c) "v5" = Ok (d1avg c)
  /\ stat_if_truthy (pm2_5stats c) "v6" = Ok (w1avg c)
  /\ (exists last_mod,
        stat_if_not_none (pm2_5stats c) "lastModified" = Ok last_mod
        /\ (if negb (is_none last_mod) then millis_to_datetime last_mod
            else Ok PyNone) = Ok (last_modified_stats c))
  /\ stat_if_not_none (pm2_5stats c) "timeSinceModified" = Ok (last2_modified c)
  /\ (if negb (is_none (dict_get data "LastSeen"))
      then seconds_to_datetime (dict_get data "LastSeen")
      else Ok (dict_get data "LastSeen")) = Ok (last_seen c).
Proof.
  intros H. unfold setup in H. invert_steps H.
  injection H as <-. cbn.
  split.
  { intros k proj Hin. simpl in Hin.
    repeat (destruct Hin as [[= <- <-] | Hin]; [assumption|]). destruct Hin. }
  split.
  { intros k proj Hin. simpl in Hin.
    repeat (destruct Hin as [[= <- <-] | Hin]; [reflexivity|]). destruct Hin. }
  repeat match goal with
         | |- _ /\ _ => split
         | |- exists _, _ => eexists
         end; try eassumption; reflexivity.
Qed.

(** C2 (amended): when no float field holds an integer too large for a
    float, [Stats] (if present) parses to [None] or to an object with a
    usable [lastModified], and [LastSeen] (if present) is a valid time,
    construction returns a record.  In it every float field depends on its
    own raw value alone and is [None] when that value is missing or not a
    number; every copied field is its raw value, [None] when missing;
    Celsius is [None] when Fahrenheit is; without a [Stats] key the whole
    statistics block is [None]; without a [LastSeen] the last-seen time is
    [None]; and the four ThingSpeak fields and the two handles are [None]
    together as soon as one of the four keys is missing, and the raw
    values otherwise. *)
Theorem construction_degrades_fieldwise (data : dict) :
  (forall k : string, In k (map fst float_fields) -> float_convertible (dict_get data k)) ->
  stats_well_formed data ->
  last_seen_well_formed data ->
  exists c : Channel,
    setup data = Ok c
    /\ (forall k proj, In (k, proj) float_fields ->
          proj c = float_field_value (dict_get data k))
    /\ (forall k proj, In (k, proj) plain_fields -> proj c = dict_get data k)
    /\ (current_temp_f c = PyNone -> current_temp_c c = PyNone)
    /\ (dict_mem data "Stats" = false ->
        Forall (fun proj => proj c = PyNone) statistics_fields)
    /\ (dict_get data "LastSeen" = PyNone -> last_seen c = PyNone)
    /\ ((exists k, In k thingspeak_keys /\ dict_mem data k = false) ->
        tp_primary_channel c = PyNone /\ tp_primary_key c = PyNone
        /\ tp_secondary_channel c = PyNone /\ tp_secondary_key c = PyNone
        /\ thingspeak_primary c = None /\ thingspeak_secondary c = None)
    /\ ((forall k, In k thingspeak_keys -> dict_mem data k = true) ->
        tp_primary_channel c = dict_get data "THINGSPEAK_PRIMARY_ID"
        /\ tp_primary_key c = dict_get data "THINGSPEAK_PRIMARY_ID_READ_KEY"
        /\ tp_secondary_channel c = dict_get data "THINGSPEAK_SECONDARY_ID"
        /\ tp_secondary_key c = dict_get data "THINGSPEAK_SECONDARY_ID_READ_KEY").
Proof.
  intros Hfloat Hstats Hseen.
  destruct (setup_total data Hfloat Hstats Hseen) as [c Hc].
  exists c. split; [exact Hc|].
  pose proof (setup_fields data c Hc) as
    (Hff & Hpf & Htc & Hst & H1 & H2 & H3 & H4 & H5 & H6 & Hlm & Hl2 & Hls).
  pose proof (setup_feed_ids data c Hc) as Hids.
  split; [|split; [exact Hpf|split; [|split; [|split; [|split]]]]].
  - intros k proj Hin. specialize (Hff k proj Hin).
    rewrite safe_float_total in Hff.
    + injection Hff as <-. reflexivity.
    + apply Hfloat. apply in_map_iff. exists (k, proj). split; [reflexivity|exact Hin].
  - intros E. rewrite E in Htc. cbn in Htc. injection Htc as <-. reflexivity.
  - intros Hm. rewrite Hm in Hst. injection Hst as Hst.
    rewrite <- Hst in *. cbn in H1, H2, H3, H4, H5, H6, Hlm, Hl2.
    destruct Hlm as [lm [E1 E2]]. injection E1 as <-. cbn in E2.
    unfold statistics_fields. repeat constructor; congruence.
  - intros E. rewrite E in Hls. cbn in Hls. injection Hls as <-. reflexivity.
  - intros [k [Hin Hk]].
    destruct (thingspeak_ids_missing data k Hin Hk) as [e He].
    rewrite He in Hids. exact Hids.
  - intros Hall.
    assert (Hk : thingspeak_ids data
                 = Ok (dict_get data "THINGSPEAK_PRIMARY_ID",
                       dict_get data "THINGSPEAK_PRIMARY_ID_READ_KEY",
                       dict_get data "THINGSPEAK_SECONDARY_ID",
                       dict_get data "THINGSPEAK_SECONDARY_ID_READ_KEY")).
    { unfold thingspeak_ids.
      rewrite !dict_item_get by (apply Hall; simpl; tauto). reflexivity. }
    rewrite Hk in Hids. destruct Hids as (E1 & E2 & E3 & E4 & _).
    repeat split; assumption.
Qed.

(** ** Dates *)

Lemma weeks_before_0 (d : datetime) : weeks_before d 0 = d.
Proof. destruct d as [m]. unfold weeks_before. simpl. f_equal. lia. Qed.

Lemma weeks_before_add (d : datetime) (j k : Z) :
  weeks_before (weeks_before d j) k = weeks_before d (j + k).
Proof. unfold weeks_before. simpl. f_equal. lia. Qed.

Lemma sub_weeks_in_range (d : datetime) (k : Z) :
  Date.in_range (dt_micros (weeks_before d k)) = true ->
  Date.sub_weeks d k = Ok (weeks_before d k).
Proof. unfold Date.sub_weeks, weeks_before. simpl. intros ->. reflexivity. Qed.

(** The dates between two dates of the calendar are dates of the
    calendar. *)
Lemma in_range_between (d : datetime) (n k : Z) :
  Date.in_range (dt_micros d) = true ->
  Date.in_range (dt_micros (weeks_before d n)) = true ->
  0 <= k <= n ->
  Date.in_range (dt_micros (weeks_before d k)) = true.
Proof.
  unfold Date.in_range, weeks_before. simpl.
  rewrite !andb_true_iff, !Z.leb_le.
  unfold Date.micros_per_week, Date.micros_per_day, Date.micros_per_second.
  intros [H1 H2] [H3 H4] Hk. split; nia.
Qed.

(** ** Tables *)

Lemma col_index_lt (cols : list string) (c : string) (i : nat) :
  Pandas.col_index cols c = Some i -> (i < length cols)%nat.
Proof.
  revert i. induction cols as [|c' cols IH]; intros i; simpl; [discriminate|].
  destruct (String.eqb c' c).
  - intros [= <-]. lia.
  - destruct (Pandas.col_index cols c) as [j|]; simpl; [|discriminate].
    intros [= <-]. specialize (IH j eq_refl). lia.
Qed.

Lemma col_index_app_l (l1 l2 : list string) (c : string) (i : nat) :
  Pandas.col_index l1 c = Some i -> Pandas.col_index (l1 ++ l2) c = Some i.
Proof.
  revert i. induction l1 as [|c' l1 IH]; intros i; simpl; [discriminate|].
  destruct (String.eqb c' c); [trivial|].
  destruct (Pandas.col_index l1 c) as [j|]; simpl; [|discriminate].
  intros [= <-]. rewrite (IH j eq_refl). reflexivity.
Qed.

Lemma col_index_map (g : string -> string) (cols : list string) (c : string) :
  (forall c', String.eqb (g c') c = String.eqb c' c) ->
  Pandas.col_index (map g cols) c = Pandas.col_index cols c.
Proof.
  intros Hg. induction cols as [|c' cols IH]; simpl; [reflexivity|].
  rewrite Hg, IH. reflexivity.
Qed.

Lemma append_x_not_created_at (c : string) : (c +:+ "_x")%string <> "created_at".
Proof.
  intros H.
  repeat (destruct c as [|? c]; simpl in H; [discriminate H | injection H as _ H]).
  destruct c; discriminate H.
Qed.

Lemma merged_columns_key (lcols rcols : list string) (i : nat) :
  Pandas.col_index lcols "created_at" = Some i ->
  Pandas.col_index (Pandas.merged_columns "created_at" lcols rcols) "created_at"
  = Some i.
Proof.
  intros H. unfold Pandas.merged_columns. apply col_index_app_l.
  rewrite col_index_map; [exact H|].
  intros c'.
  destruct (String.eqb c' "created_at") eqn:E; simpl.
  - exact E.
  - destruct (existsb (String.eqb c') rcols); [|exact E].
    apply String.eqb_neq. apply append_x_not_created_at.
Qed.

Lemma cell_at_app (row rest : list cell) (i : nat) :
  (i < length row)%nat -> Pandas.cell_at (row ++ rest) i = Pandas.cell_at row i.
Proof. intros H. unfold Pandas.cell_at. apply app_nth1. exact H. Qed.

(** The time stamps of an inner join are those that both sides carry. *)
Lemma merge_inner_created_at (l r m : DataFrame) :
  rectangular l ->
  Pandas.merge l r Pandas.inner "created_at" = Ok m ->
  forall t : cell, In t (created_at m) <-> In t (created_at l) /\ In t (created_at r).
Proof.
  intros Hrect Hm t. unfold Pandas.merge in Hm.
  destruct (Pandas.col_index (df_columns l) "created_at") as [i|] eqn:Ei;
    [|discriminate Hm].
  destruct (Pandas.col_index (df_columns r) "created_at") as [j|] eqn:Ej;
    [|discriminate Hm].
  injection Hm as <-.
  unfold created_at, Pandas.column. cbn [df_columns df_rows].
  rewrite (merged_columns_key _ _ _ Ei), Ei, Ej.
  rewrite !in_map_iff. split.
  - intros (row & Ht & Hin).
    apply in_flat_map in Hin. destruct Hin as (lrow & Hl & Hin).
    apply in_map_iff in Hin. destruct Hin as (rrow & <- & Hin).
    apply filter_In in Hin. destruct Hin as [Hr Hkey].
    apply bool_decide_eq_true in Hkey.
    rewrite cell_at_app in Ht.
    + split; [exists lrow | exists rrow]; split; congruence.
    + unfold rectangular in Hrect. rewrite Forall_forall in Hrect.
      rewrite (Hrect lrow) by (apply list_elem_of_In; exact Hl).
      apply (col_index_lt _ _ _ Ei).
  - intros [(lrow & Hlt & Hl) (rrow & Hrt & Hr)].
    exists (lrow ++ Pandas.remove_nth j rrow). split.
    + rewrite cell_at_app; [exact Hlt|].
      unfold rectangular in Hrect. rewrite Forall_forall in Hrect.
      rewrite (Hrect lrow) by (apply list_elem_of_In; exact Hl).
      apply (col_index_lt _ _ _ Ei).
    + apply in_flat_map. exists lrow. split; [exact Hl|].
      apply in_map_iff. exists rrow. split; [reflexivity|].
      apply filter_In. split; [exact Hr|].
      apply bool_decide_eq_true. congruence.
Qed.

Lemma length_set_nth {A : Type} (i : nat) (x : A) (l : list A) :
  length (Pandas.set_nth i x l) = length l.
Proof.
  revert i. induction l as [|y l IH]; intros [|i]; simpl; try reflexivity.
  rewrite IH. reflexivity.
Qed.

Lemma length_remove_nth {A : Type} (i : nat) (l : list A) :
  (i < length l)%nat -> length (Pandas.remove_nth i l) = (length l - 1)%nat.
Proof.
  revert i. induction l as [|y l IH]; intros [|i]; simpl; try lia.
  intros H. rewrite IH by lia. lia.
Qed.

Lemma col_index_remove_nth (cols : list string) (c c' : string) (i j : nat) :
  c' <> c ->
  Pandas.col_index cols c = Some i ->
  Pandas.col_index cols c' = Some j ->
  exists i', Pandas.col_index (Pandas.remove_nth j cols) c = Some i'.
Proof.
  intros Hne. revert i j.
  induction cols as [|c0 cols IH]; intros i j; simpl; [discriminate|].
  destruct (String.eqb c0 c') eqn:E'.
  - apply String.eqb_eq in E'. subst c0.
    destruct (String.eqb c' c) eqn:E; [apply String.eqb_eq in E; contradiction|].
    destruct (Pandas.col_index cols c) as [k|] eqn:Ek; simpl; [|discriminate].
    intros _ [= <-]. simpl. eauto.
  - destruct (Pandas.col_index cols c') as [k|] eqn:Ek'; simpl; [|discriminate].
    intros Hi [= <-]. simpl.
    destruct (String.eqb c0 c); [eauto|].
    destruct (Pandas.col_index cols c) as [k'|] eqn:Ek; simpl in Hi; [|discriminate].
    destruct (IH k' k eq_refl eq_refl) as [i' ->]. simpl. eauto.
Qed.

Lemma concat_rectangular (dfs : list DataFrame) (df : DataFrame) :
  Pandas.concat dfs = Ok df -> rectangular df.
Proof.
  unfold Pandas.concat. destruct dfs as [|d0 dfs']; [discriminate|].
  generalize (d0 :: dfs'). intros dfs [= <-]. unfold rectangular.
  change (df_rows (MkFrame ?c ?i ?r)) with r.
  change (df_columns (MkFrame ?c ?i ?r)) with c.
  apply Forall_forall. intros row Hin. apply list_elem_of_In in Hin.
  apply in_flat_map in Hin. destruct Hin as (d & _ & Hin).
  unfold Pandas.align in Hin. apply in_map_iff in Hin.
  destruct Hin as (r & <- & _). apply length_map.
Qed.

Lemma bind_inv {A B : Type} (m : M A) (k : A -> M B) (w w' : world) (b : B) :
  bind m k w = (Ok b, w') ->
  exists a w1, m w = (Ok a, w1) /\ k a w1 = (Ok b, w').
Proof.
  unfold bind. destruct (m w) as [[a|e] w1]; [eauto | discriminate].
Qed.

(** ** The JSON reader never runs out of fuel *)

Lemma skip_ws_length (l : list ascii) : (length (Json.skip_ws l) <= length l)%nat.
Proof.
  induction l as [|c l IH]; simpl; [lia|].
  destruct (Json.is_ws c); simpl; lia.
Qed.

Lemma scan_string_length (l : list ascii) (p : option Z) (acc : list ascii)
  (s : string) (r : list ascii) :
  Json.scan_string l p acc = Some (s, r) -> (length r < length l)%nat.
Proof.
  remember (length l) as n eqn:Hn. revert l p acc Hn.
  induction n as [n IH] using lt_wf_ind. intros l p acc Hn.
  destruct l as [|c l]; simpl; [discriminate|].
  destruct (Ascii.eqb c Json.quote).
  { intros [= _ <-]. simpl in Hn. lia. }
  destruct (Ascii.eqb c Json.backslash).
  - destruct l as [|e l]; [discriminate|].
    assert (Hplain : forall p' acc',
               Json.scan_string l p' acc' = Some (s, r) ->
               (length r < n)%nat).
    { intros p' acc' H. simpl in Hn.
      specialize (IH (length l) ltac:(lia) l p' acc' eq_refl H). lia. }
    assert (Hu : forall l4 p' acc',
               (length l4 < length l)%nat ->
               Json.scan_string l4 p' acc' = Some (s, r) ->
               (length r < n)%nat).
    { intros l4 p' acc' Hl H. simpl in Hn.
      specialize (IH (length l4) ltac:(lia) l4 p' acc' eq_refl H). lia. }
    destruct e as [[] [] [] [] [] [] [] []];
      try (destruct (Ascii.eqb _ Json.quote);
           [ apply Hplain
           | destruct (Ascii.eqb _ Json.backslash); [apply Hplain|] ];
           try discriminate; try apply Hplain).
    destruct l as [|h1 [|h2 [|h3 [|h4 l4]]]];
      try (cbn; discriminate).
    destruct (Json.hex4 h1 h2 h3 h4); [|discriminate].
    destruct p; repeat match goal with
                       | |- context [if ?b then _ else _] => destruct b
                       end; apply Hu; simpl; lia.
  - destruct (code c <? 32)%N; [discriminate|].
    intros H. simpl in Hn.
    specialize (IH (length l) ltac:(lia) l _ _ eq_refl H). lia.
Qed.

Lemma take_digits_length (l acc : list ascii) :
  (length (snd (Json.take_digits l acc)) <= length l)%nat.
Proof.
  revert acc. induction l as [|c l IH]; intros acc; simpl; [lia|].
  destruct (is_digit c); simpl; [|lia]. specialize (IH (c :: acc)). lia.
Qed.

Lemma drop_prefix_length (p l r : list ascii) :
  Json.drop_prefix p l = Some r -> (length r + length p = length l)%nat.
Proof.
  revert l. induction p as [|a p IH]; intros l; simpl.
  - intros [= <-]. lia.
  - destruct l as [|b l]; [discriminate|].
    destruct (Ascii.eqb a b); [|discriminate].
    intros H. apply IH in H. simpl. lia.
Qed.

Lemma scan_number_length (l : list ascii) (v : pyval) (r : list ascii) :
  Json.scan_number l = Some (v, r) -> (length r < length l)%nat.
Proof.
  unfold Json.scan_number.
  set (sign := match l with "-"%char :: r0 => (true, r0) | _ => (false, l) end).
  assert (Hs : (length (snd sign) <= length l)%nat).
  { unfold sign. destruct l as [|c l0]; simpl; [lia|].
    destruct c as [[] [] [] [] [] [] [] []]; simpl; lia. }
  destruct sign as [neg l0]. simpl in Hs.
  set (ipart := match l0 with
                | "0"%char :: r0 => Some (["0"%char], r0)
                | c :: r0 => if is_digit c then Some (Json.take_digits r0 [c]) else None
                | [] => None
                end).
  assert (Hi : forall ip l1, ipart = Some (ip, l1) -> (length l1 < length l0)%nat).
  { unfold ipart. intros ip l1. destruct l0 as [|c r0]; [discriminate|].
    assert (Hd : (if is_digit c then Some (Json.take_digits r0 [c]) else None)
                 = Some (ip, l1) -> (length l1 < length (c :: r0))%nat).
    { destruct (is_digit c); [|discriminate]. intros [= H].
      pose proof (take_digits_length r0 [c]) as Ht. rewrite H in Ht. simpl in *. lia. }
    destruct c as [[] [] [] [] [] [] [] []]; try exact Hd.
    intros [= _ <-]. simpl. lia. }
  destruct ipart as [[ip l1]|]; [|discriminate].
  specialize (Hi ip l1 eq_refl).
  set (fpart := match l1 with
                | "."%char :: c :: r0 => if is_digit c then Json.take_digits r0 [c] else ([], l1)
                | _ => ([], l1)
                end).
  assert (Hf : (length (snd fpart) <= length l1)%nat).
  { unfold fpart. destruct l1 as [|c1 [|c2 r0]]; simpl; try lia.
    - destruct c1 as [[] [] [] [] [] [] [] []]; simpl; lia.
    - assert (Hd : (length (snd (if is_digit c2 then Json.take_digits r0 [c2]
                                 else ([], c1 :: c2 :: r0)))
                    <= S (S (length r0)))%nat).
      { destruct (is_digit c2); simpl; [|lia].
        pose proof (take_digits_length r0 [c2]). lia. }
      destruct c1 as [[] [] [] [] [] [] [] []]; simpl; try lia; exact Hd. }
  destruct fpart as [fp l2]. simpl in Hf.
  set (epart := match l2 with
                | c :: r0 =>
                    if Ascii.eqb (lower c) "e"
                    then
                      let '(eneg, r') :=
                        match r0 with
                        | "-"%char :: r' => (true, r')
                        | "+"%char :: r' => (false, r')
                        | _ => (false, r0)
                        end in
                      match Json.take_digits r' [] with
                      | ([], _) => (None, l2)
                      | (ds, r'') =>
                          (Some (if eneg then - digits_val ds else digits_val ds), r'')
                      end
                    else (None, l2)
                | [] => (None, l2)
                end).
  assert (He : (length (snd epart) <= length l2)%nat).
  { unfold epart. destruct l2 as [|c r0]; simpl; [lia|].
    destruct (Ascii.eqb (lower c) "e"); simpl; [|lia].
    set (sg := match r0 with
               | "-"%char :: r' => (true, r')
               | "+"%char :: r' => (false, r')
               | _ => (false, r0)
               end).
    assert (Hsg : (length (snd sg) <= length r0)%nat).
    { unfold sg. destruct r0 as [|c0 r1]; simpl; [lia|].
      destruct c0 as [[] [] [] [] [] [] [] []]; simpl; lia. }
    destruct sg as [eneg r']. simpl in Hsg.
    pose proof (take_digits_length r' []) as Ht.
    destruct (Json.take_digits r' []) as [[|d ds] r'']; simpl in *; lia. }
  destruct epart as [ex l3]. simpl in He.
  destruct fp, ex; intros [= _ <-]; lia.
Qed.

Lemma scan_literal_length (l : list ascii) (v : pyval) (r : list ascii) :
  Json.scan_literal l = Some (v, r) -> (length r < length l)%nat.
Proof.
  unfold Json.scan_literal.
  repeat match goal with
         | |- context [Json.drop_prefix ?p l] =>
             let E := fresh "E" in
             destruct (Json.drop_prefix p l) eqn:E;
             [ apply drop_prefix_length in E; intros [= _ <-];
               simpl in E; lia | ]
         end.
  apply scan_number_length.
Qed.

Lemma expect_length (ch : ascii) (l r : list ascii) :
  Json.expect ch l = Some r -> (length l = S (length r))%nat.
Proof.
  unfold Json.expect. destruct l as [|c l]; [discriminate|].
  destruct (Ascii.eqb c ch); [|discriminate]. intros [= <-]. reflexivity.
Qed.

(** With more fuel than characters, no reader runs out of fuel, and a
    value that is read consumes at least one character. *)
Lemma json_fuel (fuel : nat) :
  (forall l, (length l < fuel)%nat ->
     Json.value fuel l <> Json.Exhausted
     /\ forall v r, Json.value fuel l = Json.Parsed v r -> (length r < length l)%nat)
  /\ (forall l acc, (length l < fuel)%nat ->
        Json.elements fuel l acc <> Json.Exhausted
        /\ forall v r, Json.elements fuel l acc = Json.Parsed v r ->
                       (length r < length l)%nat)
  /\ (forall l acc, (length l < fuel)%nat ->
        Json.members fuel l acc <> Json.Exhausted
        /\ forall v r, Json.members fuel l acc = Json.Parsed v r ->
                       (length r < length l)%nat).
Proof.
  induction fuel as [|n (IHv & IHe & IHm)].
  { repeat split; intros; lia. }
  assert (Hv : forall l, (length l < n)%nat ->
            forall k : pyval -> list ascii -> Json.outcome,
              (forall v r, (length r < length l)%nat ->
                 k v r <> Json.Exhausted
                 /\ forall v' r', k v r = Json.Parsed v' r' ->
                                  (length r' < length r)%nat) ->
              match Json.value n l with
              | Json.Parsed v r => k v r
              | o => o
              end <> Json.Exhausted
              /\ forall v' r',
                   match Json.value n l with
                   | Json.Parsed v r => k v r
                   | o => o
                   end = Json.Parsed v' r' -> (length r' < length l)%nat).
  { intros l Hl k Hk. destruct (IHv l Hl) as [Hne Hlen].
    destruct (Json.value n l) as [v r| |]; try (split; [discriminate|discriminate]).
    - specialize (Hlen v r eq_refl). destruct (Hk v r Hlen) as [Hk1 Hk2].
      split; [exact Hk1|]. intros v' r' E. specialize (Hk2 v' r' E). lia.
    - contradiction. }
  split; [|split].
  - intros l Hl. cbn [Json.value].
    destruct l as [|c r]; [split; [discriminate|discriminate]|].
    simpl in Hl. pose proof (skip_ws_length r) as Hws.
    destruct (Ascii.eqb c Json.quote).
    { destruct (Json.scan_string r None []) as [[s r']|] eqn:E;
        [|split; discriminate].
      apply scan_string_length in E. split; [discriminate|].
      intros v r0 [= _ <-]. simpl. lia. }
    destruct (Ascii.eqb c "[").
    { destruct (Json.expect "]" (Json.skip_ws r)) as [r'|] eqn:E.
      - apply expect_length in E. split; [discriminate|].
        intros v r0 [= _ <-]. simpl. lia.
      - destruct (Hv (Json.skip_ws r) ltac:(lia)
                    (fun v r'' => Json.elements n r'' [v])) as [H1 H2].
        + intros v r0 Hr0. apply IHe. lia.
        + split; [exact H1|]. intros v' r' E'. specialize (H2 v' r' E').
          simpl. lia. }
    destruct (Ascii.eqb c "{").
    { destruct (Json.expect "}" (Json.skip_ws r)) as [r'|] eqn:E.
      - apply expect_length in E. split; [discriminate|].
        intros v r0 [= _ <-]. simpl. lia.
      - destruct (IHm (Json.skip_ws r) [] ltac:(lia)) as [H1 H2].
        split; [exact H1|]. intros v' r' E'. specialize (H2 v' r' E').
        simpl. lia. }
    destruct (Json.scan_literal (c :: r)) as [[v r']|] eqn:E; [|split; discriminate].
    apply scan_literal_length in E. split; [discriminate|].
    intros v0 r0 [= _ <-]. exact E.
  - intros l acc Hl. cbn [Json.elements].
    pose proof (skip_ws_length l) as Hws.
    destruct (Json.expect "]" (Json.skip_ws l)) as [r|] eqn:E.
    { apply expect_length in E. split; [discriminate|].
      intros v r0 [= _ <-]. lia. }
    destruct (Json.expect "," (Json.skip_ws l)) as [r|] eqn:E'; [|split; discriminate].
    apply expect_length in E'. pose proof (skip_ws_length r) as Hws'.
    destruct (Hv (Json.skip_ws r) ltac:(lia)
                (fun v r' => Json.elements n r' (v :: acc))) as [H1 H2].
    + intros v r0 Hr0. apply IHe. lia.
    + split; [exact H1|]. intros v' r' E2. specialize (H2 v' r' E2). lia.
  - intros l acc Hl. cbn [Json.members].
    destruct (Json.expect Json.quote l) as [r|] eqn:E; [|split; discriminate].
    apply expect_length in E.
    destruct (Json.scan_string r None []) as [[k r1]|] eqn:Es; [|split; discriminate].
    apply scan_string_length in Es. pose proof (skip_ws_length r1) as Hws1.
    destruct (Json.expect ":" (Json.skip_ws r1)) as [r2|] eqn:Ec; [|split; discriminate].
    apply expect_length in Ec. pose proof (skip_ws_length r2) as Hws2.
    destruct (Hv (Json.skip_ws r2) ltac:(lia)
                (fun v r3 =>
                   match Json.expect "}" (Json.skip_ws r3) with
                   | Some r4 => Json.Parsed (PyDict (dict_set acc k v)) r4
                   | None =>
                       match Json.expect "," (Json.skip_ws r3) with
                       | Some r4 => Json.members n (Json.skip_ws r4) (dict_set acc k v)
                       | None => Json.Malformed "Expecting ',' delimiter"
                       end
                   end)) as [H1 H2].
    + intros v r3 Hr3. pose proof (skip_ws_length r3) as Hws3.
      destruct (Json.expect "}" (Json.skip_ws r3)) as [r4|] eqn:E4.
      { apply expect_length in E4. split; [discriminate|].
        intros v' r' [= _ <-]. lia. }
      destruct (Json.expect "," (Json.skip_ws r3)) as [r4|] eqn:E5;
        [|split; discriminate].
      apply expect_length in E5. pose proof (skip_ws_length r4) as Hws4.
      destruct (IHm (Json.skip_ws r4) (dict_set acc k v) ltac:(lia)) as [H3 H4].
      split; [exact H3|]. intros v' r' E6. specialize (H4 v' r' E6). lia.
    + split; [exact H1|]. intros v' r' E2. specialize (H2 v' r' E2). lia.
Qed.

(** [json.loads] returns a value or raises a decoding or type error: the
    fuel of the reader is never used up. *)
Lemma json_loads_terminates (v : pyval) : json_loads v <> Raise NonTermination.
Proof.
  destruct v; simpl; try discriminate.
  unfold Json.document.
  pose proof (skip_ws_length (chars s)) as Hws.
  destruct (proj1 (json_fuel (S (length (chars s)))) (Json.skip_ws (chars s))
              ltac:(lia)) as [Hne _].
  destruct (Json.value (S (length (chars s))) (Json.skip_ws (chars s)))
    as [v r| |]; [|discriminate|contradiction].
  destruct (Json.skip_ws r); discriminate.
Qed.

(** Celsius is derived from Fahrenheit: 32 degrees Fahrenheit are 0 degrees
    Celsius, and no Fahrenheit reading gives no Celsius reading. *)
Lemma celsius_derivation (data : dict) (c : Channel) :
  setup data = Ok c ->
  (current_temp_f c = PyFloat (Float.of_Z 32) ->
   current_temp_c c = PyFloat (S754_zero false))
  /\ (current_temp_f c = PyNone -> current_temp_c c = PyNone).
Proof.
  intros H. pose proof (setup_fields data c H) as (_ & _ & Htc & _).
  split; intros E; rewrite E in Htc; cbn [is_none negb celsius] in Htc;
    injection Htc as <-; vm_compute; reflexivity.
Qed.

Lemma rbind_terminates {A B : Type} (r : result A) (k : A -> result B) :
  r <> Raise NonTermination ->
  (forall a, k a <> Raise NonTermination) ->
  rbind r k <> Raise NonTermination.
Proof.
  intros Hr Hk. destruct r as [a|e]; simpl; [apply Hk|].
  intros [= ->]. apply Hr. reflexivity.
Qed.

Lemma py_float_terminates (v : pyval) : py_float v <> Raise NonTermination.
Proof.
  destruct v; simpl; try discriminate.
  - destruct (Float.is_finite _); discriminate.
  - destruct (float_of_string s); discriminate.
Qed.

Lemma py_int_terminates (v : pyval) : py_int v <> Raise NonTermination.
Proof.
  destruct v; simpl; try discriminate.
  - destruct f; discriminate.
  - destruct (int_of_string s); discriminate.
Qed.

Lemma utcfromtimestamp_terminates (v : pyval) :
  Date.utcfromtimestamp v <> Raise NonTermination.
Proof.
  unfold Date.utcfromtimestamp.
  destruct v as [| | |f| | | |]; try discriminate;
    try (destruct f); try discriminate;
    match goal with |- context [Date.in_range ?m] => destruct (Date.in_range m) end;
    discriminate.
Qed.

Lemma safe_float_terminates (data : dict) (k : string) :
  safe_float data k <> Raise NonTermination.
Proof.
  unfold safe_float. destruct (negb (is_none (dict_get data k))); [|discriminate].
  pose proof (py_float_terminates (dict_get data k)) as H.
  destruct (py_float (dict_get data k)) as [f|e]; simpl; [discriminate|].
  destruct (is_TypeError e || is_ValueError e); [discriminate|].
  congruence.
Qed.

Lemma py_get_terminates (v : pyval) (k : string) : py_get v k <> Raise NonTermination.
Proof. destruct v; discriminate. Qed.

Lemma millis_to_datetime_terminates (v : pyval) :
  millis_to_datetime v <> Raise NonTermination.
Proof.
  unfold millis_to_datetime.
  apply rbind_terminates; [apply py_int_terminates|]. intros z.
  apply rbind_terminates.
  - unfold int_true_div. destruct (Float.is_finite _); discriminate.
  - intros f. apply rbind_terminates; [apply utcfromtimestamp_terminates|].
    discriminate.
Qed.

Lemma seconds_to_datetime_terminates (v : pyval) :
  seconds_to_datetime v <> Raise NonTermination.
Proof.
  unfold seconds_to_datetime.
  apply rbind_terminates; [apply py_int_terminates|]. intros z.
  apply rbind_terminates; [apply utcfromtimestamp_terminates|]. discriminate.
Qed.

(** Construction returns, or raises an error of Python: it never fails
    for lack of fuel. *)
Lemma setup_terminates (data : dict) : setup data <> Raise NonTermination.
Proof.
  unfold setup.
  repeat first
    [ apply rbind_terminates;
      [ first
          [ apply safe_float_terminates
          | unfold stat_if_truthy, stat_if_not_none;
            match goal with
            | |- (if ?b then _ else _) <> _ => destruct b
            end;
            first [ apply py_get_terminates
                  | apply millis_to_datetime_terminates
                  | apply seconds_to_datetime_terminates
                  | discriminate
                  | unfold celsius;
                    match goal with |- match ?t with _ => _ end <> _ => destruct t end;
                    discriminate
                  | apply rbind_terminates;
                    [ unfold dict_item; destruct (dict_lookup data "Stats"); discriminate
                    | intros ?; apply json_loads_terminates ] ]
          | unfold rcatch;
            destruct (thingspeak_ids data) as [[[[? ?] ?] ?]|e] eqn:Ek; cbn;
            [ discriminate
            | rewrite (thingspeak_ids_raises _ _ Ek); discriminate ] ]
      | intros ? ]
    | match goal with
      | |- (let '(_, _) := ?p in _) <> _ => destruct p
      end ].
  discriminate.
Qed.

(** ** Columns and cells *)

Lemma cell_at_set_nth_same (i : nat) (v : cell) (row : list cell) :
  (i < length row)%nat -> Pandas.cell_at (Pandas.set_nth i v row) i = v.
Proof.
  unfold Pandas.cell_at. revert i.
  induction row as [|c row IH]; intros [|i]; simpl; try lia; [reflexivity|].
  intros H. apply IH. lia.
Qed.

Lemma cell_at_set_nth_other (i j : nat) (v : cell) (row : list cell) :
  i <> j -> Pandas.cell_at (Pandas.set_nth i v row) j = Pandas.cell_at row j.
Proof.
  unfold Pandas.cell_at. revert i j.
  induction row as [|c row IH]; intros [|i] [|j] H; simpl; try reflexivity; try lia.
  apply IH. lia.
Qed.

Lemma cell_at_remove_nth (i j : nat) (row : list cell) :
  j <> i ->
  Pandas.cell_at (Pandas.remove_nth j row) (if (j <? i)%nat then pred i else i)
  = Pandas.cell_at row i.
Proof.
  unfold Pandas.cell_at. revert i j.
  induction row as [|c row IH]; intros i j H.
  - destruct j; simpl; destruct (if (_ <? i)%nat then pred i else i), i; reflexivity.
  - destruct j as [|j], i as [|i]; simpl; try lia; try reflexivity.
    specialize (IH i j ltac:(lia)).
    change (S j <? S i)%nat with (j <? i)%nat.
    destruct (j <? i)%nat eqn:E.
    + apply Nat.ltb_lt in E. destruct i as [|i]; [lia|]. simpl in *. exact IH.
    + exact IH.
Qed.

Lemma col_index_remove_nth_eq (cols : list string) (c : string) (i j : nat) :
  Pandas.col_index cols c = Some i ->
  j <> i ->
  Pandas.col_index (Pandas.remove_nth j cols) c
  = Some (if (j <? i)%nat then pred i else i).
Proof.
  revert i j. induction cols as [|c0 cols IH]; intros i j; simpl; [discriminate|].
  destruct (String.eqb c0 c) eqn:E.
  - intros [= <-] Hj. destruct j as [|j]; [lia|]. simpl. rewrite E. reflexivity.
  - destruct (Pandas.col_index cols c) as [k|] eqn:Ek; simpl; [|discriminate].
    intros [= <-] Hj. destruct j as [|j]; simpl.
    + exact Ek.
    + rewrite E. rewrite (IH k j eq_refl) by lia. simpl.
      change (S j <? S k)%nat with (j <? k)%nat.
      destruct (j <? k)%nat eqn:Ejk; [|reflexivity].
      apply Nat.ltb_lt in Ejk. destruct k; [lia|]. reflexivity.
Qed.

Lemma col_index_label (cols : list string) (c : string) (i : nat) :
  Pandas.col_index cols c = Some i -> nth_error cols i = Some c.
Proof.
  revert i. induction cols as [|c0 cols IH]; intros i; simpl; [discriminate|].
  destruct (String.eqb c0 c) eqn:E.
  - intros [= <-]. apply String.eqb_eq in E. subst. reflexivity.
  - destruct (Pandas.col_index cols c) as [k|]; simpl; [|discriminate].
    intros [= <-]. simpl. apply IH. reflexivity.
Qed.

Lemma map_fst_combine {A B : Type} (l : list A) (l' : list B) :
  length l = length l' -> map fst (combine l l') = l.
Proof.
  revert l'. induction l as [|a l IH]; intros [|b l']; simpl; try discriminate;
    [reflexivity|].
  intros [= H]. rewrite IH by exact H. reflexivity.
Qed.

Lemma map_snd_combine {A B : Type} (l : list A) (l' : list B) :
  length l = length l' -> map snd (combine l l') = l'.
Proof.
  revert l'. induction l as [|a l IH]; intros [|b l']; simpl; try discriminate;
    [reflexivity|].
  intros [= H]. rewrite IH by exact H. reflexivity.
Qed.

(** ** Failing constructions *)

(** [safe_float] swallows the [TypeError] and the [ValueError] of
    [float()] and nothing else: its result is the float that [float()]
    gave, [None] when [float()] rejected the value for its type or its
    text (a missing value is [None] and stays [None]), and the
    [OverflowError] of an integer too large for a float escapes. *)
Theorem safe_float_outcomes (data : dict) (k : string) :
  match py_float (dict_get data k) with
  | Ok f => safe_float data k = Ok (PyFloat f)
  | Raise (OverflowError msg) =>
      safe_float data k = Raise (OverflowError msg)
      /\ exists z : Z, dict_lookup data k = Some (PyInt z)
  | Raise _ => safe_float data k = Ok PyNone
  end.
Proof.
  unfold safe_float, dict_get.
  destruct (dict_lookup data k) as [v|]; [|reflexivity].
  destruct v; cbn; try reflexivity.
  - destruct (Float.is_finite (Float.of_Z z)); cbn; [reflexivity|]. eauto.
  - destruct (float_of_string s); reflexivity.
Qed.

(** A [Stats] value that [json.loads] rejects, or that parses to something
    other than an object or [null], makes the construction fail: the error
    of [json.loads] escapes in the first case (a [TypeError] for a value
    that is not text, a decoding error for malformed text), and the
    [.get] on a list, number, string or boolean raises [AttributeError]
    in the second. *)
Theorem setup_stats_errors (data : dict) :
  (forall k : string, In k (map fst float_fields) -> float_convertible (dict_get data k)) ->
  dict_mem data "Stats" = true ->
  (forall e : exn,
     json_loads (dict_get data "Stats") = Raise e -> setup data = Raise e)
  /\ (forall v : pyval,
        json_loads (dict_get data "Stats") = Ok v ->
        v <> PyNone -> (forall d : dict, v <> PyDict d) ->
        setup data = Raise (AttributeError "object has no attribute 'get'")).
Proof.
  intros Hfloat Hm.
  split.
  - intros e He. unfold setup.
    rewrite !safe_float_total by (apply Hfloat; simpl; tauto).
    cbn [rbind].
    destruct (float_field_value_shape (dict_get data "temp_f")) as [-> | [f ->]];
      cbn [is_none negb celsius rbind];
      rewrite Hm, (dict_item_get _ _ Hm); cbn [rbind]; rewrite He; reflexivity.
  - intros v Hv Hnone Hdict. unfold setup.
    rewrite !safe_float_total by (apply Hfloat; simpl; tauto).
    cbn [rbind].
    destruct (float_field_value_shape (dict_get data "temp_f")) as [-> | [f ->]];
      cbn [is_none negb celsius rbind];
      rewrite Hm, (dict_item_get _ _ Hm); cbn [rbind]; rewrite Hv; cbn [rbind];
      unfold stat_if_truthy, stat_if_not_none;
      (destruct v as [|b|z|g|s|l|d|t];
       [ contradiction
       | destruct b; reflexivity
       | destruct (z =? 0) eqn:Ez; cbn [py_bool]; rewrite Ez; reflexivity
       | cbn [py_bool]; destruct (Float.is_zero g); reflexivity
       | cbn [py_bool]; destruct (String.eqb s ""); reflexivity
       | destruct l; reflexivity
       | exfalso; exact (Hdict d eq_refl)
       | reflexivity ]).
Qed.

(** A [LastSeen] value that is there but is not a valid time in seconds
    makes the construction fail with the error of the conversion, even
    though every other field was read: the [int()] and the
    [utcfromtimestamp] on it are not guarded. *)
Theorem setup_last_seen_error (data : dict) (e : exn) :
  (forall k : string, In k (map fst float_fields) -> float_convertible (dict_get data k)) ->
  stats_well_formed data ->
  dict_get data "LastSeen" <> PyNone ->
  seconds_to_datetime (dict_get data "LastSeen") = Raise e ->
  setup data = Raise e.
Proof.
  intros Hfloat Hstats Hsome Hseen. unfold setup.
  rewrite !safe_float_total by (apply Hfloat; simpl; tauto).
  cbn [rbind].
  destruct (float_field_value_shape (dict_get data "temp_f")) as [-> | [f ->]];
    cbn [is_none negb celsius rbind].
  all: assert (Hstat : exists v, (if dict_mem data "Stats"
                        then rbind (dict_item data "Stats") (fun s => json_loads s)
                        else Ok PyNone) = Ok v /\ stats_shape v)
    by (destruct Hstats as [Hm | [v [Hv Hshape]]];
        [ rewrite Hm; exists PyNone; split; [reflexivity | left; reflexivity]
        | destruct (dict_mem data "Stats") eqn:Hm;
          [ rewrite (dict_item_get _ _ Hm); exists v; split; assumption
          | exists PyNone; split; [reflexivity | left; reflexivity] ] ]).
  all: destruct Hstat as [v [-> Hshape]]; cbn [rbind].
  all: assert (Hids : exists ids,
        rcatch
          (rbind (thingspeak_ids data) (fun ks =>
             let '(pc, pk, sc, sk) := ks in
             Ok (pc, pk, sc, sk, Some (TsHandle pc pk), Some (TsHandle sc sk))))
          is_KeyError (Ok (PyNone, PyNone, PyNone, PyNone, None, None)) = Ok ids)
    by (destruct (thingspeak_ids data) as [[[[pc pk] sc] sk]|e'] eqn:Ek; cbn;
        [ eauto | rewrite (thingspeak_ids_raises _ _ Ek); eauto ]).
  all: destruct Hids as [[[[[[i1 i2] i3] i4] i5] i6] ->].
  all: assert (Hls : (if negb (is_none (dict_get data "LastSeen"))
         then seconds_to_datetime (dict_get data "LastSeen")
         else Ok (dict_get data "LastSeen")) = Raise e)
    by (destruct (dict_get data "LastSeen"); try contradiction; exact Hseen).
  all: rewrite Hls.
  all: destruct Hshape as [-> | [d [-> Hlm]]].
  all: try (cbn; reflexivity).
  all: unfold stat_if_truthy, stat_if_not_none; cbn [py_bool py_get is_none negb].
  all: destruct d as [|kv d]; cbn [rbind].
  all: match goal with
       | |- context [millis_to_datetime ?x] =>
           destruct Hlm as [Hl | [t' Hl]];
           [ rewrite Hl; cbn; reflexivity
           | destruct (negb (is_none x)); [rewrite Hl|]; cbn; reflexivity ]
       end.
Qed.

(** ** The export of a constructed record *)

Lemma safe_float_ok (data : dict) (k : string) (v : pyval) :
  safe_float data k = Ok v -> v = float_field_value (dict_get data k).
Proof.
  unfold safe_float, float_field_value.
  destruct (is_none (dict_get data k)) eqn:En; simpl.
  - destruct (dict_get data k); try discriminate En. intros [= <-]. reflexivity.
  - destruct (py_float (dict_get data k)) as [f|e]; simpl; [intros [= <-]; reflexivity|].
    destruct (is_TypeError e || is_ValueError e); [intros [= <-]; reflexivity|discriminate].
Qed.

(** Construction followed by the flat export: under the key of the export
    stands the raw value for a copied field, [None] when it is missing,
    and for a float field the float of the raw value, [None] when it is
    missing or not a number; the Celsius entry is derived from the
    Fahrenheit entry. *)
Theorem flat_export_of_snapshot (data : dict) (c : Channel) :
  setup data = Ok c ->
  (forall raw export : string,
     In (raw, export) exported_plain ->
     dict_lookup (as_flat_dict c) export = Some (dict_get data raw))
  /\ (forall raw export : string,
        In (raw, export) exported_float ->
        dict_lookup (as_flat_dict c) export
        = Some (float_field_value (dict_get data raw)))
  /\ (exists t : pyval,
        dict_lookup (as_flat_dict c) "temp_c" = Some t
        /\ (if is_none (float_field_value (dict_get data "temp_f")) then Ok PyNone
            else celsius (float_field_value (dict_get data "temp_f"))) = Ok t)
  /\ length (as_flat_dict c)
     = (length exported_plain + length exported_float + 12)%nat.
Proof.
  intros Hc.
  pose proof (setup_fields data c Hc) as (Hff & Hpf & Htc & _).
  assert (Hfv : forall k proj, In (k, proj) float_fields ->
                               proj c = float_field_value (dict_get data k)).
  { intros k proj Hin. apply safe_float_ok. apply Hff. exact Hin. }
  split; [|split; [|split]].
  - intros raw export Hin. simpl in Hin.
    repeat (destruct Hin as [[= <- <-] | Hin];
            [ change (as_flat_dict c) with (category_entries (as_dict c));
              cbn; f_equal; apply Hpf; simpl; auto 20 |]).
    destruct Hin.
  - intros raw export Hin. simpl in Hin.
    repeat (destruct Hin as [[= <- <-] | Hin];
            [ change (as_flat_dict c) with (category_entries (as_dict c));
              cbn; f_equal; apply Hfv; simpl; auto 30 |]).
    destruct Hin.
  - exists (current_temp_c c). split; [reflexivity|].
    rewrite <- (Hfv "temp_f" current_temp_f) by (simpl; auto 10).
    destruct (is_none (current_temp_f c)); exact Htc.
  - reflexivity.
Qed.

Section Printing.

Variable str : pyval -> string.

(** The printed form names the parent exactly for a record in the role
    [child]: both test the raw [ParentID] against [None]. *)
Theorem repr_names_parent_of_child (data : dict) (c : Channel) :
  setup data = Ok c ->
  repr str c
  = ("Sensor " +:+ str (dict_get data "ID")
     +:+ (if String.eqb (type c) "child"
          then ", child of " +:+ str (dict_get data "ParentID") else ""))%string.
Proof.
  intros Hc.
  pose proof (setup_fields data c Hc) as (_ & Hpf & _).
  pose proof (setup_flags data c Hc) as (Hp & Ht & _).
  unfold repr. rewrite Ht.
  rewrite (Hpf "ID" identifier) by (simpl; auto).
  rewrite Hp.
  destruct (is_none (dict_get data "ParentID")); reflexivity.
Qed.

End Printing.

(** ** The sensor *)

Lemma dict_item_mem (d : dict) (k : string) (v : pyval) :
  dict_item d k = Ok v -> dict_mem d k = true /\ dict_get d k = v.
Proof.
  unfold dict_item, dict_mem, dict_get.
  destruct (dict_lookup d k); [intros [= <-]; auto | discriminate].
Qed.

Lemma py_subscript_ok (v : pyval) (k : string) (x : pyval) :
  py_subscript v k = Ok x -> exists d, v = PyDict d /\ dict_lookup d k = Some x.
Proof.
  destruct v; simpl; try discriminate.
  unfold dict_item. destruct (dict_lookup d k) eqn:E; [|discriminate].
  intros [= <-]. eauto.
Qed.

Section SensorProperties.

Variable reverse_geocode : pyval -> pyval -> result pyval.

Local Abbreviation sensor_setup := (Sensor.setup reverse_geocode).

(** What a successful construction of a sensor stored, step by step. *)
Lemma sensor_setup_steps (id : pyval) (data : dict) (pl : bool) (s : Sensor.Sensor) :
  sensor_setup id data pl = Ok s ->
  Sensor.data s = data
  /\ dict_item data "Lat" = Ok (Sensor.lat s)
  /\ dict_item data "Lon" = Ok (Sensor.lon s)
  /\ dict_item data "ParentID" = Ok (Sensor.parent s)
  /\ dict_item data "Label" = Ok (Sensor.name s)
  /\ dict_item data "DEVICE_LOCATIONTYPE" = Ok (Sensor.location_type s)
  /\ (if pl
      then rbind (Sensor.get_location reverse_geocode (Sensor.lat s) (Sensor.lon s))
             (fun l => Ok (Some l))
      else Ok None) = Ok (Sensor.location s)
  /\ dict_item data "PM2_5Value" = Ok (Sensor.current_pm2_5 s)
  /\ rcatch (rbind (dict_item data "temp_f") (fun v =>
             rbind (py_float v) (fun f =>
             rbind (celsius (PyFloat f)) (fun c => Ok (PyFloat f, c)))))
       Sensor.type_or_value (Ok (PyNone, PyNone))
     = Ok (Sensor.current_temp_f s, Sensor.current_temp_c s)
  /\ rcatch (rbind (dict_item data "humidity") (fun v =>
             rbind (py_int v) (fun z =>
             rbind (int_true_div z 100) (fun h => Ok (PyFloat h)))))
       Sensor.type_or_value (Ok PyNone)
     = Ok (Sensor.current_humidity s)
  /\ rcatch (dict_item data "pressure") Sensor.type_or_value (Ok PyNone)
     = Ok (Sensor.current_pressure s)
  /\ (exists stats : pyval,
        dict_item data "Stats" = Ok stats
        /\ (if py_bool stats
            then rbind (Sensor.read_statistics data) (fun b => Ok (Some b))
            else Ok None) = Ok (Sensor.statistics s))
  /\ rbind (dict_item data "LastSeen") Date.utcfromtimestamp = Ok (Sensor.last_seen s)
  /\ dict_item data "Type" = Ok (Sensor.model s)
  /\ (exists v, dict_item data "Hidden" = Ok v
                /\ Sensor.hidden s = negb (py_eq_str v "false"))
  /\ (exists v, dict_item data "Flag" = Ok v /\ Sensor.flagged s = py_eq_int v 1)
  /\ (exists v, dict_item data "A_H" = Ok v /\ Sensor.downgraded s = py_eq_int v 1)
  /\ rbind (dict_item data "AGE") py_int = Ok (Sensor.age s).
Proof.
  intros H. unfold Sensor.setup in H. cbv zeta in H. invert_steps H.
  injection H as <-. cbn.
  repeat match goal with
         | |- _ /\ _ => split
         | |- exists _, _ /\ _ => eexists; split; [reflexivity|]
         end;
    try eassumption; try reflexivity;
    match goal with |- (if ?b then _ else _) = _ => destruct b; reflexivity end.
Qed.

Lemma caught_item_mem (A : Type) (d : dict) (k : string) (body : pyval -> result A)
  (handler : result A) (a : A) :
  rcatch (rbind (dict_item d k) body) Sensor.type_or_value handler = Ok a ->
  dict_mem d k = true.
Proof.
  unfold dict_item, dict_mem. destruct (dict_lookup d k); [reflexivity|].
  cbn. discriminate.
Qed.

(** A sensor is constructed only from a snapshot that holds every key that
    [setup] reads by subscript: where the channel reads a missing key as
    [None], the sensor raises [KeyError], also for the keys read inside a
    [try] block, whose handlers catch other errors. *)
Theorem sensor_setup_needs_every_key (id : pyval) (data : dict) (pl : bool)
  (s : Sensor.Sensor) :
  sensor_setup id data pl = Ok s ->
  Forall (fun k => dict_mem data k = true) Sensor.required_keys.
Proof.
  intros H. apply sensor_setup_steps in H.
  destruct H as (_ & H1 & H2 & H3 & H4 & H5 & _ & H6 & H7 & H8 & H9 & (st & H10 & _)
                 & H11 & H12 & (h & H13 & _) & (fl & H14 & _) & (ah & H15 & _) & H16).
  unfold Sensor.required_keys.
  repeat constructor;
    try (eapply dict_item_mem; eassumption);
    try (eapply caught_item_mem; eassumption).
  - eapply (caught_item_mem _ data "pressure" (fun v => Ok v)).
    destruct (dict_item data "pressure"); exact H9.
  - destruct (dict_item data "LastSeen") as [v|] eqn:E; [|discriminate H11].
    eapply dict_item_mem; exact E.
  - destruct (dict_item data "AGE") as [v|] eqn:E; [|discriminate H16].
    eapply dict_item_mem; exact E.
Qed.

Lemma read_statistics_ok (data : dict) (b : Sensor.Statistics) :
  Sensor.read_statistics data = Ok b ->
  exists st : dict,
    json_loads (dict_get data "Stats") = Ok (PyDict st)
    /\ Sensor.pm2_5stats b = PyDict st
    /\ (forall k attr, In (k, attr) Sensor.averages -> dict_lookup st k = Some (attr b))
    /\ Sensor.last2_modified b = dict_get st "timeSinceModified"
    /\ (Sensor.last_modified_stats b = PyNone
        \/ exists d : datetime,
             millis_to_datetime (dict_get st "lastModified") = Ok (PyDatetime d)
             /\ Sensor.last_modified_stats b = PyDatetime d).
Proof.
  unfold Sensor.read_statistics. intros H. invert_steps H. injection H as <-.
  cbn [Sensor.pm2_5stats Sensor.last2_modified Sensor.last_modified_stats].
  match goal with
  | E : rbind (dict_item data "Stats") _ = Ok ?p |- _ => rename E into Hp; rename p into pm
  end.
  destruct (dict_item data "Stats") as [raw|] eqn:Eraw; [|discriminate Hp].
  cbn [rbind] in Hp. apply dict_item_mem in Eraw. destruct Eraw as [_ Eraw].
  rewrite Eraw.
  match goal with
  | E : py_subscript pm "v1" = Ok _ |- _ =>
      destruct (py_subscript_ok _ _ _ E) as (st & -> & _)
  end.
  exists st. split; [exact Hp|]. split; [reflexivity|].
  split; [|split].
  - intros k attr Hin. simpl in Hin.
    repeat (destruct Hin as [[= <- <-] | Hin];
            [ cbn;
              match goal with
              | E : py_subscript (PyDict st) ?key = Ok ?x |- dict_lookup st ?key = Some ?x =>
                  destruct (py_subscript_ok _ _ _ E) as (st' & [= <-] & E'); exact E'
              end |]).
    destruct Hin.
  - match goal with
    | E : rcatch (py_subscript (PyDict st) "timeSinceModified") _ _ = Ok _ |- _ =>
        rename E into Hl2
    end.
    cbn [py_subscript] in Hl2. unfold dict_item, dict_get in *.
    destruct (dict_lookup st "timeSinceModified"); cbn in Hl2; congruence.
  - match goal with
    | E : rcatch (rbind (py_subscript (PyDict st) "lastModified") _) _ _ = Ok _ |- _ =>
        rename E into Hlm
    end.
    cbn [py_subscript] in Hlm. unfold dict_item, dict_get in *.
    destruct (dict_lookup st "lastModified") as [lm|]; cbn [rbind rcatch] in Hlm.
    + destruct (millis_to_datetime lm) as [t|e] eqn:Et; cbn [rcatch] in Hlm.
      * injection Hlm as <-. right.
        unfold millis_to_datetime in Et. invert_steps Et. injection Et as <-.
        eexists. split; reflexivity.
      * destruct (Sensor.type_or_value e || is_KeyError e); [|discriminate Hlm].
        injection Hlm as <-. left. reflexivity.
    + cbn in Hlm. injection Hlm as <-. left. reflexivity.
Qed.

(** The statistics block is all or nothing.  For a falsy raw [Stats] (an
    empty text, [None], zero) no attribute of the block is set.  For a
    truthy one the construction succeeds only if it parses to an object
    that holds the six averages, which are then stored as they are; the
    time since the last change is [None] when its key is missing, and the
    time of the last change is [None] or a time. *)
Theorem sensor_statistics_all_or_nothing (id : pyval) (data : dict) (pl : bool)
  (s : Sensor.Sensor) :
  sensor_setup id data pl = Ok s ->
  match Sensor.statistics s with
  | None => py_bool (dict_get data "Stats") = false
  | Some b =>
      py_bool (dict_get data "Stats") = true
      /\ exists st : dict,
           json_loads (dict_get data "Stats") = Ok (PyDict st)
           /\ Sensor.pm2_5stats b = PyDict st
           /\ (forall k attr, In (k, attr) Sensor.averages ->
                              dict_lookup st k = Some (attr b))
           /\ Sensor.last2_modified b = dict_get st "timeSinceModified"
           /\ (Sensor.last_modified_stats b = PyNone
               \/ exists d : datetime,
                    millis_to_datetime (dict_get st "lastModified") = Ok (PyDatetime d)
                    /\ Sensor.last_modified_stats b = PyDatetime d)
  end.
Proof.
  intros H. apply sensor_setup_steps in H.
  destruct H as (_ & _ & _ & _ & _ & _ & _ & _ & _ & _ & _ & (stats & Hs & Hb) & _).
  apply dict_item_mem in Hs. destruct Hs as [_ <-].
  destruct (py_bool (dict_get data "Stats")).
  - destruct (Sensor.read_statistics data) as [b|] eqn:Eb; [|discriminate Hb].
    injection Hb as <-. split; [reflexivity|].
    apply read_statistics_ok. exact Eb.
  - injection Hb as <-. reflexivity.
Qed.

(** On a constructed sensor [is_useful] always answers: it reads the two
    modification attributes only after the test of the raw [Stats], which
    is false exactly when they were not set.  The answer is true exactly
    when the sensor is neither hidden, flagged nor downgraded, has a
    temperature, a humidity and a pressure, and has a statistics block
    whose two modification attributes are not [None]. *)
Theorem sensor_is_useful_answers (id : pyval) (data : dict) (pl : bool)
  (s : Sensor.Sensor) :
  sensor_setup id data pl = Ok s ->
  exists b : bool,
    Sensor.is_useful s = Ok b
    /\ (b = true <->
        Sensor.hidden s = false /\ Sensor.flagged s = false
        /\ Sensor.downgraded s = false
        /\ Sensor.current_temp_f s <> PyNone
        /\ Sensor.current_humidity s <> PyNone
        /\ Sensor.current_pressure s <> PyNone
        /\ exists block : Sensor.Statistics,
             Sensor.statistics s = Some block
             /\ Sensor.last_modified_stats block <> PyNone
             /\ Sensor.last2_modified block <> PyNone).
Proof.
  intros H. apply sensor_setup_steps in H.
  destruct H as (Hd & _ & _ & _ & _ & _ & _ & _ & _ & _ & _ & (stats & Hs & Hb) & _).
  unfold Sensor.is_useful, Sensor.getattr. rewrite Hd, Hs. cbn [rbind].
  assert (Hnone : forall v, is_none v = false <-> v <> PyNone).
  { intros v. destruct v; simpl; split; congruence. }
  destruct (Sensor.hidden s);
    [exists false; split; [reflexivity|]; split; [discriminate|intros (E & _); discriminate E]|].
  destruct (Sensor.flagged s);
    [exists false; split; [reflexivity|]; split;
     [discriminate|intros (_ & E & _); discriminate E]|].
  destruct (Sensor.downgraded s);
    [exists false; split; [reflexivity|]; split;
     [discriminate|intros (_ & _ & E & _); discriminate E]|].
  destruct (is_none (Sensor.current_temp_f s)) eqn:E1;
    [exists false; split; [reflexivity|]; split;
     [discriminate|intros (_ & _ & _ & E & _); apply Hnone in E; congruence]|].
  destruct (is_none (Sensor.current_humidity s)) eqn:E2;
    [exists false; split; [reflexivity|]; split;
     [discriminate|intros (_ & _ & _ & _ & E & _); apply Hnone in E; congruence]|].
  destruct (is_none (Sensor.current_pressure s)) eqn:E3;
    [exists false; split; [reflexivity|]; split;
     [discriminate|intros (_ & _ & _ & _ & _ & E & _); apply Hnone in E; congruence]|].
  apply Hnone in E1, E2, E3.
  destruct (py_bool stats); cbn [negb].
  - destruct (Sensor.read_statistics data) as [blk|]; [|discriminate Hb].
    injection Hb as <-. cbn [rbind].
    destruct (is_none (Sensor.last_modified_stats blk)) eqn:E4;
      [exists false; split; [reflexivity|]; split;
       [discriminate
       |intros (_ & _ & _ & _ & _ & _ & b' & [= <-] & E & _); apply Hnone in E; congruence]|].
    destruct (is_none (Sensor.last2_modified blk)) eqn:E5;
      [exists false; split; [reflexivity|]; split;
       [discriminate
       |intros (_ & _ & _ & _ & _ & _ & b' & [= <-] & _ & E); apply Hnone in E; congruence]|].
    apply Hnone in E4, E5.
    exists true. split; [reflexivity|]. split; [|reflexivity].
    intros _. repeat split; try assumption. exists blk. auto.
  - injection Hb as <-.
    exists false. split; [reflexivity|]. split; [discriminate|].
    intros (_ & _ & _ & _ & _ & _ & b' & E & _). discriminate E.
Qed.

(** The location is parsed on request only: a constructed sensor has a
    location exactly when [parse_location] was set, and it is the answer
    of the geocoder for the raw coordinates. *)
Theorem sensor_location_on_request (id : pyval) (data : dict) (pl : bool)
  (s : Sensor.Sensor) :
  sensor_setup id data pl = Ok s ->
  match Sensor.location s with
  | Some l =>
      pl = true
      /\ reverse_geocode (dict_get data "Lat") (dict_get data "Lon") = Ok l
  | None => pl = false
  end.
Proof.
  intros H. apply sensor_setup_steps in H.
  destruct H as (_ & Hlat & Hlon & _ & _ & _ & Hloc & _).
  apply dict_item_mem in Hlat, Hlon.
  destruct Hlat as [_ ->], Hlon as [_ ->].
  unfold Sensor.get_location in Hloc.
  destruct pl.
  - destruct (reverse_geocode _ _) as [l|]; [|discriminate Hloc].
    injection Hloc as <-. split; reflexivity.
  - injection Hloc as <-. reflexivity.
Qed.

(** When the location is to be parsed and the geocoder fails, the sensor
    is not constructed: the error of the geocoder is the result, whatever
    the rest of the snapshot holds. *)
Theorem sensor_geocoder_failure (id : pyval) (data : dict) (e : exn) :
  Forall (fun k => dict_mem data k = true)
    [ "Lat"; "Lon"; "ParentID"; "Label"; "DEVICE_LOCATIONTYPE" ] ->
  reverse_geocode (dict_get data "Lat") (dict_get data "Lon") = Raise e ->
  sensor_setup id data true = Raise e.
Proof.
  intros Hkeys Hg.
  repeat match goal with
         | H : Forall _ (_ :: _) |- _ =>
             apply Forall_cons_iff in H; destruct H as [?Hk H]
         end.
  unfold Sensor.setup, Sensor.get_location.
  rewrite !dict_item_get by assumption. cbn [rbind].
  rewrite Hg. reflexivity.
Qed.

(** The two classes on one snapshot.  The copied fields agree; the
    channel holds the float of the coordinates, of the PM2.5 value and of
    the pressure that the sensor keeps raw; both derive the same
    temperatures; [hidden] and [flagged] agree; and [downgraded] is never
    true in both, since the channel compares the raw [A_H] with the text
    [true] and the sensor with the number 1. *)
Theorem sensor_and_channel_on_one_snapshot (id : pyval) (data : dict) (pl : bool)
  (s : Sensor.Sensor) (c : Channel) :
  sensor_setup id data pl = Ok s ->
  setup data = Ok c ->
  (parent c = Sensor.parent s /\ name c = Sensor.name s
   /\ location_type c = Sensor.location_type s /\ model c = Sensor.model s)
  /\ (lat c = float_field_value (Sensor.lat s)
      /\ lon c = float_field_value (Sensor.lon s)
      /\ current_pm2_5 c = float_field_value (Sensor.current_pm2_5 s)
      /\ current_pressure c = float_field_value (Sensor.current_pressure s))
  /\ (current_temp_f c = Sensor.current_temp_f s
      /\ current_temp_c c = Sensor.current_temp_c s)
  /\ (hidden c = Sensor.hidden s /\ flagged c = Sensor.flagged s)
  /\ (downgraded c = true -> Sensor.downgraded s = false).
Proof.
  intros Hs Hc. apply sensor_setup_steps in Hs.
  destruct Hs as (_ & Hlat & Hlon & Hpar & Hname & Hlt & _ & Hpm & Htemp & _ & Hpr
                  & _ & _ & Hmodel & (h & Hh & Hhid) & (fl & Hfl & Hflag)
                  & (ah & Hah & Hdown) & _).
  pose proof (setup_fields data c Hc) as (Hff & Hpf & Htc & _).
  pose proof (setup_flags data c Hc) as (_ & _ & Hch & Hcf & Hcd).
  assert (Hfv : forall k proj, In (k, proj) float_fields ->
                               proj c = float_field_value (dict_get data k)).
  { intros k proj Hin. apply safe_float_ok. apply Hff. exact Hin. }
  apply dict_item_mem in Hlat, Hlon, Hpar, Hname, Hlt, Hpm, Hmodel, Hh, Hfl, Hah.
  destruct Hlat as [_ <-], Hlon as [_ <-], Hpar as [_ <-], Hname as [_ <-],
    Hlt as [_ <-], Hpm as [_ <-], Hmodel as [_ <-], Hh as [_ <-], Hfl as [_ <-],
    Hah as [_ <-].
  split; [|split; [|split; [|split]]].
  - repeat split; apply Hpf; simpl; auto 10.
  - assert (Hp : Sensor.current_pressure s = dict_get data "pressure").
    { unfold dict_item, dict_get in *.
      destruct (dict_lookup data "pressure"); cbn in Hpr; congruence. }
    rewrite Hp. repeat split; apply Hfv; simpl; auto 10.
  - assert (Htf : current_temp_f c = float_field_value (dict_get data "temp_f"))
      by (apply Hfv; simpl; auto 10).
    rewrite Htf in Htc. rewrite Htf.
    unfold float_field_value in *. unfold dict_item, dict_get in *.
    destruct (dict_lookup data "temp_f") as [v|]; [|discriminate Htemp].
    cbn [rbind] in Htemp.
    destruct (py_float v) as [f|e] eqn:Ef; cbn [rbind celsius rcatch] in Htemp.
    + injection Htemp as <- <-.
      assert (En : is_none v = false) by (destruct v; try reflexivity; discriminate Ef).
      rewrite En in *. cbn in Htc. injection Htc as <-. split; reflexivity.
    + destruct (Sensor.type_or_value e); [|discriminate Htemp].
      injection Htemp as <- <-.
      destruct (is_none v); cbn in Htc; injection Htc as <-; split; reflexivity.
  - rewrite Hch, Hcf, Hhid, Hflag. split; reflexivity.
  - rewrite Hcd, Hdown. intros E. apply py_eq_str_true in E. rewrite E. reflexivity.
Qed.

End SensorProperties.

(** ** The URL builder *)

Section Retrieval.

Variable urlencode : dict -> string.
Variable THINGSPEAK_API_URL : pyval -> string -> string.
Variable PARENT_PRIMARY_COLS : list (string * string).
Variable PARENT_SECONDARY_COLS : list (string * string).
Variable CHILD_PRIMARY_COLS : list (string * string).
Variable CHILD_SECONDARY_COLS : list (string * string).
Variable read_csv : string -> result DataFrame.
Variable to_datetime : cell -> result (option Z).

Local Abbreviation get_thingspeak_url := (get_thingspeak_url urlencode THINGSPEAK_API_URL).
Local Abbreviation query_url := (query_url urlencode THINGSPEAK_API_URL).
Local Abbreviation clean_data :=
  (clean_data PARENT_PRIMARY_COLS PARENT_SECONDARY_COLS CHILD_PRIMARY_COLS
     CHILD_SECONDARY_COLS to_datetime).
Local Abbreviation remap_table :=
  (remap_table PARENT_PRIMARY_COLS PARENT_SECONDARY_COLS CHILD_PRIMARY_COLS
     CHILD_SECONDARY_COLS).
Local Abbreviation fetch := (fetch read_csv).
Local Abbreviation get_historical_between :=
  (get_historical_between urlencode THINGSPEAK_API_URL PARENT_PRIMARY_COLS
     PARENT_SECONDARY_COLS CHILD_PRIMARY_COLS CHILD_SECONDARY_COLS read_csv to_datetime).
Local Abbreviation get_historical :=
  (get_historical urlencode THINGSPEAK_API_URL PARENT_PRIMARY_COLS
     PARENT_SECONDARY_COLS CHILD_PRIMARY_COLS CHILD_SECONDARY_COLS read_csv to_datetime).
Local Abbreviation get_all_historical :=
  (get_all_historical urlencode THINGSPEAK_API_URL PARENT_PRIMARY_COLS
     PARENT_SECONDARY_COLS CHILD_PRIMARY_COLS CHILD_SECONDARY_COLS read_csv to_datetime).
Local Abbreviation get_all_historical_between :=
  (get_all_historical_between urlencode THINGSPEAK_API_URL PARENT_PRIMARY_COLS
     PARENT_SECONDARY_COLS CHILD_PRIMARY_COLS CHILD_SECONDARY_COLS read_csv to_datetime).
Local Abbreviation fetch_week := (fetch_week urlencode THINGSPEAK_API_URL read_csv).
Local Abbreviation window_url := (window_url urlencode THINGSPEAK_API_URL).

Lemma valid_feed_test (f : string) :
  valid_feed f -> String.eqb f "primary" || String.eqb f "secondary" = true.
Proof. intros [-> | ->]; reflexivity. Qed.

Lemma invalid_feed_test (f : string) :
  f <> "primary" -> f <> "secondary" ->
  String.eqb f "primary" || String.eqb f "secondary" = false.
Proof.
  intros H1 H2.
  destruct (String.eqb f "primary") eqn:E1; [apply String.eqb_eq in E1; contradiction|].
  destruct (String.eqb f "secondary") eqn:E2; [apply String.eqb_eq in E2; contradiction|].
  reflexivity.
Qed.

(** A run of the builder on a valid feed: it allocates one new dictionary,
    fills it as [query_args] says, and returns [query_url]; nothing else
    in the world changes. *)
Lemma get_thingspeak_url_run (self : Channel) (f : string) (start : datetime)
  (end_ : option datetime) (args : option loc) (fmt : string) (w : world)
  (given : dict) :
  valid_feed f ->
  given_args w args = Some given ->
  get_thingspeak_url self f start end_ args fmt w
  = (Ok (query_url self f start end_ given fmt),
     World (<[fresh (dom (objects w)) :=
               query_args (snd (feed_ids self f)) start end_ given]> (objects w))
       (requests w)).
Proof.
  intros Hf Hg. unfold get_thingspeak_url, query_url, feed_ids.
  rewrite (valid_feed_test f Hf). cbn [negb].
  destruct (if String.eqb f "primary" then _ else _) as [channel key].
  simpl fst. simpl snd.
  destruct w as [m rq]. cbn [objects requests].
  erewrite bind_ok; cycle 1.
  { destruct args as [l|]; simpl in Hg.
    - erewrite bind_ok; [|unfold deref; simpl; rewrite Hg; reflexivity].
      instantiate (1 := World (<[fresh (dom m) := given]> m) rq).
      instantiate (1 := fresh (dom m)).
      destruct given; reflexivity.
    - injection Hg as <-. reflexivity. }
  erewrite bind_ok by apply fill_defaults_run.
  erewrite bind_ok by apply setitem_insert.
  unfold query_args.
  destruct end_ as [e|].
  - erewrite bind_ok by apply setitem_insert.
    erewrite bind_ok by apply deref_insert. reflexivity.
  - erewrite bind_ok by reflexivity.
    erewrite bind_ok by apply deref_insert. reflexivity.
Qed.
(** C5: a feed selector outside primary/secondary makes get_thingspeak_url
    raise a ValueError whose message quotes the selector.  The world is
    left as it was: no identifier was read into a dictionary, no URL was
    built and no request was logged; the single-range fetch, which starts
    with the builder, fails the same way before it reaches the transport.
    The error is not a transport error and not a KeyError. *)
Theorem invalid_feed_rejected (self : Channel) (f : string) (start : datetime)
  (end_ : option datetime) (args : option loc) (fmt : string) (w : world) :
  f <> "primary" -> f <> "secondary" ->
  get_thingspeak_url self f start end_ args fmt w
  = (Raise (ValueError (invalid_feed_message f)), w)
  /\ (forall first last : datetime,
        get_historical_between self f first last args w
        = (Raise (ValueError (invalid_feed_message f)), w))
  /\ is_TransportError (ValueError (invalid_feed_message f)) = false
  /\ is_KeyError (ValueError (invalid_feed_message f)) = false.
Proof.
  intros H1 H2.
  assert (Hurl : forall s e fm,
             get_thingspeak_url self f s e args fm w
             = (Raise (ValueError (invalid_feed_message f)), w)).
  { intros s e fm. unfold get_thingspeak_url.
    rewrite (invalid_feed_test f H1 H2). reflexivity. }
  split; [apply Hurl|]. split; [|split; reflexivity].
  intros first last. unfold get_historical_between.
  apply bind_raise. apply Hurl.
Qed.

(** C10: the dictionary that the caller passes to get_thingspeak_url is
    the same after the call, as is every other object of the store: the
    builder works on a copy.  A second call with the same dictionary
    therefore returns the same result as the first. *)
Theorem caller_options_unchanged (self : Channel) (f : string) (start : datetime)
  (end_ : option datetime) (l : loc) (d : dict) (fmt : string) (w w' : world)
  (r : result string) :
  objects w !! l = Some d ->
  get_thingspeak_url self f start end_ (Some l) fmt w = (r, w') ->
  objects w' !! l = Some d
  /\ (forall l' d', objects w !! l' = Some d' -> objects w' !! l' = Some d')
  /\ exists w'', get_thingspeak_url self f start end_ (Some l) fmt w' = (r, w'')
                 /\ objects w'' !! l = Some d.
Proof.
  intros Hl Hrun.
  destruct (String.eqb f "primary" || String.eqb f "secondary") eqn:Hf.
  - assert (Hv : valid_feed f).
    { apply orb_true_iff in Hf. destruct Hf as [E | E];
        apply String.eqb_eq in E; [left | right]; exact E. }
    rewrite (get_thingspeak_url_run self f start end_ (Some l) fmt w d Hv Hl) in Hrun.
    injection Hrun as <- <-. cbn [objects].
    assert (Hframe : forall l' d', objects w !! l' = Some d' ->
              <[fresh (dom (objects w)) :=
                  query_args (snd (feed_ids self f)) start end_ d]> (objects w) !! l'
              = Some d').
    { intros l' d' Hl'. rewrite lookup_insert_ne; [exact Hl'|].
      intros <-. rewrite fresh_not_allocated in Hl'. discriminate. }
    split; [apply Hframe; exact Hl|]. split; [exact Hframe|].
    eexists. split.
    + apply get_thingspeak_url_run; [exact Hv|]. simpl. apply Hframe. exact Hl.
    + cbn [objects]. rewrite lookup_insert_ne.
      * apply Hframe. exact Hl.
      * intros E. pose proof (fresh_not_allocated
          (<[fresh (dom (objects w)) :=
               query_args (snd (feed_ids self f)) start end_ d]> (objects w))) as Hn.
        rewrite E in Hn. rewrite (Hframe l d Hl) in Hn. discriminate.
  - unfold get_thingspeak_url in *. rewrite Hf in *. simpl in Hrun.
    unfold raise in Hrun. injection Hrun as <- <-.
    split; [exact Hl|]. split; [auto|].
    exists w. split; [reflexivity | exact Hl].
Qed.

(** C6 (amended): on a valid feed the builder returns the base URL followed
    by the encoding of a dictionary [q] in which [api_key], [offset],
    [average] and [round] hold the caller's value when the caller supplied
    the key and otherwise the defaults (the feed's key, 0, the empty string,
    2); [start] is always the start date at midnight; [end] is the end date
    at midnight when an end date is given and the caller's [end] entry (if
    any) when none is given; every other key is the caller's. *)
Theorem query_defaults_and_dates (self : Channel) (f : string) (start : datetime)
  (end_ : option datetime) (args : option loc) (fmt : string) (w : world)
  (given : dict) :
  valid_feed f ->
  given_args w args = Some given ->
  exists (q : dict) (w' : world),
    get_thingspeak_url self f start end_ args fmt w
    = (Ok (THINGSPEAK_API_URL (fst (feed_ids self f)) fmt +:+ urlencode q), w')
    /\ dict_lookup q "api_key"
       = Some (supplied_or given "api_key" (snd (feed_ids self f)))
    /\ dict_lookup q "offset" = Some (supplied_or given "offset" (PyInt 0))
    /\ dict_lookup q "average" = Some (supplied_or given "average" (PyStr ""))
    /\ dict_lookup q "round" = Some (supplied_or given "round" (PyInt 2))
    /\ dict_lookup q "start" = Some (PyStr (Date.strftime start "%Y-%m-%d 00:00:00"))
    /\ dict_lookup q "end"
       = match end_ with
         | Some e => Some (PyStr (Date.strftime e "%Y-%m-%d 00:00:00"))
         | None => dict_lookup given "end"
         end
    /\ forall k : string,
         ~ In k ["api_key"; "offset"; "average"; "round"; "start"; "end"] ->
         dict_lookup q k = dict_lookup given k.
Proof using urlencode THINGSPEAK_API_URL.
  intros Hf Hg.
  exists (query_args (snd (feed_ids self f)) start end_ given). eexists.
  split; [apply (get_thingspeak_url_run self f start end_ args fmt w given Hf Hg)|].
  unfold supplied_or.
  repeat split.
  1-4: rewrite query_args_lookup; simpl; destruct (dict_lookup given _); reflexivity.
  - rewrite query_args_lookup. reflexivity.
  - rewrite query_args_lookup. destruct end_ as [e|]; simpl; [reflexivity|].
    destruct (dict_lookup given "end"); reflexivity.
  - intros k Hk. rewrite query_args_lookup.
    assert (Hne : forall s, In s ["api_key"; "offset"; "average"; "round"; "start"; "end"]
                            -> String.eqb k s = false).
    { intros s Hs. destruct (String.eqb k s) eqn:E; [|reflexivity].
      apply String.eqb_eq in E. subst s. contradiction. }
    rewrite (Hne "end"), (Hne "start") by (simpl; auto 10). cbn [andb].
    destruct (dict_lookup given k); [reflexivity|].
    unfold default_args. cbn [dict_lookup].
    rewrite !(String.eqb_sym _ k).
    rewrite (Hne "api_key"), (Hne "offset"), (Hne "average"), (Hne "round")
      by (simpl; auto 10).
    reflexivity.
Qed.

(** C3 (amended): when the raw snapshot lacked one of the four ThingSpeak
    keys, get_thingspeak_url on a valid feed raises nothing: it returns the
    URL built from the absent identifier, with [None] as the channel and as
    the default [api_key], and logs no request. *)
Theorem unresolved_feed_builds_url (data : dict) (self : Channel) (k f : string)
  (start : datetime) (end_ : option datetime) (args : option loc) (fmt : string)
  (w : world) (given : dict) :
  setup data = Ok self ->
  In k thingspeak_keys -> dict_mem data k = false ->
  valid_feed f ->
  given_args w args = Some given ->
  exists w' : world,
    get_thingspeak_url self f start end_ args fmt w
    = (Ok (THINGSPEAK_API_URL PyNone fmt
           +:+ urlencode (query_args PyNone start end_ given)), w')
    /\ requests w' = requests w
    /\ dict_lookup (query_args PyNone start end_ given) "api_key"
       = Some (supplied_or given "api_key" PyNone).
Proof.
  intros Hs Hin Hk Hf Hg.
  pose proof (setup_feed_ids data self Hs) as Hids.
  destruct (thingspeak_ids_missing data k Hin Hk) as [e He].
  rewrite He in Hids. destruct Hids as (Hpc & Hpk & Hsc & Hsk & _).
  eexists. split; [|split].
  - rewrite (get_thingspeak_url_run self f start end_ args fmt w given Hf Hg).
    unfold query_url, feed_ids.
    destruct (String.eqb f "primary"); cbn [fst snd];
      rewrite ?Hpc, ?Hpk, ?Hsc, ?Hsk; reflexivity.
  - reflexivity.
  - rewrite query_args_lookup. unfold supplied_or. cbn.
    destruct (dict_lookup given "api_key"); reflexivity.
Qed.

Lemma clean_data_columns (self : Channel) (f : string) (df out : DataFrame) :
  clean_data self f df = Ok out ->
  df_columns out
  = without_entry_id (map (Pandas.new_label (remap_table self f)) (df_columns df)).
Proof.
  unfold clean_data, without_entry_id.
  set (tbl := remap_table self f).
  intros H. invert_steps H.
  match goal with
  | E : Pandas.assign _ _ _ = Ok ?d |- _ =>
      unfold Pandas.assign in E;
      destruct (Pandas.col_index _ "created_at"); [|discriminate E];
      injection E as <-
  end.
  unfold Pandas.pop in H. cbn [df_columns Pandas.rename] in H.
  destruct (Pandas.col_index (map (Pandas.new_label tbl) (df_columns df)) "entry_id");
    cbn in H; injection H as <-; reflexivity.
Qed.

(** C8: the record's role is [child] exactly when the raw snapshot holds a
    [ParentID] (a value other than [None]) and [parent] otherwise; for a
    feed, that role alone picks one of the four column tables, and the
    labels of the table that clean_data returns are the labels of the input
    renamed by the table picked (less [entry_id], which becomes the
    index).  So a root and a child rename a raw column by different tables
    and may give it different names. *)
Theorem role_selects_remap_table (data : dict) (self : Channel) :
  setup data = Ok self ->
  (type self = "child" <-> dict_get data "ParentID" <> PyNone)
  /\ (type self = "parent" <-> dict_get data "ParentID" = PyNone)
  /\ (forall f : string,
        remap_table self f
        = match String.eqb f "primary", String.eqb (type self) "parent" with
          | true, true => PARENT_PRIMARY_COLS
          | true, false => CHILD_PRIMARY_COLS
          | false, true => PARENT_SECONDARY_COLS
          | false, false => CHILD_SECONDARY_COLS
          end)
  /\ (forall (other : Channel) (f : string) (df : DataFrame),
        type other = type self -> clean_data other f df = clean_data self f df)
  /\ (forall (f : string) (df out : DataFrame),
        clean_data self f df = Ok out ->
        df_columns out
        = without_entry_id (map (Pandas.new_label (remap_table self f)) (df_columns df))).
Proof.
  intros H. apply setup_flags in H. destruct H as (_ & Ht & _).
  split; [|split; [|split; [|split]]].
  - rewrite Ht. destruct (dict_get data "ParentID"); simpl;
      split; intros E; try discriminate E; try reflexivity; try congruence.
  - rewrite Ht. destruct (dict_get data "ParentID"); simpl;
      split; intros E; try discriminate E; try reflexivity; try congruence.
  - intros f. unfold remap_table.
    destruct (String.eqb f "primary"), (String.eqb (type self) "parent"); reflexivity.
  - intros other f df E. unfold clean_data, remap_table. rewrite E. reflexivity.
  - intros f df out. apply clean_data_columns.
Qed.

Lemma week_windows_shift (d : datetime) (first n : nat) :
  week_windows (weeks_before d 1) first n = week_windows d (S first) n.
Proof.
  unfold week_windows. rewrite <- seq_shift, map_map.
  apply map_ext. intros k. rewrite !weeks_before_add. f_equal; f_equal; lia.
Qed.

Lemma week_windows_S (d : datetime) (first n : nat) :
  week_windows d first (S n)
  = (weeks_before d (Z.of_nat first + 1), weeks_before d (Z.of_nat first))
    :: week_windows d (S first) n.
Proof. reflexivity. Qed.

(** One turn of the loop: the cursor moves one week back and the week
    before the cursor is requested. *)
Lemma fetch_week_run (self : Channel) (f : string) (args : option loc)
  (given : dict) (c : cursor) (w : world) (t : DataFrame) :
  valid_feed f ->
  given_args w args = Some given ->
  Date.in_range (dt_micros (weeks_before (to_week c) 1)) = true ->
  read_csv (window_url self f given (weeks_before (to_week c) 1, to_week c)) = Ok t ->
  exists w' : world,
    fetch_week self f args c w
    = (Ok (Cursor (weeks_to_get c - 1) (to_week c) (weeks_before (to_week c) 1)
             (weekly_data c ++ [t])), w')
    /\ requests w'
       = requests w ++ [window_url self f given (weeks_before (to_week c) 1, to_week c)]
    /\ given_args w' args = Some given.
Proof.
  intros Hf Hg Hr Ht. unfold fetch_week.
  eexists. split; [|split].
  - erewrite bind_ok by (unfold lift; rewrite (sub_weeks_in_range _ _ Hr); reflexivity).
    erewrite bind_ok by (apply get_thingspeak_url_run; eassumption).
    erewrite bind_ok.
    + reflexivity.
    + unfold fetch. cbn [objects requests].
      unfold window_url in Ht. cbn [fst snd] in Ht. rewrite Ht. reflexivity.
  - reflexivity.
  - cbn [objects]. destruct args as [l|]; [|exact Hg].
    simpl in *. rewrite lookup_insert_ne; [exact Hg|].
    intros <-. rewrite fresh_not_allocated in Hg. discriminate.
Qed.

(** [k] turns of the loop from a cursor at [T]: the weeks that end at [T],
    [T - 1w], ... are requested in that order. *)
Lemma for_range_run (self : Channel) (f : string) (args : option loc)
  (given : dict) (k : nat) :
  valid_feed f ->
  (forall url, exists t, read_csv url = Ok t) ->
  forall (c : cursor) (w : world),
    given_args w args = Some given ->
    Date.in_range (dt_micros (to_week c)) = true ->
    Date.in_range (dt_micros (weeks_before (to_week c) (Z.of_nat k))) = true ->
    exists (tables : list DataFrame) (sd : datetime) (w' : world),
      for_range k (fetch_week self f args) c w
      = (Ok (Cursor (weeks_to_get c - Z.of_nat k) sd
               (weeks_before (to_week c) (Z.of_nat k)) (weekly_data c ++ tables)), w')
      /\ Forall2 (fun win t => read_csv (window_url self f given win) = Ok t)
           (week_windows (to_week c) 0 k) tables
      /\ requests w'
         = requests w ++ map (window_url self f given) (week_windows (to_week c) 0 k)
      /\ given_args w' args = Some given.
Proof.
  intros Hf Hread. induction k as [|k IH]; intros c w Hg Hr0 Hr.
  - exists [], (start_date c), w.
    rewrite weeks_before_0, Z.sub_0_r, app_nil_r.
    destruct c; cbn.
    split; [reflexivity|]. split; [constructor|].
    split; [symmetry; apply app_nil_r | exact Hg].
  - assert (Hr1 : Date.in_range (dt_micros (weeks_before (to_week c) 1)) = true).
    { apply (in_range_between (to_week c) (Z.of_nat (S k))); try assumption; lia. }
    destruct (Hread (window_url self f given (weeks_before (to_week c) 1, to_week c)))
      as [t Ht].
    destruct (fetch_week_run self f args given c w t Hf Hg Hr1 Ht)
      as (w1 & Hrun & Hrq & Hg1).
    specialize (IH (Cursor (weeks_to_get c - 1) (to_week c)
                      (weeks_before (to_week c) 1) (weekly_data c ++ [t])) w1 Hg1).
    cbn [to_week weeks_to_get weekly_data] in IH.
    rewrite weeks_before_add in IH.
    replace (1 + Z.of_nat k) with (Z.of_nat (S k)) in IH by lia.
    destruct (IH Hr1 Hr) as (tables & sd & w' & Hloop & Hall & Hrq' & Hg').
    exists (t :: tables), sd, w'.
    split; [|split; [|split]].
    + cbn [for_range]. erewrite bind_ok by exact Hrun.
      rewrite Hloop.
      replace (weeks_to_get c - 1 - Z.of_nat k) with (weeks_to_get c - Z.of_nat (S k))
        by lia.
      rewrite <- app_assoc. reflexivity.
    + rewrite week_windows_S. constructor.
      * simpl. rewrite weeks_before_0. exact Ht.
      * rewrite <- week_windows_shift. exact Hall.
    + rewrite Hrq', Hrq, <- app_assoc. f_equal.
      rewrite week_windows_S. simpl. rewrite weeks_before_0.
      rewrite <- week_windows_shift. reflexivity.
    + exact Hg'.
Qed.

(** C1: for a positive number of weeks [n], get_historical issues exactly
    [n] single-range requests, most recent first, and returns the cleaned
    concatenation of the answers in that order (any fuel from 2 on is
    enough for the loops).  The windows requested are
    [D - 2w, D - 1w], [D - 3w, D - 2w], ..., [D - (n+1)w, D - nw]: the
    cursor is moved back one week before the first request, so the week
    [D - 1w, D] that ends at the start date is never requested. *)
Theorem get_historical_windows (fuel : nat) (self : Channel) (n : Z) (f : string)
  (D : datetime) (args : option loc) (given : dict) (w : world) :
  (2 <= fuel)%nat ->
  0 < n ->
  valid_feed f ->
  given_args w args = Some given ->
  Date.in_range (dt_micros D) = true ->
  Date.in_range (dt_micros (weeks_before D (n + 1))) = true ->
  (forall url, exists t, read_csv url = Ok t) ->
  exists (tables : list DataFrame) (w' : world),
    get_historical fuel self n f D args w
    = (rbind (Pandas.concat tables) (clean_data self f), w')
    /\ Forall2 (fun win t => read_csv (window_url self f given win) = Ok t)
         (week_windows D 1 (Z.to_nat n)) tables
    /\ requests w'
       = requests w ++ map (window_url self f given) (week_windows D 1 (Z.to_nat n))
    /\ length (week_windows D 1 (Z.to_nat n)) = Z.to_nat n
    /\ hd_error (week_windows D 1 (Z.to_nat n))
       = Some (weeks_before D 2, weeks_before D 1)
    /\ ~ In (weeks_before D 1, D) (week_windows D 1 (Z.to_nat n)).
Proof.
  intros Hfuel Hn Hf Hg HD Hlast Hread.
  assert (H1 : Date.in_range (dt_micros (weeks_before D 1)) = true).
  { apply (in_range_between D (n + 1)); try assumption; lia. }
  destruct (for_range_run self f args given (Z.to_nat n) Hf Hread
              (Cursor n D (weeks_before D 1) []) w Hg H1)
    as (tables & sd & w' & Hloop & Hall & Hrq & _).
  { cbn [to_week]. rewrite weeks_before_add, Z2Nat.id by lia.
    replace (1 + n) with (n + 1) by lia. exact Hlast. }
  cbn [to_week weeks_to_get weekly_data] in *.
  rewrite week_windows_shift in Hall, Hrq.
  exists tables, w'. split; [|split; [exact Hall|split; [exact Hrq|split; [|split]]]].
  - unfold get_historical.
    erewrite bind_ok by (unfold lift; rewrite (sub_weeks_in_range _ _ H1); reflexivity).
    destruct fuel as [|[|fuel]]; try lia.
    erewrite bind_ok.
    2:{ cbn [while_weeks weeks_to_get].
        replace (0 <? n) with true by (symmetry; apply Z.ltb_lt; exact Hn).
        erewrite bind_ok by exact Hloop.
        cbn [weeks_to_get]. rewrite Z2Nat.id, Z.sub_diag by lia.
        reflexivity. }
    cbn [weekly_data app]. unfold bind, lift.
    destruct (Pandas.concat tables); reflexivity.
  - unfold week_windows. rewrite length_map, length_seq. reflexivity.
  - destruct (Z.to_nat n) eqn:E; [lia|]. reflexivity.
  - unfold week_windows. intros Hin. apply in_map_iff in Hin.
    destruct Hin as (k & Hk & Hin). apply in_seq in Hin.
    injection Hk as Hk _.
    unfold Date.micros_per_week, Date.micros_per_day, Date.micros_per_second in Hk.
    lia.
Qed.

(** A cleaned table is rectangular if the raw one was, and it has a
    [created_at] column. *)
Lemma clean_data_merge_ready (self : Channel) (f : string) (df out : DataFrame) :
  rectangular df ->
  clean_data self f df = Ok out ->
  rectangular out
  /\ exists i, Pandas.col_index (df_columns out) "created_at" = Some i.
Proof.
  intros Hrect. unfold clean_data.
  set (tbl := remap_table self f).
  intros H. invert_steps H.
  match goal with
  | E : Pandas.assign _ _ ?st = Ok _ |- _ => rename E into Ha; rename st into stamps
  end.
  unfold Pandas.assign, Pandas.pop, Pandas.rename in *.
  cbn [df_columns df_rows df_index] in *.
  set (cols := map (Pandas.new_label tbl) (df_columns df)) in *.
  destruct (Pandas.col_index cols "created_at") as [i|] eqn:Ei; [|discriminate Ha].
  injection Ha as <-. cbn [df_columns df_rows df_index] in H.
  set (rows := map (fun rv : list cell * cell => Pandas.set_nth i rv.2 rv.1)
                 (combine (df_rows df) stamps)) in *.
  assert (Hrect1 : Forall (fun row => length row = length cols) rows).
  { apply Forall_forall. intros row Hin. apply list_elem_of_In in Hin.
    apply in_map_iff in Hin. destruct Hin as ([r v] & <- & Hin).
    apply in_combine_l in Hin. rewrite length_set_nth.
    unfold rectangular in Hrect. rewrite Forall_forall in Hrect.
    unfold cols. rewrite length_map.
    apply Hrect. apply list_elem_of_In. exact Hin. }
  destruct (Pandas.col_index cols "entry_id") as [j|] eqn:Ej;
    cbn in H; injection H as <-.
  - split.
    + unfold rectangular. cbn [df_rows df_columns].
      apply Forall_forall. intros row Hin. apply list_elem_of_In in Hin.
      apply in_map_iff in Hin. destruct Hin as (r & <- & Hin).
      rewrite Forall_forall in Hrect1.
      specialize (Hrect1 r (proj2 (list_elem_of_In _ _) Hin)).
      pose proof (col_index_lt _ _ _ Ej) as Hj.
      rewrite !length_remove_nth by lia. lia.
    + cbn [df_columns].
      apply (col_index_remove_nth _ "created_at" "entry_id" i j); try assumption.
      discriminate.
  - split; [exact Hrect1 | eauto].
Qed.

Lemma merge_ready_merges (p s : DataFrame) :
  rectangular p ->
  (exists i, Pandas.col_index (df_columns p) "created_at" = Some i) ->
  (exists j, Pandas.col_index (df_columns s) "created_at" = Some j) ->
  exists m : DataFrame,
    Pandas.merge p s Pandas.inner "created_at" = Ok m
    /\ forall t : cell, In t (created_at m) <-> In t (created_at p) /\ In t (created_at s).
Proof.
  intros Hrect [i Hi] [j Hj].
  destruct (Pandas.merge p s Pandas.inner "created_at") as [m|e] eqn:Hm.
  - exists m. split; [reflexivity|]. apply merge_inner_created_at; assumption.
  - unfold Pandas.merge in Hm. rewrite Hi, Hj in Hm. discriminate Hm.
Qed.

Lemma get_historical_between_ready (self : Channel) (f : string)
  (first last : datetime) (args : option loc) (w w' : world) (p : DataFrame) :
  (forall url t, read_csv url = Ok t -> rectangular t) ->
  get_historical_between self f first last args w = (Ok p, w') ->
  rectangular p /\ exists i, Pandas.col_index (df_columns p) "created_at" = Some i.
Proof.
  intros Hrect H. unfold get_historical_between in H.
  apply bind_inv in H. destruct H as (url & w1 & _ & H).
  apply bind_inv in H. destruct H as (df & w2 & Hfetch & H).
  unfold lift in H. cbv beta in H. injection H as H _.
  unfold fetch in Hfetch. cbv beta in Hfetch. injection Hfetch as Hfetch _.
  apply (clean_data_merge_ready self f df p); [|exact H].
  apply (Hrect url). exact Hfetch.
Qed.

Lemma get_historical_ready (fuel : nat) (self : Channel) (n : Z) (f : string)
  (D : datetime) (args : option loc) (w w' : world) (p : DataFrame) :
  get_historical fuel self n f D args w = (Ok p, w') ->
  rectangular p /\ exists i, Pandas.col_index (df_columns p) "created_at" = Some i.
Proof.
  intros H. unfold get_historical in H.
  apply bind_inv in H. destruct H as (tw & w1 & _ & H).
  apply bind_inv in H. destruct H as (c & w2 & _ & H).
  apply bind_inv in H. destruct H as (all & w3 & Hcat & H).
  unfold lift in H, Hcat. cbv beta in H, Hcat.
  injection H as H _. injection Hcat as Hcat _.
  apply (clean_data_merge_ready self f all p); [|exact H].
  apply (concat_rectangular _ _ Hcat).
Qed.

(** C7: the merge of the two feeds is an inner join on [created_at].  When
    the primary and then the secondary retrieval succeed, the combined
    retrieval succeeds, and a time stamp occurs in its [created_at] column
    exactly when it occurs in that column of both tables; this holds for
    the weekly retrieval and for the retrieval between two dates (whose
    reader is assumed to return rectangular tables). *)
Theorem dual_feed_merge_is_inner_join :
  (forall url t, read_csv url = Ok t -> rectangular t) ->
  (forall (self : Channel) (first last : datetime) (args : option loc)
          (w w1 w2 : world) (p s : DataFrame),
      get_historical_between self "primary" first last args w = (Ok p, w1) ->
      get_historical_between self "secondary" first last args w1 = (Ok s, w2) ->
      exists m : DataFrame,
        get_all_historical_between self first last args w = (Ok m, w2)
        /\ forall t : cell,
             In t (created_at m) <-> In t (created_at p) /\ In t (created_at s))
  /\ (forall (fuel : nat) (self : Channel) (n : Z) (D : datetime) (args : option loc)
             (w w1 w2 : world) (p s : DataFrame),
        get_historical fuel self n "primary" D args w = (Ok p, w1) ->
        get_historical fuel self n "secondary" D args w1 = (Ok s, w2) ->
        exists m : DataFrame,
          get_all_historical fuel self n D args w = (Ok m, w2)
          /\ forall t : cell,
               In t (created_at m) <-> In t (created_at p) /\ In t (created_at s)).
Proof.
  intros Hrect. split.
  - intros self first last args w w1 w2 p s Hp Hs.
    destruct (get_historical_between_ready _ _ _ _ _ _ _ _ Hrect Hp) as [Hrp Hip].
    destruct (get_historical_between_ready _ _ _ _ _ _ _ _ Hrect Hs) as [_ His].
    destruct (merge_ready_merges p s Hrp Hip His) as (m & Hm & Hiff).
    exists m. split; [|exact Hiff].
    unfold get_all_historical_between.
    erewrite bind_ok by exact Hp. erewrite bind_ok by exact Hs.
    unfold lift. rewrite Hm. reflexivity.
  - intros fuel self n D args w w1 w2 p s Hp Hs.
    destruct (get_historical_ready _ _ _ _ _ _ _ _ _ Hp) as [Hrp Hip].
    destruct (get_historical_ready _ _ _ _ _ _ _ _ _ Hs) as [_ His].
    destruct (merge_ready_merges p s Hrp Hip His) as (m & Hm & Hiff).
    exists m. split; [|exact Hiff].
    unfold get_all_historical.
    erewrite bind_ok by exact Hp. erewrite bind_ok by exact Hs.
    unfold lift. rewrite Hm. reflexivity.
Qed.

(** *** More on the retrievals *)

(** A run of the single-range fetch: the builder's dictionary is
    allocated, the URL of the range is requested once, and the answer is
    cleaned. *)
Lemma get_historical_between_run (self : Channel) (f : string)
  (first last : datetime) (args : option loc) (given : dict) (w : world) :
  valid_feed f ->
  given_args w args = Some given ->
  get_historical_between self f first last args w
  = (rbind (read_csv (window_url self f given (first, last))) (clean_data self f),
     World (<[fresh (dom (objects w)) :=
               query_args (snd (feed_ids self f)) first (Some last) given]> (objects w))
       (requests w ++ [window_url self f given (first, last)])).
Proof.
  intros Hf Hg. unfold get_historical_between.
  erewrite bind_ok by (apply get_thingspeak_url_run; eassumption).
  unfold bind, fetch, lift, window_url. cbn [objects requests fst snd].
  destruct (read_csv _); reflexivity.
Qed.

Lemma given_args_alloc (w : world) (args : option loc) (given d : dict)
  (rq : list string) :
  given_args w args = Some given ->
  given_args (World (<[fresh (dom (objects w)) := d]> (objects w)) rq) args
  = Some given.
Proof.
  intros Hg. destruct args as [l|]; [|exact Hg].
  simpl in *. rewrite lookup_insert_ne; [exact Hg|].
  intros <-. rewrite fresh_not_allocated in Hg. discriminate.
Qed.

(** The retrieval between two dates makes exactly one request, for the
    window from the first to the last date, whatever the reader answers:
    its result is the reader's error, or what [clean_data] makes of the
    table; the objects that the caller holds are left as they were. *)
Theorem get_historical_between_one_request (self : Channel) (f : string)
  (first last : datetime) (args : option loc) (given : dict) (w : world) :
  valid_feed f ->
  given_args w args = Some given ->
  exists w' : world,
    get_historical_between self f first last args w
    = (rbind (read_csv (window_url self f given (first, last))) (clean_data self f), w')
    /\ requests w' = requests w ++ [window_url self f given (first, last)]
    /\ (forall l d, objects w !! l = Some d -> objects w' !! l = Some d).
Proof.
  intros Hf Hg. eexists. split; [|split].
  - apply get_historical_between_run; eassumption.
  - reflexivity.
  - intros l d Hl. cbn [objects]. rewrite lookup_insert_ne; [exact Hl|].
    intros <-. rewrite fresh_not_allocated in Hl. discriminate.
Qed.

(** With no week to fetch the loops are not entered: nothing is requested,
    the feed selector is not looked at, and [pd.concat] refuses the empty
    list. *)
Theorem get_historical_no_weeks (fuel : nat) (self : Channel) (n : Z) (f : string)
  (D : datetime) (args : option loc) (w : world) :
  (1 <= fuel)%nat ->
  n <= 0 ->
  Date.in_range (dt_micros (weeks_before D 1)) = true ->
  get_historical fuel self n f D args w
  = (Raise (ValueError "No objects to concatenate"), w).
Proof.
  intros Hfuel Hn Hr. unfold get_historical.
  erewrite bind_ok by (unfold lift; rewrite (sub_weeks_in_range _ _ Hr); reflexivity).
  destruct fuel as [|fuel]; [lia|].
  cbn [while_weeks weeks_to_get].
  replace (0 <? n) with false by (symmetry; apply Z.ltb_ge; exact Hn).
  reflexivity.
Qed.

(** A turn of the loop whose request fails: the request is logged and the
    reader's error ends the turn. *)
Lemma fetch_week_fails (self : Channel) (f : string) (args : option loc)
  (given : dict) (c : cursor) (w : world) (e : exn) :
  valid_feed f ->
  given_args w args = Some given ->
  Date.in_range (dt_micros (weeks_before (to_week c) 1)) = true ->
  read_csv (window_url self f given (weeks_before (to_week c) 1, to_week c)) = Raise e ->
  exists w' : world,
    fetch_week self f args c w = (Raise e, w')
    /\ requests w'
       = requests w ++ [window_url self f given (weeks_before (to_week c) 1, to_week c)].
Proof.
  intros Hf Hg Hr Ht. unfold fetch_week.
  eexists. split.
  - erewrite bind_ok by (unfold lift; rewrite (sub_weeks_in_range _ _ Hr); reflexivity).
    erewrite bind_ok by (apply get_thingspeak_url_run; eassumption).
    erewrite bind_raise.
    + reflexivity.
    + unfold fetch. cbn [objects requests].
      unfold window_url in Ht. cbn [fst snd] in Ht. rewrite Ht. reflexivity.
  - reflexivity.
Qed.

(** The loop stops at the first request that fails: the windows up to that
    one have been requested, the later ones have not. *)
Lemma for_range_fails (self : Channel) (f : string) (args : option loc)
  (given : dict) (e : exn) :
  valid_feed f ->
  forall (j k : nat) (c : cursor) (w : world),
    (j < k)%nat ->
    given_args w args = Some given ->
    Date.in_range (dt_micros (to_week c)) = true ->
    Date.in_range (dt_micros (weeks_before (to_week c) (Z.of_nat j + 1))) = true ->
    Forall (fun win => exists t, read_csv (window_url self f given win) = Ok t)
      (week_windows (to_week c) 0 j) ->
    read_csv (window_url self f given
                (weeks_before (to_week c) (Z.of_nat j + 1),
                 weeks_before (to_week c) (Z.of_nat j))) = Raise e ->
    exists w' : world,
      for_range k (fetch_week self f args) c w = (Raise e, w')
      /\ requests w'
         = requests w ++ map (window_url self f given) (week_windows (to_week c) 0 (S j)).
Proof.
  intros Hf. induction j as [|j IH]; intros k c w Hjk Hg Hr0 Hr Hok Hbad.
  - destruct k as [|k]; [lia|].
    rewrite weeks_before_0 in Hbad. simpl Z.of_nat in *. simpl Z.add in *.
    destruct (fetch_week_fails self f args given c w e Hf Hg Hr Hbad) as (w' & Hrun & Hrq).
    exists w'. split.
    + cbn [for_range]. erewrite bind_raise by exact Hrun. reflexivity.
    + rewrite Hrq. rewrite week_windows_S. simpl. rewrite weeks_before_0. reflexivity.
  - destruct k as [|k]; [lia|].
    assert (Hr1 : Date.in_range (dt_micros (weeks_before (to_week c) 1)) = true).
    { apply (in_range_between (to_week c) (Z.of_nat (S j) + 1)); try assumption; lia. }
    rewrite week_windows_S in Hok. apply Forall_cons_iff in Hok.
    destruct Hok as [[t Ht] Hok]. simpl Z.of_nat in Ht. simpl Z.add in Ht.
    rewrite weeks_before_0 in Ht.
    destruct (fetch_week_run self f args given c w t Hf Hg Hr1 Ht)
      as (w1 & Hrun & Hrq & Hg1).
    specialize (IH k (Cursor (weeks_to_get c - 1) (to_week c)
                        (weeks_before (to_week c) 1) (weekly_data c ++ [t])) w1).
    cbn [to_week] in IH. rewrite !weeks_before_add in IH.
    replace (1 + (Z.of_nat j + 1)) with (Z.of_nat (S j) + 1) in IH by lia.
    replace (1 + Z.of_nat j) with (Z.of_nat (S j)) in IH by lia.
    rewrite week_windows_shift in IH.
    destruct (IH ltac:(lia) Hg1 Hr1 Hr Hok Hbad) as (w' & Hloop & Hrq').
    exists w'. split.
    + cbn [for_range]. erewrite bind_ok by exact Hrun. exact Hloop.
    + rewrite Hrq', Hrq, <- app_assoc. f_equal.
      rewrite (week_windows_S _ 0 (S j)), week_windows_shift.
      cbn [map app]. change (Z.of_nat 0) with 0. rewrite weeks_before_0. reflexivity.
Qed.

(** A whole retrieval over a transport that answers every request. *)
Lemma get_historical_run (fuel : nat) (self : Channel) (n : Z) (f : string)
  (D : datetime) (args : option loc) (given : dict) (w : world) :
  (2 <= fuel)%nat ->
  0 < n ->
  valid_feed f ->
  given_args w args = Some given ->
  Date.in_range (dt_micros D) = true ->
  Date.in_range (dt_micros (weeks_before D (n + 1))) = true ->
  (forall url, exists t, read_csv url = Ok t) ->
  exists (tables : list DataFrame) (w' : world),
    get_historical fuel self n f D args w
    = (rbind (Pandas.concat tables) (clean_data self f), w')
    /\ Forall2 (fun win t => read_csv (window_url self f given win) = Ok t)
         (week_windows D 1 (Z.to_nat n)) tables
    /\ requests w'
       = requests w ++ map (window_url self f given) (week_windows D 1 (Z.to_nat n))
    /\ given_args w' args = Some given.
Proof.
  intros Hfuel Hn Hf Hg HD Hlast Hread.
  assert (H1 : Date.in_range (dt_micros (weeks_before D 1)) = true).
  { apply (in_range_between D (n + 1)); try assumption; lia. }
  destruct (for_range_run self f args given (Z.to_nat n) Hf Hread
              (Cursor n D (weeks_before D 1) []) w Hg H1)
    as (tables & sd & w' & Hloop & Hall & Hrq & Hg').
  { cbn [to_week]. rewrite weeks_before_add, Z2Nat.id by lia.
    replace (1 + n) with (n + 1) by lia. exact Hlast. }
  cbn [to_week weeks_to_get weekly_data] in *.
  rewrite week_windows_shift in Hall, Hrq.
  exists tables, w'. split; [|split; [exact Hall|split; [exact Hrq|exact Hg']]].
  unfold get_historical.
  erewrite bind_ok by (unfold lift; rewrite (sub_weeks_in_range _ _ H1); reflexivity).
  destruct fuel as [|[|fuel]]; try lia.
  erewrite bind_ok.
  2:{ cbn [while_weeks weeks_to_get].
      replace (0 <? n) with true by (symmetry; apply Z.ltb_lt; exact Hn).
      erewrite bind_ok by exact Hloop.
      cbn [weeks_to_get]. rewrite Z2Nat.id, Z.sub_diag by lia.
      reflexivity. }
  cbn [weekly_data app]. unfold bind, lift.
  destruct (Pandas.concat tables); reflexivity.
Qed.

(** A retrieval whose request number [j] (from 0) is the first to fail. *)
Lemma get_historical_fails (fuel : nat) (self : Channel) (n : Z) (f : string)
  (D : datetime) (args : option loc) (given : dict) (w : world) (j : nat) (e : exn) :
  (1 <= fuel)%nat ->
  (j < Z.to_nat n)%nat ->
  valid_feed f ->
  given_args w args = Some given ->
  Date.in_range (dt_micros D) = true ->
  Date.in_range (dt_micros (weeks_before D (Z.of_nat j + 2))) = true ->
  Forall (fun win => exists t, read_csv (window_url self f given win) = Ok t)
    (week_windows D 1 j) ->
  read_csv (window_url self f given
              (weeks_before D (Z.of_nat j + 2), weeks_before D (Z.of_nat j + 1)))
  = Raise e ->
  exists w' : world,
    get_historical fuel self n f D args w = (Raise e, w')
    /\ requests w'
       = requests w ++ map (window_url self f given) (week_windows D 1 (S j)).
Proof.
  intros Hfuel Hj Hf Hg HD Hlast Hok Hbad.
  assert (H1 : Date.in_range (dt_micros (weeks_before D 1)) = true).
  { apply (in_range_between D (Z.of_nat j + 2)); try assumption; lia. }
  destruct (for_range_fails self f args given e Hf j (Z.to_nat n)
              (Cursor n D (weeks_before D 1) []) w Hj Hg H1)
    as (w' & Hloop & Hrq).
  { cbn [to_week]. rewrite weeks_before_add.
    replace (1 + (Z.of_nat j + 1)) with (Z.of_nat j + 2) by lia. exact Hlast. }
  { cbn [to_week]. rewrite week_windows_shift. exact Hok. }
  { cbn [to_week]. rewrite !weeks_before_add.
    replace (1 + (Z.of_nat j + 1)) with (Z.of_nat j + 2) by lia.
    replace (1 + Z.of_nat j) with (Z.of_nat j + 1) by lia. exact Hbad. }
  cbn [to_week] in Hrq. rewrite week_windows_shift in Hrq.
  exists w'. split; [|exact Hrq].
  unfold get_historical.
  erewrite bind_ok by (unfold lift; rewrite (sub_weeks_in_range _ _ H1); reflexivity).
  destruct fuel as [|fuel]; [lia|].
  erewrite bind_raise; [reflexivity|].
  cbn [while_weeks weeks_to_get].
  replace (0 <? n) with true by (symmetry; apply Z.ltb_lt; lia).
  erewrite bind_raise by exact Hloop. reflexivity.
Qed.

(** A request that fails ends the retrieval with the reader's error: the
    windows up to the failing one have been requested, in order, and none
    after it, so what the earlier requests returned is dropped. *)
Theorem get_historical_stops_at_failure (fuel : nat) (self : Channel) (n : Z)
  (f : string) (D : datetime) (args : option loc) (given : dict) (w : world)
  (j : nat) (e : exn) :
  (1 <= fuel)%nat ->
  (j < Z.to_nat n)%nat ->
  valid_feed f ->
  given_args w args = Some given ->
  Date.in_range (dt_micros D) = true ->
  Date.in_range (dt_micros (weeks_before D (Z.of_nat j + 2))) = true ->
  Forall (fun win => exists t, read_csv (window_url self f given win) = Ok t)
    (week_windows D 1 j) ->
  read_csv (window_url self f given
              (weeks_before D (Z.of_nat j + 2), weeks_before D (Z.of_nat j + 1)))
  = Raise e ->
  exists w' : world,
    get_historical fuel self n f D args w = (Raise e, w')
    /\ requests w'
       = requests w ++ map (window_url self f given) (week_windows D 1 (S j))
    /\ length (requests w') = (length (requests w) + S j)%nat.
Proof.
  intros Hfuel Hj Hf Hg HD Hlast Hok Hbad.
  destruct (get_historical_fails fuel self n f D args given w j e
              Hfuel Hj Hf Hg HD Hlast Hok Hbad) as (w' & Hrun & Hrq).
  exists w'. split; [exact Hrun|]. split; [exact Hrq|].
  rewrite Hrq, length_app, length_map. unfold week_windows.
  rewrite length_map, length_seq. reflexivity.
Qed.

(** The two feeds are retrieved one after the other over the same
    windows and with the same options of the caller: all the requests of
    the primary feed come before those of the secondary feed.  If the
    primary table cannot be built, its error is the result and the
    secondary feed is not requested. *)
Theorem get_all_historical_feed_order (fuel : nat) (self : Channel) (n : Z)
  (D : datetime) (args : option loc) (given : dict) (w : world) :
  (2 <= fuel)%nat ->
  0 < n ->
  given_args w args = Some given ->
  Date.in_range (dt_micros D) = true ->
  Date.in_range (dt_micros (weeks_before D (n + 1))) = true ->
  (forall url, exists t, read_csv url = Ok t) ->
  exists (ptables stables : list DataFrame) (w1 w2 : world),
    Forall2 (fun win t => read_csv (window_url self "primary" given win) = Ok t)
      (week_windows D 1 (Z.to_nat n)) ptables
    /\ Forall2 (fun win t => read_csv (window_url self "secondary" given win) = Ok t)
         (week_windows D 1 (Z.to_nat n)) stables
    /\ requests w1
       = requests w
         ++ map (window_url self "primary" given) (week_windows D 1 (Z.to_nat n))
    /\ requests w2
       = requests w1
         ++ map (window_url self "secondary" given) (week_windows D 1 (Z.to_nat n))
    /\ get_all_historical fuel self n D args w
       = match rbind (Pandas.concat ptables) (clean_data self "primary") with
         | Ok primary =>
             (rbind (rbind (Pandas.concat stables) (clean_data self "secondary"))
                (fun secondary =>
                   Pandas.merge primary secondary Pandas.inner "created_at"),
              w2)
         | Raise e => (Raise e, w1)
         end.
Proof.
  intros Hfuel Hn Hg HD Hlast Hread.
  destruct (get_historical_run fuel self n "primary" D args given w Hfuel Hn
              (or_introl eq_refl) Hg HD Hlast Hread)
    as (ptables & w1 & Hp & Hpall & Hprq & Hg1).
  destruct (get_historical_run fuel self n "secondary" D args given w1 Hfuel Hn
              (or_intror eq_refl) Hg1 HD Hlast Hread)
    as (stables & w2 & Hs & Hsall & Hsrq & _).
  exists ptables, stables, w1, w2.
  split; [exact Hpall|]. split; [exact Hsall|]. split; [exact Hprq|].
  split; [exact Hsrq|].
  unfold get_all_historical, bind. rewrite Hp.
  destruct (rbind (Pandas.concat ptables) (clean_data self "primary")) as [p|e];
    [|reflexivity].
  rewrite Hs. unfold lift.
  destruct (rbind (Pandas.concat stables) (clean_data self "secondary")); reflexivity.
Qed.

(** A request of the primary feed that fails ends the retrieval of both
    feeds: the log holds the primary requests up to the failing one and
    no request of the secondary feed. *)
Theorem get_all_historical_primary_failure (fuel : nat) (self : Channel) (n : Z)
  (D : datetime) (args : option loc) (given : dict) (w : world) (j : nat) (e : exn) :
  (1 <= fuel)%nat ->
  (j < Z.to_nat n)%nat ->
  given_args w args = Some given ->
  Date.in_range (dt_micros D) = true ->
  Date.in_range (dt_micros (weeks_before D (Z.of_nat j + 2))) = true ->
  Forall (fun win => exists t, read_csv (window_url self "primary" given win) = Ok t)
    (week_windows D 1 j) ->
  read_csv (window_url self "primary" given
              (weeks_before D (Z.of_nat j + 2), weeks_before D (Z.of_nat j + 1)))
  = Raise e ->
  exists w' : world,
    get_all_historical fuel self n D args w = (Raise e, w')
    /\ requests w'
       = requests w ++ map (window_url self "primary" given) (week_windows D 1 (S j)).
Proof.
  intros Hfuel Hj Hg HD Hlast Hok Hbad.
  destruct (get_historical_fails fuel self n "primary" D args given w j e
              Hfuel Hj (or_introl eq_refl) Hg HD Hlast Hok Hbad) as (w' & Hrun & Hrq).
  exists w'. split; [|exact Hrq].
  unfold get_all_historical. erewrite bind_raise by exact Hrun. reflexivity.
Qed.

(** The retrieval of both feeds between two dates makes two requests at
    most, the primary feed first, both for the window from the first to
    the last date and with the same options of the caller; if the primary
    table cannot be read or cleaned, its error is the result and the
    secondary feed is not requested. *)
Theorem get_all_historical_between_requests (self : Channel)
  (first last : datetime) (args : option loc) (given : dict) (w : world) :
  given_args w args = Some given ->
  exists w1 w2 : world,
    requests w1 = requests w ++ [window_url self "primary" given (first, last)]
    /\ requests w2 = requests w1 ++ [window_url self "secondary" given (first, last)]
    /\ get_all_historical_between self first last args w
       = match rbind (read_csv (window_url self "primary" given (first, last)))
                 (clean_data self "primary") with
         | Ok primary =>
             (rbind (rbind (read_csv (window_url self "secondary" given (first, last)))
                       (clean_data self "secondary"))
                (fun secondary =>
                   Pandas.merge primary secondary Pandas.inner "created_at"),
              w2)
         | Raise e => (Raise e, w1)
         end.
Proof.
  intros Hg.
  pose proof (get_historical_between_run self "primary" first last args given w
                (or_introl eq_refl) Hg) as Hp.
  match type of Hp with _ = (_, ?x) => set (w1 := x) in * end.
  assert (Hg1 : given_args w1 args = Some given) by (apply given_args_alloc; exact Hg).
  pose proof (get_historical_between_run self "secondary" first last args given w1
                (or_intror eq_refl) Hg1) as Hs.
  match type of Hs with _ = (_, ?x) => set (w2 := x) in * end.
  exists w1, w2. split; [reflexivity|]. split; [reflexivity|].
  unfold get_all_historical_between, bind. rewrite Hp.
  destruct (rbind (read_csv _) (clean_data self "primary")) as [p|e]; [|reflexivity].
  rewrite Hs. unfold lift.
  destruct (rbind (read_csv _) (clean_data self "secondary")); reflexivity.
Qed.

(** *** Cleaning a table *)

Local Abbreviation convert_all := (convert_all to_datetime).

Local Abbreviation converted := (converted to_datetime).

Lemma convert_all_converted (raw stamps : list cell) :
  convert_all raw = Ok stamps -> Forall2 converted raw stamps.
Proof.
  revert stamps. induction raw as [|r raw IH]; intros stamps; simpl.
  - intros [= <-]. constructor.
  - intros H. invert_steps H. injection H as <-.
    constructor; [unfold converted; eauto | apply IH; reflexivity].
Qed.

Lemma convert_all_stops (pre rest : list cell) (bad : cell) (e : exn) :
  Forall (fun r => exists t, to_datetime r = Ok t) pre ->
  to_datetime bad = Raise e ->
  convert_all (pre ++ bad :: rest) = Raise e.
Proof.
  intros Hpre Hbad. induction Hpre as [|r pre [t Ht] _ IH]; simpl.
  - rewrite Hbad. reflexivity.
  - rewrite Ht. cbn [rbind]. rewrite IH. reflexivity.
Qed.

(** The steps of a successful cleaning. *)
Lemma clean_data_steps (self : Channel) (f : string) (df out : DataFrame) :
  clean_data self f df = Ok out ->
  exists (i : nat) (stamps : list cell),
    Pandas.col_index (map (Pandas.new_label (remap_table self f)) (df_columns df))
      "created_at" = Some i
    /\ convert_all (map (fun row => Pandas.cell_at row i) (df_rows df)) = Ok stamps
    /\ length stamps = length (df_rows df)
    /\ out
       = let cols := map (Pandas.new_label (remap_table self f)) (df_columns df) in
         let rows := map (fun rv => Pandas.set_nth i (snd rv) (fst rv))
                       (combine (df_rows df) stamps) in
         match Pandas.col_index cols "entry_id" with
         | Some j =>
             MkFrame (Pandas.remove_nth j cols)
               (map (fun row => Pandas.cell_at row j) rows)
               (map (Pandas.remove_nth j) rows)
         | None => MkFrame cols (df_index df) rows
         end.
Proof.
  unfold clean_data.
  set (tbl := remap_table self f).
  intros H. invert_steps H.
  match goal with
  | E : Pandas.assign _ _ ?st = Ok _ |- _ => rename E into Ha; rename st into stamps
  end.
  match goal with
  | E : Pandas.column _ _ = Ok _ |- _ => rename E into Hc
  end.
  match goal with
  | E : convert_all _ = Ok _ |- _ => rename E into Hs
  end.
  unfold Pandas.assign, Pandas.pop, Pandas.column, Pandas.rename in *.
  cbn [df_columns df_rows df_index] in *.
  set (cols := map (Pandas.new_label tbl) (df_columns df)) in *.
  destruct (Pandas.col_index cols "created_at") as [i|] eqn:Ei; [|discriminate Ha].
  injection Ha as <-. injection Hc as <-.
  exists i, stamps. split; [reflexivity|]. split; [exact Hs|].
  split.
  { apply convert_all_converted in Hs. apply Forall2_length in Hs.
    rewrite length_map in Hs. symmetry. exact Hs. }
  cbn [df_columns df_rows df_index] in H. cbv zeta.
  destruct (Pandas.col_index cols "entry_id") as [j|]; cbn in H;
    injection H as <-; reflexivity.
Qed.

(** Cleaning converts the time stamps in place: on a rectangular table
    whose renamed labels are distinct, the [created_at] column of the
    result holds, row by row, what [to_datetime] made of the raw column,
    a time or a missing value, and no row is added or dropped. *)
Theorem clean_data_converts_stamps (self : Channel) (f : string)
  (df out : DataFrame) :
  rectangular df ->
  NoDup (map (Pandas.new_label (remap_table self f)) (df_columns df)) ->
  clean_data self f df = Ok out ->
  exists raw : list cell,
    Pandas.column (Pandas.rename (remap_table self f) df) "created_at" = Ok raw
    /\ Forall2 converted raw (created_at out)
    /\ Forall (fun c => c = CMissing \/ exists t, c = CTime t) (created_at out)
    /\ length (df_rows out) = length (df_rows df).
Proof.
  intros Hrect _ H.
  destruct (clean_data_steps self f df out H) as (i & stamps & Ei & Hs & Hlen & ->).
  cbv zeta.
  set (cols := map (Pandas.new_label (remap_table self f)) (df_columns df)) in *.
  set (rows := map (fun rv : list cell * cell => Pandas.set_nth i rv.2 rv.1)
                 (combine (df_rows df) stamps)).
  exists (map (fun row => Pandas.cell_at row i) (df_rows df)).
  assert (Hcol : map (fun row => Pandas.cell_at row i) rows = stamps).
  { unfold rows. rewrite map_map.
    rewrite <- (map_snd_combine (df_rows df) stamps) at 2 by (symmetry; exact Hlen).
    apply map_ext_in. intros [r v] Hin. cbn [fst snd].
    apply cell_at_set_nth_same. apply in_combine_l in Hin.
    unfold rectangular in Hrect. rewrite Forall_forall in Hrect.
    rewrite (Hrect r) by (apply list_elem_of_In; exact Hin).
    pose proof (col_index_lt _ _ _ Ei) as Hi. unfold cols in Hi.
    rewrite length_map in Hi. exact Hi. }
  assert (Hrows : length rows = length (df_rows df)).
  { unfold rows. rewrite length_map, length_combine. lia. }
  assert (Hout : created_at
                   match Pandas.col_index cols "entry_id" with
                   | Some j =>
                       MkFrame (Pandas.remove_nth j cols)
                         (map (fun row => Pandas.cell_at row j) rows)
                         (map (Pandas.remove_nth j) rows)
                   | None => MkFrame cols (df_index df) rows
                   end = stamps).
  { unfold created_at, Pandas.column.
    destruct (Pandas.col_index cols "entry_id") as [j|] eqn:Ej;
      cbn [df_columns df_rows].
    - assert (Hji : j <> i).
      { intros ->. apply col_index_label in Ei, Ej. congruence. }
      rewrite (col_index_remove_nth_eq _ _ _ _ Ei Hji).
      rewrite map_map. rewrite <- Hcol.
      apply map_ext. intros row. apply cell_at_remove_nth. exact Hji.
    - rewrite Ei. exact Hcol. }
  rewrite Hout.
  pose proof (convert_all_converted _ _ Hs) as Hconv.
  split; [|split; [exact Hconv|split]].
  - unfold Pandas.column, Pandas.rename. cbn [df_columns df_rows].
    fold cols. rewrite Ei. reflexivity.
  - clear -Hconv. induction Hconv as [|r c raw st (t & _ & ->) _ IH]; constructor.
    + destruct t; eauto.
    + exact IH.
  - destruct (Pandas.col_index cols "entry_id"); cbn [df_rows];
      rewrite ?length_map; exact Hrows.
Qed.

(** The renamed [entry_id] column, when there is one, is taken out of the
    columns and becomes the row labels; a table without it keeps its row
    labels and all its renamed columns: the [KeyError] of the missing
    column is swallowed. *)
Theorem clean_data_index (self : Channel) (f : string) (df out : DataFrame) :
  NoDup (map (Pandas.new_label (remap_table self f)) (df_columns df)) ->
  clean_data self f df = Ok out ->
  match Pandas.column (Pandas.rename (remap_table self f) df) "entry_id" with
  | Ok ids =>
      df_index out = ids
      /\ Pandas.col_index (df_columns out) "entry_id" = None
      /\ length (df_columns out) = pred (length (df_columns df))
  | Raise _ =>
      df_index out = df_index df
      /\ df_columns out = map (Pandas.new_label (remap_table self f)) (df_columns df)
  end.
Proof.
  intros Hnd H.
  destruct (clean_data_steps self f df out H) as (i & stamps & Ei & Hs & Hlen & ->).
  cbv zeta. unfold Pandas.column, Pandas.rename. cbn [df_columns df_rows].
  set (cols := map (Pandas.new_label (remap_table self f)) (df_columns df)) in *.
  destruct (Pandas.col_index cols "entry_id") as [j|] eqn:Ej;
    cbn [df_index df_columns]; [|split; reflexivity].
  assert (Hji : i <> j).
  { intros ->. apply col_index_label in Ei, Ej. congruence. }
  split; [|split].
  - rewrite map_map.
    rewrite <- (map_fst_combine (df_rows df) stamps) at 2 by (symmetry; exact Hlen).
    rewrite map_map. apply map_ext. intros [r v]. cbn [fst snd].
    apply cell_at_set_nth_other. exact Hji.
  - destruct (Pandas.col_index (Pandas.remove_nth j cols) "entry_id") as [k|] eqn:Ek;
      [exfalso|reflexivity].
    apply col_index_label in Ek, Ej.
    clear -Hnd Ek Ej. revert j k Hnd Ek Ej.
    induction cols as [|c cols IH]; intros j k Hnd Ek Ej; [destruct j; discriminate|].
    apply NoDup_cons in Hnd. destruct Hnd as [Hc Hnd].
    destruct j as [|j]; simpl in *.
    + injection Ej as ->. apply Hc. apply list_elem_of_In.
      eapply nth_error_In. exact Ek.
    + destruct k as [|k]; simpl in *.
      * injection Ek as ->. apply Hc. apply list_elem_of_In.
        eapply nth_error_In. exact Ej.
      * exact (IH j k Hnd Ek Ej).
  - pose proof (col_index_lt _ _ _ Ej) as Hj.
    rewrite length_remove_nth by exact Hj. unfold cols. rewrite length_map. lia.
Qed.

(** A table in which no label is renamed to [created_at] is rejected with
    a [KeyError] for that label, before any stamp is converted. *)
Theorem clean_data_needs_created_at (self : Channel) (f : string) (df : DataFrame) :
  ~ In "created_at" (map (Pandas.new_label (remap_table self f)) (df_columns df)) ->
  clean_data self f df = Raise (KeyError "created_at").
Proof.
  intros Hno. unfold clean_data, Pandas.column, Pandas.rename. cbn [df_columns].
  destruct (Pandas.col_index _ "created_at") as [i|] eqn:Ei; [|reflexivity].
  exfalso. apply Hno. apply col_index_label in Ei.
  eapply nth_error_In. exact Ei.
Qed.

(** The first stamp that [to_datetime] rejects decides the result: the
    error of that cell is raised, whatever the later cells hold, and no
    table is returned. *)
Theorem clean_data_bad_stamp (self : Channel) (f : string) (df : DataFrame)
  (pre rest : list cell) (bad : cell) (e : exn) :
  Pandas.column (Pandas.rename (remap_table self f) df) "created_at"
  = Ok (pre ++ bad :: rest) ->
  Forall (fun r => exists t, to_datetime r = Ok t) pre ->
  to_datetime bad = Raise e ->
  clean_data self f df = Raise e.
Proof.
  intros Hc Hpre Hbad. unfold clean_data. rewrite Hc. cbn [rbind].
  rewrite (convert_all_stops pre rest bad e Hpre Hbad). reflexivity.
Qed.

(** *** The creation date *)

Variable session_get : string -> result string.
Variable strptime : pyval -> string -> result datetime.

Local Abbreviation created_date :=
  (created_date urlencode THINGSPEAK_API_URL session_get strptime).

(** [created_date] asks the session once, for the primary feed in JSON: a
    single result, the defaults of the builder, a start on 1990-01-01 and
    no end.  The identifier and the key are taken as they are, so a record
    without ThingSpeak keys asks with [None] in their place.  The answer
    is then parsed; the objects of the world are left as they were. *)
Theorem created_date_request (self : Channel) (w : world) :
  exists (url : string) (w' : world),
    url = (THINGSPEAK_API_URL (tp_primary_channel self) "json"
           +:+ urlencode [ ("results", PyInt 1);
                           ("api_key", tp_primary_key self);
                           ("offset", PyInt 0);
                           ("average", PyStr "");
                           ("round", PyInt 2);
                           ("start", PyStr "1990-01-01 00:00:00") ])%string
    /\ created_date self w = (rbind (session_get url) (creation_stamp strptime), w')
    /\ requests w' = requests w ++ [url]
    /\ (forall l d, objects w !! l = Some d -> objects w' !! l = Some d).
Proof.
  unfold created_date.
  set (l := fresh (dom (objects w))).
  set (w1 := World (<[l := [("results", PyInt 1)]]> (objects w)) (requests w)).
  assert (Hg : given_args w1 (Some l) = Some [("results", PyInt 1)]).
  { simpl. apply lookup_insert_eq. }
  pose proof (get_thingspeak_url_run self "primary" first_day_of_1990 None (Some l)
                "json" w1 _ (or_introl eq_refl) Hg) as Hurl.
  eexists. eexists. split; [reflexivity|]. split; [|split].
  - erewrite bind_ok by reflexivity. fold l. fold w1.
    erewrite bind_ok by exact Hurl.
    unfold bind, session_fetch, lift, creation_stamp, query_url.
    cbn [objects requests fst snd].
    change (feed_ids self "primary") with (tp_primary_channel self, tp_primary_key self).
    cbn [fst snd].
    match goal with
    | |- context [urlencode ?d] =>
        let d' := eval vm_compute in d in change d with d'
    end.
    destruct (session_get _) as [content|e]; [|reflexivity].
    cbn [rbind].
    destruct (json_loads (PyStr content)) as [data|e]; [|reflexivity].
    cbn [rbind].
    destruct (py_subscript data "channel") as [ch|e]; [|reflexivity].
    cbn [rbind].
    destruct (py_subscript ch "created_at") as [st|e]; [|reflexivity].
    cbn [rbind]. reflexivity.
  - reflexivity.
  - intros l0 d Hl. cbn [objects].
    assert (Hl1 : objects w1 !! l0 = Some d).
    { unfold w1. cbn [objects]. rewrite lookup_insert_ne; [exact Hl|].
      intros <-. unfold l in Hl. rewrite fresh_not_allocated in Hl. discriminate. }
    rewrite lookup_insert_ne; [exact Hl1|].
    intros <-. rewrite fresh_not_allocated in Hl1. discriminate.
Qed.

End Retrieval.

(** ** The properties on the sample sensor *)

Lemma setup_root : setup Sample.raw = Ok Sample.root.
Proof. vm_compute. reflexivity. Qed.

Lemma setup_child : setup Sample.raw_child = Ok Sample.child.
Proof. vm_compute. reflexivity. Qed.

Lemma setup_unresolved : setup Sample.raw_unresolved = Ok Sample.unresolved.
Proof. vm_compute. reflexivity. Qed.

Lemma sample_transport_answers (url : string) :
  exists t, Sample.read_csv url = Ok t.
Proof. unfold Sample.read_csv. destruct (String.prefix _ url); eauto. Qed.

Lemma sample_transport_rectangular (url : string) (t : DataFrame) :
  Sample.read_csv url = Ok t -> rectangular t.
Proof.
  unfold Sample.read_csv. destruct (String.prefix _ url); intros [= <-];
    repeat constructor.
Qed.

(** C4 on the sample: [Hidden] is the string [false], [Flag] is 1 and there
    is no [A_H]. *)
Lemma diagnostic_flags_sample :
  (hidden Sample.root = false <->
   dict_lookup Sample.raw "Hidden" = Some (PyStr "false"))
  /\ (flagged Sample.root = true <->
      exists v, dict_lookup Sample.raw "Flag" = Some v /\ equals_one v)
  /\ (downgraded Sample.root = true <->
      dict_lookup Sample.raw "A_H" = Some (PyStr "true")).
Proof. apply (diagnostic_flags Sample.raw Sample.root). vm_compute. reflexivity. Defined.

(** C5 on the sample: the feed [tertiary]. *)
Lemma invalid_feed_rejected_sample :
  get_thingspeak_url Sample.urlencode Sample.THINGSPEAK_API_URL Sample.root
    "tertiary" Sample.day None None "csv" Sample.empty_world
  = (Raise (ValueError (invalid_feed_message "tertiary")), Sample.empty_world)
  /\ (forall first last : datetime,
        get_historical_between Sample.urlencode Sample.THINGSPEAK_API_URL
          Sample.PARENT_PRIMARY_COLS Sample.PARENT_SECONDARY_COLS
          Sample.CHILD_PRIMARY_COLS Sample.CHILD_SECONDARY_COLS
          Sample.read_csv Sample.to_datetime
          Sample.root "tertiary" first last None Sample.empty_world
        = (Raise (ValueError (invalid_feed_message "tertiary")), Sample.empty_world))
  /\ is_TransportError (ValueError (invalid_feed_message "tertiary")) = false
  /\ is_KeyError (ValueError (invalid_feed_message "tertiary")) = false.
Proof.
  apply (invalid_feed_rejected Sample.urlencode Sample.THINGSPEAK_API_URL
           Sample.PARENT_PRIMARY_COLS Sample.PARENT_SECONDARY_COLS
           Sample.CHILD_PRIMARY_COLS Sample.CHILD_SECONDARY_COLS
           Sample.read_csv Sample.to_datetime);
    discriminate.
Defined.

(** C10 on the sample: a call with the caller's dictionary
    [{round: 5, end: X}] leaves it as it was. *)
Lemma caller_options_unchanged_sample :
  let run :=
    get_thingspeak_url Sample.urlencode Sample.THINGSPEAK_API_URL Sample.root
      "primary" Sample.day (Some Sample.next_week) (Some Sample.options_ref) "csv"
      Sample.options_world in
  objects (snd run) !! Sample.options_ref = Some Sample.options
  /\ (forall l' d', objects Sample.options_world !! l' = Some d' ->
                    objects (snd run) !! l' = Some d')
  /\ exists w'',
       get_thingspeak_url Sample.urlencode Sample.THINGSPEAK_API_URL Sample.root
         "primary" Sample.day (Some Sample.next_week) (Some Sample.options_ref) "csv"
         (snd run) = (fst run, w'')
       /\ objects w'' !! Sample.options_ref = Some Sample.options.
Proof.
  cbv zeta.
  apply (caller_options_unchanged Sample.urlencode Sample.THINGSPEAK_API_URL
           Sample.root "primary" Sample.day (Some Sample.next_week)
           Sample.options_ref Sample.options "csv" Sample.options_world).
  - vm_compute. reflexivity.
  - apply surjective_pairing.
Defined.

(** C6, as stated, fails: without options the default for [average] is the
    empty string, not [none]; and when no end date is given the caller's
    [end] entry is sent as it is. *)
Lemma query_defaults_counterexample :
  get_thingspeak_url Sample.urlencode Sample.THINGSPEAK_API_URL Sample.root
    "primary" Sample.day None None "csv" Sample.empty_world
  = (Ok "https://thingspeak.com/channels/559921/feed.csv?api_key=CU4BQZZ38WO5UJ4C&offset=0&average=&round=2&start=2021-03-01+00%3A00%3A00",
     World {[ 1%positive :=
                [ ("api_key", PyStr "CU4BQZZ38WO5UJ4C"); ("offset", PyInt 0);
                  ("average", PyStr ""); ("round", PyInt 2);
                  ("start", PyStr "2021-03-01 00:00:00") ] ]} [])
  /\ get_thingspeak_url Sample.urlencode Sample.THINGSPEAK_API_URL Sample.root
       "primary" Sample.day None (Some Sample.options_ref) "csv" Sample.options_world
     = (Ok "https://thingspeak.com/channels/559921/feed.csv?round=5&end=X&api_key=CU4BQZZ38WO5UJ4C&offset=0&average=&start=2021-03-01+00%3A00%3A00",
        World (<[ 2%positive :=
                    [ ("round", PyInt 5); ("end", PyStr "X");
                      ("api_key", PyStr "CU4BQZZ38WO5UJ4C"); ("offset", PyInt 0);
                      ("average", PyStr "");
                      ("start", PyStr "2021-03-01 00:00:00") ] ]>
                 (objects Sample.options_world)) []).
Proof. split; vm_compute; reflexivity. Qed.

(** C6 (amended) on the sample: the caller supplies [round] and [end], and
    an end date is given. *)
Lemma query_defaults_and_dates_sample :
  exists (q : dict) (w' : world),
    get_thingspeak_url Sample.urlencode Sample.THINGSPEAK_API_URL Sample.root
      "primary" Sample.day (Some Sample.next_week) (Some Sample.options_ref) "csv"
      Sample.options_world
    = (Ok (Sample.THINGSPEAK_API_URL (fst (feed_ids Sample.root "primary")) "csv"
           +:+ Sample.urlencode q), w')
    /\ dict_lookup q "api_key"
       = Some (supplied_or Sample.options "api_key" (snd (feed_ids Sample.root "primary")))
    /\ dict_lookup q "offset" = Some (supplied_or Sample.options "offset" (PyInt 0))
    /\ dict_lookup q "average" = Some (supplied_or Sample.options "average" (PyStr ""))
    /\ dict_lookup q "round" = Some (supplied_or Sample.options "round" (PyInt 2))
    /\ dict_lookup q "start"
       = Some (PyStr (Date.strftime Sample.day "%Y-%m-%d 00:00:00"))
    /\ dict_lookup q "end"
       = Some (PyStr (Date.strftime Sample.next_week "%Y-%m-%d 00:00:00"))
    /\ forall k : string,
         ~ In k ["api_key"; "offset"; "average"; "round"; "start"; "end"] ->
         dict_lookup q k = dict_lookup Sample.options k.
Proof.
  apply (query_defaults_and_dates Sample.urlencode Sample.THINGSPEAK_API_URL
           Sample.root "primary" Sample.day (Some Sample.next_week)
           (Some Sample.options_ref) "csv" Sample.options_world Sample.options).
  - left. reflexivity.
  - vm_compute. reflexivity.
Defined.

(** C3, as stated, fails: for a record built without the ThingSpeak keys
    the builder raises nothing and returns a URL for the channel [None]. *)
Lemma unresolved_feed_counterexample :
  setup Sample.raw_unresolved = Ok Sample.unresolved
  /\ get_thingspeak_url Sample.urlencode Sample.THINGSPEAK_API_URL Sample.unresolved
       "primary" Sample.day (Some Sample.next_week) None "csv" Sample.empty_world
     = (Ok "https://thingspeak.com/channels/None/feed.csv?api_key=None&offset=0&average=&round=2&start=2021-03-01+00%3A00%3A00&end=2021-03-08+00%3A00%3A00",
        World {[ 1%positive :=
                   [ ("api_key", PyNone); ("offset", PyInt 0);
                     ("average", PyStr ""); ("round", PyInt 2);
                     ("start", PyStr "2021-03-01 00:00:00");
                     ("end", PyStr "2021-03-08 00:00:00") ] ]} []).
Proof. split; vm_compute; reflexivity. Qed.

(** C3 (amended) on the sample. *)
Lemma unresolved_feed_builds_url_sample :
  exists w' : world,
    get_thingspeak_url Sample.urlencode Sample.THINGSPEAK_API_URL Sample.unresolved
      "secondary" Sample.day (Some Sample.next_week) None "csv" Sample.empty_world
    = (Ok (Sample.THINGSPEAK_API_URL PyNone "csv"
           +:+ Sample.urlencode
                 (query_args PyNone Sample.day (Some Sample.next_week) [])), w')
    /\ requests w' = requests Sample.empty_world
    /\ dict_lookup (query_args PyNone Sample.day (Some Sample.next_week) []) "api_key"
       = Some (supplied_or [] "api_key" PyNone).
Proof.
  apply (unresolved_feed_builds_url Sample.urlencode Sample.THINGSPEAK_API_URL
           Sample.raw_unresolved Sample.unresolved "THINGSPEAK_SECONDARY_ID"
           "secondary" Sample.day (Some Sample.next_week) None "csv"
           Sample.empty_world []).
  - vm_compute. reflexivity.
  - simpl. tauto.
  - reflexivity.
  - right. reflexivity.
  - reflexivity.
Defined.

(** C8 on the sample: the same sensor as a root and as a child. *)
Lemma role_selects_remap_table_sample :
  (type Sample.child = "child" <-> dict_get Sample.raw_child "ParentID" <> PyNone)
  /\ (type Sample.child = "parent" <-> dict_get Sample.raw_child "ParentID" = PyNone)
  /\ (forall f : string,
        remap_table Sample.PARENT_PRIMARY_COLS Sample.PARENT_SECONDARY_COLS
          Sample.CHILD_PRIMARY_COLS Sample.CHILD_SECONDARY_COLS Sample.child f
        = match String.eqb f "primary", String.eqb (type Sample.child) "parent" with
          | true, true => Sample.PARENT_PRIMARY_COLS
          | true, false => Sample.CHILD_PRIMARY_COLS
          | false, true => Sample.PARENT_SECONDARY_COLS
          | false, false => Sample.CHILD_SECONDARY_COLS
          end)
  /\ (forall (other : Channel) (f : string) (df : DataFrame),
        type other = type Sample.child ->
        clean_data Sample.PARENT_PRIMARY_COLS Sample.PARENT_SECONDARY_COLS
          Sample.CHILD_PRIMARY_COLS Sample.CHILD_SECONDARY_COLS Sample.to_datetime
          other f df
        = clean_data Sample.PARENT_PRIMARY_COLS Sample.PARENT_SECONDARY_COLS
            Sample.CHILD_PRIMARY_COLS Sample.CHILD_SECONDARY_COLS Sample.to_datetime
            Sample.child f df)
  /\ (forall (f : string) (df out : DataFrame),
        clean_data Sample.PARENT_PRIMARY_COLS Sample.PARENT_SECONDARY_COLS
          Sample.CHILD_PRIMARY_COLS Sample.CHILD_SECONDARY_COLS Sample.to_datetime
          Sample.child f df = Ok out ->
        df_columns out
        = without_entry_id
            (map (Pandas.new_label
                    (remap_table Sample.PARENT_PRIMARY_COLS Sample.PARENT_SECONDARY_COLS
                       Sample.CHILD_PRIMARY_COLS Sample.CHILD_SECONDARY_COLS
                       Sample.child f))
               (df_columns df))).
Proof.
  apply (role_selects_remap_table Sample.PARENT_PRIMARY_COLS
           Sample.PARENT_SECONDARY_COLS Sample.CHILD_PRIMARY_COLS
           Sample.CHILD_SECONDARY_COLS Sample.to_datetime Sample.raw_child).
  vm_compute. reflexivity.
Defined.

(** The raw column [field5] of the primary feed is named [ADC] for the root
    sensor and [RSSI_dbm] for the child. *)
Example root_and_child_rename_differently :
  rbind (clean_data Sample.PARENT_PRIMARY_COLS Sample.PARENT_SECONDARY_COLS
           Sample.CHILD_PRIMARY_COLS Sample.CHILD_SECONDARY_COLS Sample.to_datetime
           Sample.root "primary" Sample.primary_csv)
        (fun out => Ok (df_columns out))
  = Ok ["created_at"; "ADC"]
  /\ rbind (clean_data Sample.PARENT_PRIMARY_COLS Sample.PARENT_SECONDARY_COLS
              Sample.CHILD_PRIMARY_COLS Sample.CHILD_SECONDARY_COLS Sample.to_datetime
              Sample.child "primary" Sample.primary_csv)
           (fun out => Ok (df_columns out))
     = Ok ["created_at"; "RSSI_dbm"].
Proof. split; vm_compute; reflexivity. Qed.

(** C2, as stated, fails: a [Stats] value that is not JSON, or a [LastSeen]
    that is not a number, makes construction raise; and a snapshot that
    holds [THINGSPEAK_PRIMARY_ID] but not the other three keys gives a
    record whose primary channel is [None]. *)
Lemma construction_counterexample :
  setup [("Stats", PyStr "{oops")]
  = Raise (JSONDecodeError "Expecting property name enclosed in double quotes")
  /\ setup [("LastSeen", PyStr "yesterday")]
     = Raise (ValueError "invalid literal for int() with base 10")
  /\ dict_lookup Sample.raw_partial "THINGSPEAK_PRIMARY_ID" = Some (PyStr "559921")
  /\ rbind (setup Sample.raw_partial) (fun c => Ok (tp_primary_channel c)) = Ok PyNone.
Proof. repeat split; vm_compute; reflexivity. Qed.

(** C2 (amended) on the sample snapshot. *)
Lemma construction_degrades_fieldwise_sample :
  exists c : Channel,
    setup Sample.raw = Ok c
    /\ (forall k proj, In (k, proj) float_fields ->
          proj c = float_field_value (dict_get Sample.raw k))
    /\ (forall k proj, In (k, proj) plain_fields -> proj c = dict_get Sample.raw k)
    /\ (current_temp_f c = PyNone -> current_temp_c c = PyNone)
    /\ (dict_mem Sample.raw "Stats" = false ->
        Forall (fun proj => proj c = PyNone) statistics_fields)
    /\ (dict_get Sample.raw "LastSeen" = PyNone -> last_seen c = PyNone)
    /\ ((exists k, In k thingspeak_keys /\ dict_mem Sample.raw k = false) ->
        tp_primary_channel c = PyNone /\ tp_primary_key c = PyNone
        /\ tp_secondary_channel c = PyNone /\ tp_secondary_key c = PyNone
        /\ thingspeak_primary c = None /\ thingspeak_secondary c = None)
    /\ ((forall k, In k thingspeak_keys -> dict_mem Sample.raw k = true) ->
        tp_primary_channel c = dict_get Sample.raw "THINGSPEAK_PRIMARY_ID"
        /\ tp_primary_key c = dict_get Sample.raw "THINGSPEAK_PRIMARY_ID_READ_KEY"
        /\ tp_secondary_channel c = dict_get Sample.raw "THINGSPEAK_SECONDARY_ID"
        /\ tp_secondary_key c = dict_get Sample.raw "THINGSPEAK_SECONDARY_ID_READ_KEY").
Proof.
  apply (construction_degrades_fieldwise Sample.raw).
  - intros k Hin msg. simpl in Hin.
    repeat (destruct Hin as [<- | Hin]; [vm_compute; discriminate|]).
    destruct Hin.
  - right. exists (PyDict Sample.stats). split; [vm_compute; reflexivity|].
    right. exists Sample.stats. split; [reflexivity|].
    right. exists (PyDatetime (Datetime 1561767407123000)). vm_compute. reflexivity.
  - right. exists (PyDatetime (Datetime 1561767407000000)). vm_compute. reflexivity.
Defined.

(** C1 on the sample: three weeks back from 2021-03-01.  The requests are
    for the weeks that end on 02-22, 02-15 and 02-08; the week from 02-22
    to 03-01 is not among them. *)
Lemma get_historical_windows_sample :
  requests
    (snd (get_historical Sample.urlencode Sample.THINGSPEAK_API_URL
            Sample.PARENT_PRIMARY_COLS Sample.PARENT_SECONDARY_COLS
            Sample.CHILD_PRIMARY_COLS Sample.CHILD_SECONDARY_COLS
            Sample.read_csv Sample.to_datetime
            2 Sample.root 3 "primary" Sample.day None Sample.empty_world))
  = [ "https://thingspeak.com/channels/559921/feed.csv?api_key=CU4BQZZ38WO5UJ4C&offset=0&average=&round=2&start=2021-02-15+00%3A00%3A00&end=2021-02-22+00%3A00%3A00";
      "https://thingspeak.com/channels/559921/feed.csv?api_key=CU4BQZZ38WO5UJ4C&offset=0&average=&round=2&start=2021-02-08+00%3A00%3A00&end=2021-02-15+00%3A00%3A00";
      "https://thingspeak.com/channels/559921/feed.csv?api_key=CU4BQZZ38WO5UJ4C&offset=0&average=&round=2&start=2021-02-01+00%3A00%3A00&end=2021-02-08+00%3A00%3A00" ].
Proof.
  destruct (get_historical_windows Sample.urlencode Sample.THINGSPEAK_API_URL
              Sample.PARENT_PRIMARY_COLS Sample.PARENT_SECONDARY_COLS
              Sample.CHILD_PRIMARY_COLS Sample.CHILD_SECONDARY_COLS
              Sample.read_csv Sample.to_datetime
              2%nat Sample.root 3 "primary" Sample.day None [] Sample.empty_world)
    as (tables & w' & Hrun & _ & Hrq & _).
  - lia.
  - lia.
  - left. reflexivity.
  - reflexivity.
  - vm_compute. reflexivity.
  - vm_compute. reflexivity.
  - apply sample_transport_answers.
  - rewrite Hrun. cbn [snd]. rewrite Hrq. vm_compute. reflexivity.
Defined.

(** C7 on the sample: the primary feed has readings at 100 and 200, the
    secondary feed at 200 and 300. *)
Lemma dual_feed_merge_sample :
  exists m : DataFrame,
    get_all_historical_between Sample.urlencode Sample.THINGSPEAK_API_URL
      Sample.PARENT_PRIMARY_COLS Sample.PARENT_SECONDARY_COLS
      Sample.CHILD_PRIMARY_COLS Sample.CHILD_SECONDARY_COLS
      Sample.read_csv Sample.to_datetime
      Sample.root Sample.day Sample.next_week None Sample.empty_world
    = (Ok m, snd Sample.secondary_run)
    /\ forall t : cell,
         In t (created_at m)
         <-> In t (created_at (Sample.table_of Sample.primary_run))
             /\ In t (created_at (Sample.table_of Sample.secondary_run)).
Proof.
  destruct (dual_feed_merge_is_inner_join Sample.urlencode Sample.THINGSPEAK_API_URL
              Sample.PARENT_PRIMARY_COLS Sample.PARENT_SECONDARY_COLS
              Sample.CHILD_PRIMARY_COLS Sample.CHILD_SECONDARY_COLS
              Sample.read_csv Sample.to_datetime sample_transport_rectangular)
    as [Hbetween _].
  apply (Hbetween Sample.root Sample.day Sample.next_week None Sample.empty_world
           (snd Sample.primary_run) (snd Sample.secondary_run)
           (Sample.table_of Sample.primary_run) (Sample.table_of Sample.secondary_run));
    vm_compute; reflexivity.
Defined.

(** Time stamps 100, 200 on one side and 200, 300 on the other merge to
    200 alone. *)
Example dual_feed_merge_keeps_common_stamps :
  created_at (Sample.table_of Sample.primary_run) = [CTime 100; CTime 200]
  /\ created_at (Sample.table_of Sample.secondary_run) = [CTime 200; CTime 300]
  /\ rbind (fst (get_all_historical_between Sample.urlencode Sample.THINGSPEAK_API_URL
                   Sample.PARENT_PRIMARY_COLS Sample.PARENT_SECONDARY_COLS
                   Sample.CHILD_PRIMARY_COLS Sample.CHILD_SECONDARY_COLS
                   Sample.read_csv Sample.to_datetime
                   Sample.root Sample.day Sample.next_week None Sample.empty_world))
       (fun m => Ok (created_at m))
     = Ok [CTime 200].
Proof. repeat split; vm_compute; reflexivity. Qed.

(** ** The further properties on the samples *)

(** One request for the secondary feed, with the caller's options. *)
Lemma get_historical_between_one_request_sample :
  exists w' : world,
    get_historical_between Sample.urlencode Sample.THINGSPEAK_API_URL
      Sample.PARENT_PRIMARY_COLS Sample.PARENT_SECONDARY_COLS
      Sample.CHILD_PRIMARY_COLS Sample.CHILD_SECONDARY_COLS
      Sample.read_csv Sample.to_datetime
      Sample.root "secondary" Sample.day Sample.next_week
      (Some Sample.options_ref) Sample.options_world
    = (rbind (Sample.read_csv
                (window_url Sample.urlencode Sample.THINGSPEAK_API_URL Sample.root
                   "secondary" Sample.options (Sample.day, Sample.next_week)))
         (clean_data Sample.PARENT_PRIMARY_COLS Sample.PARENT_SECONDARY_COLS
            Sample.CHILD_PRIMARY_COLS Sample.CHILD_SECONDARY_COLS Sample.to_datetime
            Sample.root "secondary"), w')
    /\ requests w'
       = requests Sample.options_world
         ++ [ window_url Sample.urlencode Sample.THINGSPEAK_API_URL Sample.root
                "secondary" Sample.options (Sample.day, Sample.next_week) ]
    /\ (forall l d, objects Sample.options_world !! l = Some d ->
                    objects w' !! l = Some d).
Proof.
  apply (get_historical_between_one_request Sample.urlencode Sample.THINGSPEAK_API_URL
           Sample.PARENT_PRIMARY_COLS Sample.PARENT_SECONDARY_COLS
           Sample.CHILD_PRIMARY_COLS Sample.CHILD_SECONDARY_COLS
           Sample.read_csv Sample.to_datetime
           Sample.root "secondary" Sample.day Sample.next_week
           (Some Sample.options_ref) Sample.options Sample.options_world).
  - right. reflexivity.
  - vm_compute. reflexivity.
Defined.

(** No week, a selector that names no feed, a record without ThingSpeak
    keys: nothing is requested and [pd.concat] fails. *)
Lemma get_historical_no_weeks_sample :
  get_historical Sample.urlencode Sample.THINGSPEAK_API_URL
    Sample.PARENT_PRIMARY_COLS Sample.PARENT_SECONDARY_COLS
    Sample.CHILD_PRIMARY_COLS Sample.CHILD_SECONDARY_COLS
    Sample.read_csv Sample.to_datetime
    1 Sample.unresolved 0 "tertiary" Sample.day None Sample.empty_world
  = (Raise (ValueError "No objects to concatenate"), Sample.empty_world).
Proof.
  apply (get_historical_no_weeks Sample.urlencode Sample.THINGSPEAK_API_URL
           Sample.PARENT_PRIMARY_COLS Sample.PARENT_SECONDARY_COLS
           Sample.CHILD_PRIMARY_COLS Sample.CHILD_SECONDARY_COLS
           Sample.read_csv Sample.to_datetime
           1%nat Sample.unresolved 0 "tertiary" Sample.day None Sample.empty_world).
  - lia.
  - lia.
  - vm_compute. reflexivity.
Defined.

(** Three weeks asked, the second request fails: two requests are made and
    the table of the first is dropped. *)
Lemma get_historical_stops_at_failure_sample :
  exists w' : world,
    get_historical Sample.urlencode Sample.THINGSPEAK_API_URL
      Sample.PARENT_PRIMARY_COLS Sample.PARENT_SECONDARY_COLS
      Sample.CHILD_PRIMARY_COLS Sample.CHILD_SECONDARY_COLS
      Fixture.read_first_week Sample.to_datetime
      1 Sample.root 3 "primary" Sample.day None Sample.empty_world
    = (Raise (TransportError "503 Service Unavailable"), w')
    /\ requests w'
       = requests Sample.empty_world
         ++ map (window_url Sample.urlencode Sample.THINGSPEAK_API_URL Sample.root
                   "primary" [])
              (week_windows Sample.day 1 2)
    /\ length (requests w') = (length (requests Sample.empty_world) + 2)%nat.
Proof.
  apply (get_historical_stops_at_failure Sample.urlencode Sample.THINGSPEAK_API_URL
           Sample.PARENT_PRIMARY_COLS Sample.PARENT_SECONDARY_COLS
           Sample.CHILD_PRIMARY_COLS Sample.CHILD_SECONDARY_COLS
           Fixture.read_first_week Sample.to_datetime
           1%nat Sample.root 3 "primary" Sample.day None [] Sample.empty_world
           1%nat (TransportError "503 Service Unavailable")).
  - lia.
  - lia.
  - left. reflexivity.
  - reflexivity.
  - vm_compute. reflexivity.
  - vm_compute. reflexivity.
  - change (week_windows Sample.day 1 1)
      with [(weeks_before Sample.day 2, weeks_before Sample.day 1)].
    constructor; [|constructor].
    exists Sample.primary_csv. vm_compute. reflexivity.
  - vm_compute. reflexivity.
Defined.

(** Three weeks of both feeds: the three requests of the primary feed,
    then the three of the secondary feed. *)
Lemma get_all_historical_feed_order_sample :
  exists (ptables stables : list DataFrame) (w1 w2 : world),
    Forall2 (fun win t =>
               Sample.read_csv
                 (window_url Sample.urlencode Sample.THINGSPEAK_API_URL Sample.root
                    "primary" [] win) = Ok t)
      (week_windows Sample.day 1 (Z.to_nat 3)) ptables
    /\ Forall2 (fun win t =>
                  Sample.read_csv
                    (window_url Sample.urlencode Sample.THINGSPEAK_API_URL Sample.root
                       "secondary" [] win) = Ok t)
         (week_windows Sample.day 1 (Z.to_nat 3)) stables
    /\ requests w1
       = requests Sample.empty_world
         ++ map (window_url Sample.urlencode Sample.THINGSPEAK_API_URL Sample.root
                   "primary" [])
              (week_windows Sample.day 1 (Z.to_nat 3))
    /\ requests w2
       = requests w1
         ++ map (window_url Sample.urlencode Sample.THINGSPEAK_API_URL Sample.root
                   "secondary" [])
              (week_windows Sample.day 1 (Z.to_nat 3))
    /\ get_all_historical Sample.urlencode Sample.THINGSPEAK_API_URL
         Sample.PARENT_PRIMARY_COLS Sample.PARENT_SECONDARY_COLS
         Sample.CHILD_PRIMARY_COLS Sample.CHILD_SECONDARY_COLS
         Sample.read_csv Sample.to_datetime
         2 Sample.root 3 Sample.day None Sample.empty_world
       = match rbind (Pandas.concat ptables)
                 (clean_data Sample.PARENT_PRIMARY_COLS Sample.PARENT_SECONDARY_COLS
                    Sample.CHILD_PRIMARY_COLS Sample.CHILD_SECONDARY_COLS
                    Sample.to_datetime Sample.root "primary") with
         | Ok primary =>
             (rbind (rbind (Pandas.concat stables)
                       (clean_data Sample.PARENT_PRIMARY_COLS
                          Sample.PARENT_SECONDARY_COLS Sample.CHILD_PRIMARY_COLS
                          Sample.CHILD_SECONDARY_COLS Sample.to_datetime
                          Sample.root "secondary"))
                (fun secondary =>
                   Pandas.merge primary secondary Pandas.inner "created_at"),
              w2)
         | Raise e => (Raise e, w1)
         end.
Proof.
  apply (get_all_historical_feed_order Sample.urlencode Sample.THINGSPEAK_API_URL
           Sample.PARENT_PRIMARY_COLS Sample.PARENT_SECONDARY_COLS
           Sample.CHILD_PRIMARY_COLS Sample.CHILD_SECONDARY_COLS
           Sample.read_csv Sample.to_datetime
           2%nat Sample.root 3 Sample.day None [] Sample.empty_world).
  - lia.
  - lia.
  - reflexivity.
  - vm_compute. reflexivity.
  - vm_compute. reflexivity.
  - apply sample_transport_answers.
Defined.

(** Both feeds over a transport that fails on the second request: the two
    requests of the primary feed are all that is asked. *)
Lemma get_all_historical_primary_failure_sample :
  exists w' : world,
    get_all_historical Sample.urlencode Sample.THINGSPEAK_API_URL
      Sample.PARENT_PRIMARY_COLS Sample.PARENT_SECONDARY_COLS
      Sample.CHILD_PRIMARY_COLS Sample.CHILD_SECONDARY_COLS
      Fixture.read_first_week Sample.to_datetime
      1 Sample.root 3 Sample.day None Sample.empty_world
    = (Raise (TransportError "503 Service Unavailable"), w')
    /\ requests w'
       = requests Sample.empty_world
         ++ map (window_url Sample.urlencode Sample.THINGSPEAK_API_URL Sample.root
                   "primary" [])
              (week_windows Sample.day 1 2).
Proof.
  apply (get_all_historical_primary_failure Sample.urlencode Sample.THINGSPEAK_API_URL
           Sample.PARENT_PRIMARY_COLS Sample.PARENT_SECONDARY_COLS
           Sample.CHILD_PRIMARY_COLS Sample.CHILD_SECONDARY_COLS
           Fixture.read_first_week Sample.to_datetime
           1%nat Sample.root 3 Sample.day None [] Sample.empty_world
           1%nat (TransportError "503 Service Unavailable")).
  - lia.
  - lia.
  - reflexivity.
  - vm_compute. reflexivity.
  - vm_compute. reflexivity.
  - change (week_windows Sample.day 1 1)
      with [(weeks_before Sample.day 2, weeks_before Sample.day 1)].
    constructor; [|constructor].
    exists Sample.primary_csv. vm_compute. reflexivity.
  - vm_compute. reflexivity.
Defined.

(** Both feeds between two dates, with the caller's options. *)
Lemma get_all_historical_between_requests_sample :
  exists w1 w2 : world,
    requests w1
    = requests Sample.options_world
      ++ [ window_url Sample.urlencode Sample.THINGSPEAK_API_URL Sample.root
             "primary" Sample.options (Sample.day, Sample.next_week) ]
    /\ requests w2
       = requests w1
         ++ [ window_url Sample.urlencode Sample.THINGSPEAK_API_URL Sample.root
                "secondary" Sample.options (Sample.day, Sample.next_week) ]
    /\ get_all_historical_between Sample.urlencode Sample.THINGSPEAK_API_URL
         Sample.PARENT_PRIMARY_COLS Sample.PARENT_SECONDARY_COLS
         Sample.CHILD_PRIMARY_COLS Sample.CHILD_SECONDARY_COLS
         Sample.read_csv Sample.to_datetime
         Sample.root Sample.day Sample.next_week (Some Sample.options_ref)
         Sample.options_world
       = match rbind (Sample.read_csv
                        (window_url Sample.urlencode Sample.THINGSPEAK_API_URL
                           Sample.root "primary" Sample.options
                           (Sample.day, Sample.next_week)))
                 (clean_data Sample.PARENT_PRIMARY_COLS Sample.PARENT_SECONDARY_COLS
                    Sample.CHILD_PRIMARY_COLS Sample.CHILD_SECONDARY_COLS
                    Sample.to_datetime Sample.root "primary") with
         | Ok primary =>
             (rbind (rbind (Sample.read_csv
                              (window_url Sample.urlencode Sample.THINGSPEAK_API_URL
                                 Sample.root "secondary" Sample.options
                                 (Sample.day, Sample.next_week)))
                       (clean_data Sample.PARENT_PRIMARY_COLS
                          Sample.PARENT_SECONDARY_COLS Sample.CHILD_PRIMARY_COLS
                          Sample.CHILD_SECONDARY_COLS Sample.to_datetime
                          Sample.root "secondary"))
                (fun secondary =>
                   Pandas.merge primary secondary Pandas.inner "created_at"),
              w2)
         | Raise e => (Raise e, w1)
         end.
Proof.
  apply (get_all_historical_between_requests Sample.urlencode Sample.THINGSPEAK_API_URL
           Sample.PARENT_PRIMARY_COLS Sample.PARENT_SECONDARY_COLS
           Sample.CHILD_PRIMARY_COLS Sample.CHILD_SECONDARY_COLS
           Sample.read_csv Sample.to_datetime
           Sample.root Sample.day Sample.next_week (Some Sample.options_ref)
           Sample.options Sample.options_world).
  vm_compute. reflexivity.
Defined.

(** The primary table of the sample, cleaned: the stamps 100 and 200 have
    become times. *)
Lemma clean_data_converts_stamps_sample :
  exists raw : list cell,
    Pandas.column
      (Pandas.rename
         (remap_table Sample.PARENT_PRIMARY_COLS Sample.PARENT_SECONDARY_COLS
            Sample.CHILD_PRIMARY_COLS Sample.CHILD_SECONDARY_COLS Sample.root
            "primary")
         Sample.primary_csv) "created_at" = Ok raw
    /\ Forall2 (converted Sample.to_datetime) raw
         (created_at (Sample.table_of Sample.primary_run))
    /\ Forall (fun c => c = CMissing \/ exists t, c = CTime t)
         (created_at (Sample.table_of Sample.primary_run))
    /\ length (df_rows (Sample.table_of Sample.primary_run))
       = length (df_rows Sample.primary_csv).
Proof.
  apply (clean_data_converts_stamps Sample.PARENT_PRIMARY_COLS
           Sample.PARENT_SECONDARY_COLS Sample.CHILD_PRIMARY_COLS
           Sample.CHILD_SECONDARY_COLS Sample.to_datetime Sample.root "primary"
           Sample.primary_csv (Sample.table_of Sample.primary_run)).
  - repeat constructor.
  - apply (bool_decide_unpack _). vm_compute. exact I.
  - vm_compute. reflexivity.
Defined.

(** The primary table of the sample, cleaned: the entry numbers 7 and 8
    have become the row labels. *)
Lemma clean_data_index_sample :
  match Pandas.column
          (Pandas.rename
             (remap_table Sample.PARENT_PRIMARY_COLS Sample.PARENT_SECONDARY_COLS
                Sample.CHILD_PRIMARY_COLS Sample.CHILD_SECONDARY_COLS Sample.root
                "primary")
             Sample.primary_csv) "entry_id" with
  | Ok ids =>
      df_index (Sample.table_of Sample.primary_run) = ids
      /\ Pandas.col_index (df_columns (Sample.table_of Sample.primary_run)) "entry_id"
         = None
      /\ length (df_columns (Sample.table_of Sample.primary_run))
         = pred (length (df_columns Sample.primary_csv))
  | Raise _ =>
      df_index (Sample.table_of Sample.primary_run) = df_index Sample.primary_csv
      /\ df_columns (Sample.table_of Sample.primary_run)
         = map (Pandas.new_label
                  (remap_table Sample.PARENT_PRIMARY_COLS Sample.PARENT_SECONDARY_COLS
                     Sample.CHILD_PRIMARY_COLS Sample.CHILD_SECONDARY_COLS Sample.root
                     "primary"))
             (df_columns Sample.primary_csv)
  end.
Proof.
  apply (clean_data_index Sample.PARENT_PRIMARY_COLS
           Sample.PARENT_SECONDARY_COLS Sample.CHILD_PRIMARY_COLS
           Sample.CHILD_SECONDARY_COLS Sample.to_datetime Sample.root "primary"
           Sample.primary_csv (Sample.table_of Sample.primary_run)).
  - apply (bool_decide_unpack _). vm_compute. exact I.
  - vm_compute. reflexivity.
Defined.

(** A table without time stamps is rejected. *)
Lemma clean_data_needs_created_at_sample :
  clean_data Sample.PARENT_PRIMARY_COLS Sample.PARENT_SECONDARY_COLS
    Sample.CHILD_PRIMARY_COLS Sample.CHILD_SECONDARY_COLS Sample.to_datetime
    Sample.root "primary" Fixture.no_stamps
  = Raise (KeyError "created_at").
Proof.
  apply (clean_data_needs_created_at Sample.PARENT_PRIMARY_COLS
           Sample.PARENT_SECONDARY_COLS Sample.CHILD_PRIMARY_COLS
           Sample.CHILD_SECONDARY_COLS Sample.to_datetime Sample.root "primary"
           Fixture.no_stamps).
  vm_compute. intros [H | [H | []]]; discriminate H.
Defined.

(** A table whose second stamp is a word is rejected with the error of
    that stamp. *)
Lemma clean_data_bad_stamp_sample :
  clean_data Sample.PARENT_PRIMARY_COLS Sample.PARENT_SECONDARY_COLS
    Sample.CHILD_PRIMARY_COLS Sample.CHILD_SECONDARY_COLS Sample.to_datetime
    Sample.root "primary" Fixture.bad_stamps
  = Raise (ValueError "time data does not match format").
Proof.
  apply (clean_data_bad_stamp Sample.PARENT_PRIMARY_COLS
           Sample.PARENT_SECONDARY_COLS Sample.CHILD_PRIMARY_COLS
           Sample.CHILD_SECONDARY_COLS Sample.to_datetime Sample.root "primary"
           Fixture.bad_stamps [CInt 100] [CInt 300] (CStr "yesterday")).
  - vm_compute. reflexivity.
  - constructor; [|constructor]. exists (Some 100). reflexivity.
  - reflexivity.
Defined.

(** A [Stats] that is a JSON list: the channel is not constructed. *)
Lemma setup_stats_errors_sample :
  setup Fixture.stats_as_list = Raise (AttributeError "object has no attribute 'get'").
Proof.
  apply (proj2 (setup_stats_errors Fixture.stats_as_list
                  ltac:(intros k Hin msg; simpl in Hin;
                        repeat (destruct Hin as [<- | Hin]; [vm_compute; discriminate|]);
                        destruct Hin)
                  eq_refl)
           (PyList [PyInt 1; PyInt 2])).
  - vm_compute. reflexivity.
  - discriminate.
  - discriminate.
Defined.

(** A [LastSeen] that is a word: the channel is not constructed. *)
Lemma setup_last_seen_error_sample :
  setup Fixture.last_seen_text
  = Raise (ValueError "invalid literal for int() with base 10").
Proof.
  apply (setup_last_seen_error Fixture.last_seen_text).
  - intros k Hin msg. simpl in Hin.
    repeat (destruct Hin as [<- | Hin]; [vm_compute; discriminate|]).
    destruct Hin.
  - left. reflexivity.
  - discriminate.
  - vm_compute. reflexivity.
Defined.

(** The flat export of the root sensor of the sample. *)
Lemma flat_export_of_snapshot_sample :
  (forall raw export : string,
     In (raw, export) exported_plain ->
     dict_lookup (as_flat_dict Sample.root) export = Some (dict_get Sample.raw raw))
  /\ (forall raw export : string,
        In (raw, export) exported_float ->
        dict_lookup (as_flat_dict Sample.root) export
        = Some (float_field_value (dict_get Sample.raw raw)))
  /\ (exists t : pyval,
        dict_lookup (as_flat_dict Sample.root) "temp_c" = Some t
        /\ (if is_none (float_field_value (dict_get Sample.raw "temp_f")) then Ok PyNone
            else celsius (float_field_value (dict_get Sample.raw "temp_f"))) = Ok t)
  /\ length (as_flat_dict Sample.root)
     = (length exported_plain + length exported_float + 12)%nat.
Proof. exact (flat_export_of_snapshot Sample.raw Sample.root setup_root). Defined.

(** The printed form of the child sensor of the sample. *)
Lemma repr_names_parent_of_child_sample :
  repr Sample.str Sample.child = "Sensor 14633, child of 14632".
Proof.
  rewrite (repr_names_parent_of_child Sample.str Sample.raw_child Sample.child
             setup_child).
  vm_compute. reflexivity.
Defined.

Lemma setup_fixture_sensor :
  Sensor.setup Fixture.geocoder (PyInt 14633) Fixture.snapshot true
  = Ok Fixture.sensor.
Proof. vm_compute. reflexivity. Qed.

Lemma setup_fixture_channel : setup Fixture.snapshot = Ok Fixture.channel.
Proof. vm_compute. reflexivity. Qed.

(** The snapshot of the sample sensor holds the sixteen keys. *)
Lemma sensor_setup_needs_every_key_sample :
  Forall (fun k => dict_mem Fixture.snapshot k = true) Sensor.required_keys.
Proof.
  exact (sensor_setup_needs_every_key Fixture.geocoder (PyInt 14633) Fixture.snapshot
           true Fixture.sensor setup_fixture_sensor).
Defined.

(** The statistics block of the sample sensor. *)
Lemma sensor_statistics_all_or_nothing_sample :
  match Sensor.statistics Fixture.sensor with
  | None => py_bool (dict_get Fixture.snapshot "Stats") = false
  | Some b =>
      py_bool (dict_get Fixture.snapshot "Stats") = true
      /\ exists st : dict,
           json_loads (dict_get Fixture.snapshot "Stats") = Ok (PyDict st)
           /\ Sensor.pm2_5stats b = PyDict st
           /\ (forall k attr, In (k, attr) Sensor.averages ->
                              dict_lookup st k = Some (attr b))
           /\ Sensor.last2_modified b = dict_get st "timeSinceModified"
           /\ (Sensor.last_modified_stats b = PyNone
               \/ exists d : datetime,
                    millis_to_datetime (dict_get st "lastModified") = Ok (PyDatetime d)
                    /\ Sensor.last_modified_stats b = PyDatetime d)
  end.
Proof.
  exact (sensor_statistics_all_or_nothing Fixture.geocoder (PyInt 14633)
           Fixture.snapshot true Fixture.sensor setup_fixture_sensor).
Defined.

(** The sample sensor is useful. *)
Lemma sensor_is_useful_answers_sample : Sensor.is_useful Fixture.sensor = Ok true.
Proof.
  destruct (sensor_is_useful_answers Fixture.geocoder (PyInt 14633) Fixture.snapshot
              true Fixture.sensor setup_fixture_sensor) as (b & Hb & _).
  rewrite Hb. vm_compute in Hb. symmetry. exact Hb.
Defined.

(** The location of the sample sensor is the answer of the geocoder. *)
Lemma sensor_location_on_request_sample :
  Sensor.location Fixture.sensor = Some (PyStr "Hazelwood Avenue, San Jose").
Proof.
  pose proof (sensor_location_on_request Fixture.geocoder (PyInt 14633)
                Fixture.snapshot true Fixture.sensor setup_fixture_sensor) as H.
  destruct (Sensor.location Fixture.sensor) as [l|].
  - destruct H as [_ H]. vm_compute in H. injection H as <-. reflexivity.
  - discriminate H.
Defined.

(** With the geocoder out of reach the sample sensor is not constructed. *)
Lemma sensor_geocoder_failure_sample :
  Sensor.setup Fixture.geocoder_down (PyInt 14633) Fixture.snapshot true
  = Raise (TransportError "geocoder unavailable").
Proof.
  apply (sensor_geocoder_failure Fixture.geocoder_down (PyInt 14633) Fixture.snapshot).
  - repeat constructor.
  - reflexivity.
Defined.

(** The two classes on the sample snapshot, whose [A_H] is the text
    [true]: the channel is downgraded, the sensor is not. *)
Lemma sensor_and_channel_on_one_snapshot_sample :
  downgraded Fixture.channel = true
  /\ Sensor.downgraded Fixture.sensor = false
  /\ current_temp_c Fixture.channel = Sensor.current_temp_c Fixture.sensor
  /\ lat Fixture.channel = float_field_value (Sensor.lat Fixture.sensor).
Proof.
  destruct (sensor_and_channel_on_one_snapshot Fixture.geocoder (PyInt 14633)
              Fixture.snapshot true Fixture.sensor Fixture.channel
              setup_fixture_sensor setup_fixture_channel)
    as (_ & (Hlat & _) & (_ & Htc) & _ & Hd).
  split; [reflexivity|]. split; [apply Hd; reflexivity|]. split; assumption.
Defined.
